(** * BlenderGIS basemaps: tile pyramid, GeoPackage tile cache and map service

    A shallow embedding of [basemaps/mapviewer.py] (classes [GeoPackage],
    [TileMatrix], [GeoImage], [MapService]) and of the unit helpers of
    [geoscene/proj.py].

    Conventions of the embedding
    - Python [int] is [Z]; a Python [float] is the exact rational [Q] that it
      denotes, so that comparisons are those of the code.  Arithmetic on
      floats is idealised as exact, except where the rounding of binary64
      decides a result that a property speaks of: there the operation is that
      of IEEE 754 (module [Float64], built on the specification of the
      library).
    - A Python call that may raise returns a [result]; code that also reads or
      mutates the service object, the file system or the network runs in the
      state-and-exception monad [M] defined further down.
    - What lives outside the repository (sqlite3, urllib, imghdr, PIL, GDAL,
      the reprojection engine) is described by a small model of its behaviour
      or taken as a parameter of the [Env] record. *)

From Stdlib Require Import ZArith QArith Qround Bool List String Sorted Lia Lqa.
From Corelib Require SpecFloat.
From stdpp Require Import gmap strings pretty.
Import ListNotations.

Open Scope Z_scope.

(** ** Exceptions and results *)

Inductive exn : Set :=
  | IndexError | ZeroDivisionError | ValueError | TypeError | KeyError
  | AttributeError | NameError | NotImplementedError
  | DatabaseError | OperationalError | IntegrityError | OverflowError
  | ReprojError | RecursionError.

Inductive result (A : Type) : Type :=
  | Ok (a : A)
  | Raise (e : exn).
Arguments Ok {A} a.
Arguments Raise {A} e.

Definition result_bind {A B} (r : result A) (k : A -> result B) : result B :=
  match r with
  | Ok a => k a
  | Raise e => Raise e
  end.

#[global] Instance result_ret : MRet result := fun _ a => Ok a.
#[global] Instance result_mbind : MBind result := fun _ _ k r => result_bind r k.

Definition bytes := list Byte.byte.

(** ** Python numerics *)

(** [l[i]] with Python's negative indices; out of range raises IndexError. *)
Definition py_index {A} (l : list A) (i : Z) : result A :=
  let n := Z.of_nat (length l) in
  let j := if i <? 0 then i + n else i in
  if (j <? 0) || (n <=? j) then Raise IndexError
  else match nth_error l (Z.to_nat j) with
       | Some a => Ok a
       | None => Raise IndexError
       end.

(** [a / b] *)
Definition py_div (a b : Q) : result Q :=
  if Qeq_bool b 0 then Raise ZeroDivisionError else Ok (a / b)%Q.

(** [b ** e] for an integer exponent *)
Definition py_pow (b : Q) (e : Z) : result Q :=
  if Qeq_bool b 0 && (e <? 0) then Raise ZeroDivisionError else Ok (b ^ e)%Q.

Definition Qlt_bool (a b : Q) : bool := negb (Qle_bool b a).

Definition Qabs' (a : Q) : Q := if Qle_bool 0 a then a else (- a)%Q.

Definition Qmax' (a b : Q) : Q := if Qle_bool a b then b else a.

(** [range(n)] as integers *)
Definition py_range (n : Z) : list Z := map Z.of_nat (seq 0 (Z.to_nat n)).

(** [enumerate(l)] *)
Definition enumerate {A} (l : list A) : list (Z * A) :=
  combine (py_range (Z.of_nat (length l))) l.

(** [for x in l: acc = f(acc, x)] where the body may raise *)
Fixpoint result_mapM {A B} (f : A -> result B) (l : list A) : result (list B) :=
  match l with
  | [] => Ok []
  | a :: l' => b ← f a; bs ← result_mapM f l'; Ok (b :: bs)
  end.

(** [list.sort(reverse=True)]: a stable descending insertion sort *)
Fixpoint insert_desc (x : Q) (l : list Q) : list Q :=
  match l with
  | [] => [x]
  | y :: l' => if Qle_bool y x then x :: l else y :: insert_desc x l'
  end.

Definition sort_reverse (l : list Q) : list Q := fold_right insert_desc [] l.

(** ** Python floats in binary64

    The operations of IEEE 754 binary64 (53 bits of precision, round to
    nearest, ties to even) as [SpecFloat] specifies them.  A float of the
    code is carried as the rational it denotes; [of_Q] gives its binary64
    form back (and rounds a rational that is no binary64 number to the
    nearest one, as Python reads a decimal literal). *)

Module Float64.

Definition prec : Z := 53.
Definition emax : Z := 1024.

Definition of_Z (z : Z) : SpecFloat.spec_float :=
  SpecFloat.binary_normalize prec emax z 0 false.

Definition of_Q (q : Q) : SpecFloat.spec_float :=
  let q := Qred q in
  let d := Z.pos (Qden q) in
  let k := Z.log2 d in
  if 2 ^ k =? d then SpecFloat.binary_normalize prec emax (Qnum q) (- k) false
  else SpecFloat.SFdiv prec emax (of_Z (Qnum q)) (of_Z d).

(** The rational that a finite float denotes. *)
Definition to_Q (x : SpecFloat.spec_float) : option Q :=
  match x with
  | SpecFloat.S754_zero _ => Some 0%Q
  | SpecFloat.S754_finite s m e =>
      let n := if s then Z.neg m else Z.pos m in
      Some (Qred (if 0 <=? e then inject_Z (n * 2 ^ e)
                  else n # Z.to_pos (2 ^ (- e))))
  | _ => None
  end.

(** [q] is a binary64 number. *)
Definition is_value (q : Q) : bool :=
  match to_Q (of_Q q) with
  | Some q' => Qeq_bool q' q
  | None => false
  end.

(** The float that Python reads from the decimal literal of [q]. *)
Definition literal (q : Q) : Q := default 0%Q (to_Q (of_Q q)).

(** [x - y] and [x < y] on floats *)
Definition sub (x y : Q) : SpecFloat.spec_float :=
  SpecFloat.SFsub prec emax (of_Q x) (of_Q y).

Definition ltb (x y : SpecFloat.spec_float) : bool := SpecFloat.SFltb x y.

End Float64.

(** ** geoscene/proj.py: unit helpers *)

Module Proj.

(** [math.pi], the double nearest to pi, as an exact rational *)
Definition math_pi : Q := (884279719003555 # 281474976710656)%Q.

(** class Ellps *)
Record Ellps := { a : Q; b : Q }.
Definition f (e : Ellps) : Q := ((a e - b e) / a e)%Q.
Definition perimeter (e : Ellps) : Q := (2 * math_pi * a e)%Q.

Definition GRS80 : Ellps := {| a := 6378137; b := (6356752314245 # 1000000)%Q |}.

Definition dd2meters (dst : Q) : Q :=
  let k := (perimeter GRS80 / 360)%Q in (dst * k)%Q.

Definition meters2dd (dst : Q) : Q :=
  let k := (perimeter GRS80 / 360)%Q in (dst / k)%Q.

End Proj.

(** ** class TileMatrix *)

Module TileMatrix.

Inductive origin := NW | SW.
Inductive unit_kind := degrees | meters.

(** The object once [__init__] has run.  [resolutions = None] stands for
    [not hasattr(self, 'resolutions')]; [initRes] and [resFactor] are read
    only in that case. *)
Record t := {
  CRS : string;
  tileSize : Z;
  originLoc : origin;
  xmin : Q; ymin : Q; xmax : Q; ymax : Q;
  resolutions : option (list Q);
  initRes : Q;
  resFactor : Q;
  nbLevels : Z;
  units : unit_kind
}.

(** The grid dictionary of [GRIDS]. *)
Record gridDef := {
  gd_CRS : string;
  gd_bbox : Q * Q * Q * Q;
  gd_bboxCRS : string;
  gd_tileSize : Z;
  gd_originLoc : string;
  gd_resFactor : option Q;
  gd_initRes : option Q;
  gd_nbLevels : option Z;
  gd_resolutions : option (list Q)
}.

Definition defaultNbLevels : Z := 24.

Section Init.
(** [reprojPt] of geoscene.proj and [CRS(..).isGeo]: the projection
    engine is outside this development. *)
Variable reprojPt : string -> string -> Q -> Q -> result (Q * Q).
Variable isGeo : string -> bool.

(** [geoToProj], as used by [__init__] when [self.CRS] is already set *)
Definition geoToProj (crs : string) (long lat : Q) : result (Q * Q) :=
  if String.eqb crs "EPSG:4326" then Ok (long, lat)
  else reprojPt "4326" crs long lat.

Definition init (g : gridDef) : result t :=
  let '(b0, b1, b2, b3) := gd_bbox g in
  '(xmin_, ymin_, xmax_, ymax_) ←
    (if negb (String.eqb (gd_bboxCRS g) (gd_CRS g)) then
       '(x0, y1) ← geoToProj (gd_CRS g) b0 b3;
       '(x1, y0) ← geoToProj (gd_CRS g) b2 b1;
       Ok (x0, y0, x1, y1)
     else Ok (b0, b1, b2, b3));
  '(resolutions_, resFactor_, initRes_, nbLevels_) ←
    match gd_resolutions g with
    | None =>
        let resFactor_ := default 2%Q (gd_resFactor g) in
        initRes_ ←
          match gd_initRes g with
          | Some r => Ok r
          | None =>
              let dx := Qabs' (xmax_ - xmin_) in
              let dy := Qabs' (ymax_ - ymin_) in
              let dst := Qmax' dx dy in
              py_div dst (inject_Z (gd_tileSize g))
          end;
        let nbLevels_ := default defaultNbLevels (gd_nbLevels g) in
        Ok (None, resFactor_, initRes_, nbLevels_)
    | Some l =>
        let l' := sort_reverse l in
        Ok (Some l', default 0%Q (gd_resFactor g),
            default 0%Q (gd_initRes g), Z.of_nat (length l'))
    end;
  originLoc_ ←
    (if String.eqb (gd_originLoc g) "NW" then Ok NW
     else if String.eqb (gd_originLoc g) "SW" then Ok SW
     else Raise NotImplementedError);
  Ok {| CRS := gd_CRS g; tileSize := gd_tileSize g;
        originLoc := originLoc_;
        xmin := xmin_; ymin := ymin_; xmax := xmax_; ymax := ymax_;
        resolutions := resolutions_;
        initRes := initRes_; resFactor := resFactor_;
        nbLevels := nbLevels_;
        units := if isGeo (gd_CRS g) then degrees else meters |}.
End Init.

(** [self.originx, self.originy], fixed by [__init__] from [originLoc] *)
Definition originx (tm : t) : Q := xmin tm.
Definition originy (tm : t) : Q :=
  match originLoc tm with NW => ymax tm | SW => ymin tm end.

Definition globalbbox (tm : t) : Q * Q * Q * Q :=
  (xmin tm, ymin tm, xmax tm, ymax tm).

Definition getResList (tm : t) : result (list Q) :=
  match resolutions tm with
  | Some l => Ok l
  | None =>
      result_mapM (fun zoom => p ← py_pow (resFactor tm) zoom; py_div (initRes tm) p)
                  (py_range (nbLevels tm))
  end.

Definition getRes (tm : t) (zoom : Z) : result Q :=
  match resolutions tm with
  | Some l =>
      let len := Z.of_nat (length l) in
      let zoom := if zoom >? len then len else zoom in
      py_index l zoom
  | None => p ← py_pow (resFactor tm) zoom; py_div (initRes tm) p
  end.

(** The body of the [for z1, v1 in enumerate(resLst)] loop of
    [getNearestZoom]; falling off the loop returns [None]. *)
Fixpoint nearest_scan (resLst : list Q) (res : Q) (rule : string)
    (items : list (Z * Q)) : result (option Z) :=
  match items with
  | [] => Ok None
  | (z1, v1) :: rest =>
      if Qeq_bool v1 res then Ok (Some z1)
      else if z1 =? Z.of_nat (length resLst) - 1 then Ok (Some z1)
      else
        let z2 := z1 + 1 in
        v2 ← py_index resLst z2;
        if Qeq_bool v2 res then Ok (Some z2)
        else if Qlt_bool res v1 && Qlt_bool v2 res then
          if String.eqb rule "lower" then Ok (Some z1)
          else if String.eqb rule "higher" then Ok (Some z2)
          else
            let d1 := Float64.sub v1 res in
            let d2 := Float64.sub res v2 in
            if Float64.ltb d1 d2 then Ok (Some z1) else Ok (Some z2)
        else nearest_scan resLst res rule rest
  end.

Definition getNearestZoom (tm : t) (res : Q) (rule : string) : result (option Z) :=
  resLst ← getResList tm;
  nearest_scan resLst res rule (enumerate resLst).



Definition getTileNumber (tm : t) (x y : Q) (zoom : Z) : result (Z * Z) :=
  res ← getRes tm zoom;
  let geoTileSize := (inject_Z (tileSize tm) * res)%Q in
  let dx := (x - originx tm)%Q in
  let dy := match originLoc tm with
            | NW => (originy tm - y)%Q
            | SW => (y - originy tm)%Q
            end in
  col ← py_div dx geoTileSize;
  row ← py_div dy geoTileSize;
  Ok (Qfloor col, Qfloor row).

Definition getTileCoords (tm : t) (col row zoom : Z) : result (Q * Q) :=
  res ← getRes tm zoom;
  let geoTileSize := (inject_Z (tileSize tm) * res)%Q in
  let x := (originx tm + inject_Z col * geoTileSize)%Q in
  let y := match originLoc tm with
           | NW => (originy tm - inject_Z row * geoTileSize)%Q
           | SW => (originy tm + inject_Z row * geoTileSize + geoTileSize)%Q
           end in
  Ok (x, y).

Definition getTileBbox (tm : t) (col row zoom : Z) : result (Q * Q * Q * Q) :=
  '(xmin_, ymax_) ← getTileCoords tm col row zoom;
  r1 ← getRes tm zoom;
  let xmax_ := (xmin_ + inject_Z (tileSize tm) * r1)%Q in
  r2 ← getRes tm zoom;
  let ymin_ := (ymax_ - inject_Z (tileSize tm) * r2)%Q in
  Ok (xmin_, ymin_, xmax_, ymax_).

End TileMatrix.


(** ** The world outside the repository *)

(** A tile key as the tile table stores it: [(zoom_level, tile_column, tile_row)]. *)
Definition tile_key : Type := Z * Z * Z.

(** Rows of the four metadata tables of a GeoPackage. *)
Record contents_row := {
  c_data_type : string; c_identifier : string; c_description : string;
  c_min_x : Q; c_min_y : Q; c_max_x : Q; c_max_y : Q; c_srs_id : Z }.

Record srs_row := {
  s_organization : string; s_organization_coordsys_id : Z;
  s_srs_name : string; s_definition : string }.

Record tms_row := {
  ms_srs_id : Z; ms_min_x : Q; ms_min_y : Q; ms_max_x : Q; ms_max_y : Q }.

Record tm_row := {
  m_matrix_width : Z; m_matrix_height : Z;
  m_tile_width : Z; m_tile_height : Z;
  m_pixel_x_size : Q; m_pixel_y_size : Q }.

(** An SQLite database file, as far as this program can tell two files apart:
    the application id of the header, the tables with their column names, and
    the rows of the tables this program writes, keyed by primary key (for
    [gpkg_tiles] by the UNIQUE triple, with the value
    [(tile_data, last_modified)], the time stamp in seconds of local time). *)
Record database := {
  application_id : Z;
  schema : gmap string (list string);
  gpkg_contents : gmap string contents_row;
  gpkg_spatial_ref_sys : gmap Z srs_row;
  gpkg_tile_matrix_set : gmap string tms_row;
  gpkg_tile_matrix : gmap (string * Z) tm_row;
  gpkg_tiles : gmap tile_key (bytes * Z)
}.

(** What a freshly created (zero-length) database file holds. *)
Definition empty_database : database :=
  {| application_id := 0; schema := ∅; gpkg_contents := ∅;
     gpkg_spatial_ref_sys := ∅; gpkg_tile_matrix_set := ∅;
     gpkg_tile_matrix := ∅; gpkg_tiles := ∅ |}.

(** A file of the cache folder: an SQLite database, or bytes that SQLite
    rejects ("file is not a database") on the first statement. *)
Inductive file :=
  | Sqlite (d : database)
  | NotADatabase (content : bytes).

(** A georeferenced PIL image.  A mosaic is the blank canvas of
    [Image.new("RGBA", (w, h), None)] together with the pastes made on it, in
    order; a pasted tile is either decoded from downloaded bytes or a flat
    tile of one colour.  [Warped] is the raster that the GDAL warp returns. *)
Inductive tile_image :=
  | Decoded (data : bytes)
  | Flat (w h : Z) (color : string).

Inductive image :=
  | Mosaic (w h : Z) (pastes : list (tile_image * (Z * Z)))
  | Warped (w h : Z) (pixels : bytes).

Definition image_size (i : image) : Z * Z :=
  match i with
  | Mosaic w h _ => (w, h)
  | Warped w h _ => (w, h)
  end.

(** class GeoImage *)
Module GeoImage.
Record t := { img : image; ul : Q * Q; res : Q }.

Definition geoSize (g : t) : Q * Q :=
  let '(w, h) := image_size (img g) in
  (inject_Z w * res g, inject_Z h * res g)%Q.

Definition bbox (g : t) : Q * Q * Q * Q :=
  let '(w, h) := image_size (img g) in
  let '(xmin, ymax) := ul g in
  let xmax := (xmin + inject_Z w * res g)%Q in
  let ymin := (ymax - inject_Z h * res g)%Q in
  (xmin, ymin, xmax, ymax).

Definition corners (g : t) : (Q * Q) * (Q * Q) * (Q * Q) * (Q * Q) :=
  let '(xmin, ymin, xmax, ymax) := bbox g in
  ((xmin, ymax), (xmax, ymax), (xmax, ymin), (xmin, ymin)).

End GeoImage.

(** The libraries and services the program calls.  [None] or [Raise] stands
    for the call raising. *)
Record Env := {
  (** [os.path.splitext(os.path.basename(path))[0]] *)
  path_stem : string -> string;
  (** [auth, code = crs.split(':')] followed by [int(code)] *)
  split_srid : string -> result (string * Z);
  (** the compile-time limit SQLITE_MAX_VARIABLE_NUMBER of the SQLite in use *)
  sqlite_max_variables : Z;
  (** [imghdr.what(None, data)] *)
  imghdr_what : bytes -> option string;
  (** [urlopen(Request(url, None, headers), timeout=3).read()], [None] when
      the request raises *)
  http_get : string -> option bytes;
  (** [Image.open(io.BytesIO(data))] succeeds *)
  Image_open_ok : bytes -> bool;
  (** [img.save(b, format='PNG'); b.getvalue()] *)
  png_bytes : image -> bytes;
  (** [reprojBbox] of geoscene.proj *)
  reprojBbox : string -> string -> Q * Q * Q * Q -> result (Q * Q * Q * Q);
  (** the module flag [GDAL] (whether [osgeo] could be imported) *)
  GDAL : bool;
  (** the body of [reprojImg] once GDAL is known to be there: the warp *)
  gdal_reprojImg : string -> string -> GeoImage.t ->
                   option (Q * Q) -> option (Z * Z) -> option Q -> result GeoImage.t
}.

(** [reprojImg] (mapviewer.py): refuses without GDAL, warps otherwise. *)
Definition reprojImg (env : Env) (crs1 crs2 : string) (geoimg : GeoImage.t)
    (out_ul : option (Q * Q)) (out_size : option (Z * Z)) (out_res : option Q)
    : result GeoImage.t :=
  if negb (GDAL env) then Raise NotImplementedError
  else gdal_reprojImg env crs1 crs2 geoimg out_ul out_size out_res.

(** ** State and the monad of effectful code *)

(** What the program does to the outside, in order. *)
Inductive event :=
  | SqlExec (path : string)      (** statements run on the database at [path] *)
  | HttpGet (url : string).      (** a tile request sent to the map service *)

(** The GeoPackage object ([self.*] of class GeoPackage). *)
Record geopackage := {
  dbPath : string;
  name : string;
  auth : string;
  code : Z;
  gp_tileSize : Z;
  gp_xmin : Q; gp_ymin : Q; gp_xmax : Q; gp_ymax : Q;
  gp_resolutions : list Q
}.

(** The mutable part of the world: the cache folder, the clock, the trace of
    outside calls, and the mutable attributes of the MapService object. *)
Record state := {
  files : gmap string file;
  now : Z;
  trace : list event;
  caches : gmap string geopackage;
  running : bool;
  nbTiles : Z;
  cptTiles : Z
}.

Definition M (A : Type) : Type := state -> result A * state.

#[global] Instance M_ret : MRet M := fun _ a s => (Ok a, s).
#[global] Instance M_bind : MBind M := fun _ _ k m s =>
  match m s with
  | (Ok a, s') => k a s'
  | (Raise e, s') => (Raise e, s')
  end.

Definition lift {A} (r : result A) : M A := fun s => (r, s).
Definition raise {A} (e : exn) : M A := fun s => (Raise e, s).
Definition get_state : M state := fun s => (Ok s, s).
Definition put_state (s' : state) : M unit := fun _ => (Ok tt, s').
Definition modify (f : state -> state) : M unit := fun s => (Ok tt, f s).

(** [try: m  except: h] with a bare [except] *)
Definition try_except {A} (m : M A) (h : M A) : M A := fun s =>
  match m s with
  | (Ok a, s') => (Ok a, s')
  | (Raise _, s') => h s'
  end.

Definition set_files (fs : gmap string file) (s : state) : state :=
  {| files := fs; now := now s; trace := trace s; caches := caches s;
     running := running s; nbTiles := nbTiles s; cptTiles := cptTiles s |}.
Definition set_caches (c : gmap string geopackage) (s : state) : state :=
  {| files := files s; now := now s; trace := trace s; caches := c;
     running := running s; nbTiles := nbTiles s; cptTiles := cptTiles s |}.
Definition set_nbTiles (n : Z) (s : state) : state :=
  {| files := files s; now := now s; trace := trace s; caches := caches s;
     running := running s; nbTiles := n; cptTiles := cptTiles s |}.
Definition set_cptTiles (n : Z) (s : state) : state :=
  {| files := files s; now := now s; trace := trace s; caches := caches s;
     running := running s; nbTiles := nbTiles s; cptTiles := n |}.
Definition log (e : event) (s : state) : state :=
  {| files := files s; now := now s; trace := trace s ++ [e]; caches := caches s;
     running := running s; nbTiles := nbTiles s; cptTiles := cptTiles s |}.

(** ** sqlite3 *)

Module Sqlite3.

(** [os.path.exists(path)] *)
Definition exists_ (path : string) : M bool :=
  s ← get_state; mret (bool_decide (is_Some (files s !! path))).

(** [sqlite3.connect(path)]: a file that is not there is created empty. *)
Definition connect (path : string) : M unit :=
  modify (fun s =>
    match files s !! path with
    | None => set_files (<[path := Sqlite empty_database]> (files s)) s
    | Some _ => s
    end).

(** Start of any statement: the file must be a database. *)
Definition read (path : string) : M database :=
  modify (log (SqlExec path));;
  s ← get_state;
  match files s !! path with
  | Some (Sqlite d) => mret d
  | Some (NotADatabase _) => raise DatabaseError
  | None => raise OperationalError
  end.

(** A change that reaches the file (a statement in autocommit mode, or a
    commit). *)
Definition write (path : string) (d : database) : M unit :=
  modify (fun s => set_files (<[path := Sqlite d]> (files s)) s).

(** [SELECT cols FROM table] compiles: the table and its columns exist. *)
Definition has_columns (d : database) (table : string) (cols : list string) : bool :=
  match schema d !! table with
  | Some cs => forallb (fun c => existsb (String.eqb c) cs) cols
  | None => false
  end.

Definition require_columns (d : database) (table : string) (cols : list string)
    : M unit :=
  if has_columns d table cols then mret tt else raise OperationalError.

(** A Python int bound to a parameter of a statement must fit the 64-bit
    INTEGER of SQLite.  The sqlite3 module raises OverflowError otherwise,
    once the statement is compiled and before it runs, so nothing is
    written. *)
Definition is_int64 (v : Z) : bool := (- 2 ^ 63 <=? v) && (v <? 2 ^ 63).

Definition bindable (params : list Z) : result unit :=
  if forallb is_int64 params then Ok tt else Raise OverflowError.

Definition bind (params : list Z) : M unit := lift (bindable params).

Definition set_application_id (v : Z) (d : database) : database :=
  {| application_id := v; schema := schema d; gpkg_contents := gpkg_contents d;
     gpkg_spatial_ref_sys := gpkg_spatial_ref_sys d;
     gpkg_tile_matrix_set := gpkg_tile_matrix_set d;
     gpkg_tile_matrix := gpkg_tile_matrix d; gpkg_tiles := gpkg_tiles d |}.

Definition set_schema (sc : gmap string (list string)) (d : database) : database :=
  {| application_id := application_id d; schema := sc;
     gpkg_contents := gpkg_contents d;
     gpkg_spatial_ref_sys := gpkg_spatial_ref_sys d;
     gpkg_tile_matrix_set := gpkg_tile_matrix_set d;
     gpkg_tile_matrix := gpkg_tile_matrix d; gpkg_tiles := gpkg_tiles d |}.

Definition set_contents (c : gmap string contents_row) (d : database) : database :=
  {| application_id := application_id d; schema := schema d;
     gpkg_contents := c;
     gpkg_spatial_ref_sys := gpkg_spatial_ref_sys d;
     gpkg_tile_matrix_set := gpkg_tile_matrix_set d;
     gpkg_tile_matrix := gpkg_tile_matrix d; gpkg_tiles := gpkg_tiles d |}.

Definition set_srs (c : gmap Z srs_row) (d : database) : database :=
  {| application_id := application_id d; schema := schema d;
     gpkg_contents := gpkg_contents d;
     gpkg_spatial_ref_sys := c;
     gpkg_tile_matrix_set := gpkg_tile_matrix_set d;
     gpkg_tile_matrix := gpkg_tile_matrix d; gpkg_tiles := gpkg_tiles d |}.

Definition set_tms (c : gmap string tms_row) (d : database) : database :=
  {| application_id := application_id d; schema := schema d;
     gpkg_contents := gpkg_contents d;
     gpkg_spatial_ref_sys := gpkg_spatial_ref_sys d;
     gpkg_tile_matrix_set := c;
     gpkg_tile_matrix := gpkg_tile_matrix d; gpkg_tiles := gpkg_tiles d |}.

Definition set_tm (c : gmap (string * Z) tm_row) (d : database) : database :=
  {| application_id := application_id d; schema := schema d;
     gpkg_contents := gpkg_contents d;
     gpkg_spatial_ref_sys := gpkg_spatial_ref_sys d;
     gpkg_tile_matrix_set := gpkg_tile_matrix_set d;
     gpkg_tile_matrix := c; gpkg_tiles := gpkg_tiles d |}.

Definition set_tiles (c : gmap tile_key (bytes * Z)) (d : database) : database :=
  {| application_id := application_id d; schema := schema d;
     gpkg_contents := gpkg_contents d;
     gpkg_spatial_ref_sys := gpkg_spatial_ref_sys d;
     gpkg_tile_matrix_set := gpkg_tile_matrix_set d;
     gpkg_tile_matrix := gpkg_tile_matrix d; gpkg_tiles := c |}.

(** [CREATE TABLE name (cols)], in autocommit mode *)
Definition create_table (path : string) (table : string) (cols : list string)
    : M unit :=
  d ← read path;
  match schema d !! table with
  | Some _ => raise OperationalError
  | None => write path (set_schema (<[table := cols]> (schema d)) d)
  end.

End Sqlite3.

(** ** class GeoPackage *)

Module GeoPackage.

Definition MAX_DAYS : Z := 90.

(** "GP10" in ASCII *)
Definition GP10 : Z := 1196437808.

Definition contents_columns : list string :=
  ["table_name"; "data_type"; "identifier"; "description"; "last_change";
   "min_x"; "min_y"; "max_x"; "max_y"; "srs_id"].
Definition spatial_ref_sys_columns : list string :=
  ["srs_name"; "srs_id"; "organization"; "organization_coordsys_id";
   "definition"; "description"].
Definition tile_matrix_set_columns : list string :=
  ["table_name"; "srs_id"; "min_x"; "min_y"; "max_x"; "max_y"].
Definition tile_matrix_columns : list string :=
  ["table_name"; "zoom_level"; "matrix_width"; "matrix_height";
   "tile_width"; "tile_height"; "pixel_x_size"; "pixel_y_size"].
Definition tiles_columns : list string :=
  ["id"; "zoom_level"; "tile_column"; "tile_row"; "tile_data"; "last_modified"].

(** The five probes in the [try] block of [isGPKG]. *)
Definition quick_check (d : database) : bool :=
  Sqlite3.has_columns d "gpkg_contents" ["table_name"]
  && Sqlite3.has_columns d "gpkg_spatial_ref_sys" ["srs_name"]
  && Sqlite3.has_columns d "gpkg_tile_matrix_set" ["table_name"]
  && Sqlite3.has_columns d "gpkg_tile_matrix" ["table_name"]
  && Sqlite3.has_columns d "gpkg_tiles"
       ["zoom_level"; "tile_column"; "tile_row"; "tile_data"].

Definition isGPKG (self : geopackage) : M bool :=
  ex ← Sqlite3.exists_ (dbPath self);
  if negb ex then mret false
  else
    Sqlite3.connect (dbPath self);;
    (* PRAGMA application_id, outside the try block *)
    d ← Sqlite3.read (dbPath self);
    if negb (application_id d =? GP10) then mret false
    else
      (* each probe is a statement of its own; the first failing one ends the
         try block *)
      try_except
        (Sqlite3.require_columns d "gpkg_contents" ["table_name"];;
         Sqlite3.require_columns d "gpkg_spatial_ref_sys" ["srs_name"];;
         Sqlite3.require_columns d "gpkg_tile_matrix_set" ["table_name"];;
         Sqlite3.require_columns d "gpkg_tile_matrix" ["table_name"];;
         Sqlite3.require_columns d "gpkg_tiles"
           ["zoom_level"; "tile_column"; "tile_row"; "tile_data"];;
         mret true)
        (mret false).

Definition create (self : geopackage) : M unit :=
  Sqlite3.connect (dbPath self);;
  d ← Sqlite3.read (dbPath self);
  Sqlite3.write (dbPath self) (Sqlite3.set_application_id GP10 d);;
  Sqlite3.create_table (dbPath self) "gpkg_contents" contents_columns;;
  Sqlite3.create_table (dbPath self) "gpkg_spatial_ref_sys" spatial_ref_sys_columns;;
  Sqlite3.create_table (dbPath self) "gpkg_tile_matrix_set" tile_matrix_set_columns;;
  Sqlite3.create_table (dbPath self) "gpkg_tile_matrix" tile_matrix_columns;;
  Sqlite3.create_table (dbPath self) "gpkg_tiles" tiles_columns.

(** [INSERT INTO gpkg_contents]: the table name is the primary key and the
    identifier is UNIQUE. *)
Definition insertMetadata (self : geopackage) : M unit :=
  Sqlite3.connect (dbPath self);;
  d ← Sqlite3.read (dbPath self);
  Sqlite3.require_columns d "gpkg_contents"
    ["table_name"; "data_type"; "identifier"; "description";
     "min_x"; "min_y"; "max_x"; "max_y"; "srs_id"];;
  Sqlite3.bind [code self];;
  if bool_decide (is_Some (gpkg_contents d !! "gpkg_tiles"))
     || bool_decide (map_Exists (fun _ r => c_identifier r = name self)
                                (gpkg_contents d))
  then raise IntegrityError
  else
    Sqlite3.write (dbPath self)
      (Sqlite3.set_contents
         (<["gpkg_tiles" :=
             {| c_data_type := "tiles"; c_identifier := name self;
                c_description := "Created with BlenderGIS";
                c_min_x := gp_xmin self; c_min_y := gp_ymin self;
                c_max_x := gp_xmax self; c_max_y := gp_ymax self;
                c_srs_id := code self |}]> (gpkg_contents d)) d).

(** [insertCRS(code, name, auth='EPSG', wkt='')] *)
Definition insertCRS (self : geopackage) (code_ : Z) (name_ : string)
    (auth_ : string) (wkt : string) : M unit :=
  Sqlite3.connect (dbPath self);;
  d ← Sqlite3.read (dbPath self);
  Sqlite3.require_columns d "gpkg_spatial_ref_sys"
    ["srs_id"; "organization"; "organization_coordsys_id"; "srs_name";
     "definition"];;
  Sqlite3.bind [code_; code_];;
  if bool_decide (is_Some (gpkg_spatial_ref_sys d !! code_))
  then raise IntegrityError
  else
    Sqlite3.write (dbPath self)
      (Sqlite3.set_srs
         (<[code_ :=
             {| s_organization := auth_; s_organization_coordsys_id := code_;
                s_srs_name := name_; s_definition := wkt |}]>
            (gpkg_spatial_ref_sys d)) d).

(** The row of one level, [math.ceil] of the extent over the tile size. *)
Definition tile_matrix_row (self : geopackage) (res : Q) : result tm_row :=
  wq ← py_div (gp_xmax self - gp_xmin self) (inject_Z (gp_tileSize self) * res);
  hq ← py_div (gp_ymax self - gp_ymin self) (inject_Z (gp_tileSize self) * res);
  Ok {| m_matrix_width := Qceiling wq; m_matrix_height := Qceiling hq;
        m_tile_width := gp_tileSize self; m_tile_height := gp_tileSize self;
        m_pixel_x_size := res; m_pixel_y_size := res |}.

(** The loop over the levels.  Every row is inserted in the transaction
    that is committed after the loop, so an exception on the way leaves the
    file as it was.  The level is an index of the list of resolutions; the
    integers of the row that can be of any size are the two counts and the
    tile size. *)
Fixpoint insert_levels (self : geopackage) (d : database) (levels : list (Z * Q))
    (t : gmap (string * Z) tm_row) : M (gmap (string * Z) tm_row) :=
  match levels with
  | [] => mret t
  | (level, res) :: rest =>
      r ← lift (tile_matrix_row self res);
      Sqlite3.require_columns d "gpkg_tile_matrix"
        ["table_name"; "zoom_level"; "matrix_width"; "matrix_height";
         "tile_width"; "tile_height"; "pixel_x_size"; "pixel_y_size"];;
      Sqlite3.bind [m_matrix_width r; m_matrix_height r;
                    gp_tileSize self; gp_tileSize self];;
      insert_levels self d rest (<[("gpkg_tiles"%string, level) := r]> t)
  end.

Definition insertTileMatrixSet (self : geopackage) : M unit :=
  Sqlite3.connect (dbPath self);;
  d ← Sqlite3.read (dbPath self);
  Sqlite3.require_columns d "gpkg_tile_matrix_set"
    ["table_name"; "srs_id"; "min_x"; "min_y"; "max_x"; "max_y"];;
  Sqlite3.bind [code self];;
  let sets :=
    <["gpkg_tiles" :=
       {| ms_srs_id := code self;
          ms_min_x := gp_xmin self; ms_min_y := gp_ymin self;
          ms_max_x := gp_xmax self; ms_max_y := gp_ymax self |}]>
      (gpkg_tile_matrix_set d) in
  rows ← insert_levels self d (enumerate (gp_resolutions self)) (gpkg_tile_matrix d);
  Sqlite3.write (dbPath self) (Sqlite3.set_tm rows (Sqlite3.set_tms sets d)).

(** [GeoPackage(path, tm)] *)
Definition init (env : Env) (path : string) (tm : TileMatrix.t) : M geopackage :=
  '(auth_, code_) ← lift (split_srid env (TileMatrix.CRS tm));
  resolutions_ ← lift (TileMatrix.getResList tm);
  let self :=
    {| dbPath := path; name := path_stem env path;
       auth := auth_; code := code_;
       gp_tileSize := TileMatrix.tileSize tm;
       gp_xmin := TileMatrix.xmin tm; gp_ymin := TileMatrix.ymin tm;
       gp_xmax := TileMatrix.xmax tm; gp_ymax := TileMatrix.ymax tm;
       gp_resolutions := resolutions_ |} in
  ok ← isGPKG self;
  (if negb ok then
     create self;;
     insertMetadata self;;
     insertCRS self code_ (pretty code_) auth_ "";;
     insertTileMatrixSet self
   else mret tt);;
  mret self.

(** [timeDelta.days] of [datetime.now() - last_modified], both in seconds *)
Definition delta_days (now_ last_modified : Z) : Z :=
  (now_ - last_modified) `div` 86400.

Definition getTile (self : geopackage) (x y z : Z) : M (option bytes) :=
  Sqlite3.connect (dbPath self);;
  d ← Sqlite3.read (dbPath self);
  Sqlite3.require_columns d "gpkg_tiles"
    ["tile_data"; "last_modified"; "zoom_level"; "tile_column"; "tile_row"];;
  Sqlite3.bind [z; x; y];;
  s ← get_state;
  match gpkg_tiles d !! (z, x, y) with
  | None => mret None
  | Some (tile_data, last_modified) =>
      if delta_days (now s) last_modified >? MAX_DAYS then mret None
      else mret (Some tile_data)
  end.

(** [INSERT OR REPLACE]: the row of the same key is replaced, the time stamp
    is the column default, the current local time. *)
Definition putTile (self : geopackage) (x y z : Z) (data : bytes) : M unit :=
  Sqlite3.connect (dbPath self);;
  d ← Sqlite3.read (dbPath self);
  Sqlite3.require_columns d "gpkg_tiles"
    ["tile_column"; "tile_row"; "zoom_level"; "tile_data"];;
  Sqlite3.bind [x; y; z];;
  s ← get_state;
  Sqlite3.write (dbPath self)
    (Sqlite3.set_tiles (<[(z, x, y) := (data, now s)]> (gpkg_tiles d)) d).

(** [xs, ys, zs = zip( *tiles)]: unpacking fails on an empty batch. *)
Definition unzip3 (tiles : list (Z * Z * Z)) : result (list Z * list Z * list Z) :=
  match tiles with
  | [] => Raise ValueError
  | _ => Ok (map (fun t => t.1.1) tiles, map (fun t => t.1.2) tiles,
             map (fun t => t.2) tiles)
  end.

Definition mem (v : Z) (l : list Z) : bool := existsb (Z.eqb v) l.

(** [tiles] = list of (x, y, z); returns a list of (x, y, z, data).  The
    query has no ORDER BY: the rows come in the order of the table's key. *)
Definition getTiles (env : Env) (self : geopackage) (tiles : list (Z * Z * Z))
    : M (list (Z * Z * Z * bytes)) :=
  let n := Z.of_nat (length tiles) in
  '(xs, ys, zs) ← lift (unzip3 tiles);
  Sqlite3.connect (dbPath self);;
  d ← Sqlite3.read (dbPath self);
  (if 3 * n >? sqlite_max_variables env then raise OperationalError else mret tt);;
  Sqlite3.require_columns d "gpkg_tiles"
    ["tile_column"; "tile_row"; "zoom_level"; "tile_data"];;
  Sqlite3.bind (xs ++ ys ++ zs);;
  mret (omap (fun '((zoom_level, tile_column, tile_row), (tile_data, _)) =>
                if mem tile_column xs && mem tile_row ys && mem zoom_level zs
                then Some (tile_column, tile_row, zoom_level, tile_data)
                else None)
             (map_to_list (gpkg_tiles d))).

(** The integers that [executemany] binds, row after row. *)
Definition keys_of (tiles : list (Z * Z * Z * bytes)) : list Z :=
  flat_map (fun '(x, y, z, _) => [x; y; z]) tiles.

(** [executemany] of the same INSERT OR REPLACE, committed once: a row that
    cannot be bound ends the call before the commit, and the rows before it
    are lost with the transaction. *)
Definition putTiles (self : geopackage) (tiles : list (Z * Z * Z * bytes)) : M unit :=
  Sqlite3.connect (dbPath self);;
  d ← Sqlite3.read (dbPath self);
  Sqlite3.require_columns d "gpkg_tiles"
    ["tile_column"; "tile_row"; "zoom_level"; "tile_data"];;
  Sqlite3.bind (keys_of tiles);;
  s ← get_state;
  Sqlite3.write (dbPath self)
    (Sqlite3.set_tiles
       (fold_left (fun t '(x, y, z, data) => <[(z, x, y) := (data, now s)]> t)
                  tiles (gpkg_tiles d)) d).

End GeoPackage.

(** ** class MapService *)

(** The names that mapviewer.py binds from geoscene.proj, by its line
    [from geoscene.proj import reprojPt, reprojBbox, dd2meters, CRS].  A call
    to any other name of that module finds no binding at run time. *)
Definition imported_from_proj : list string :=
  ["reprojPt"; "reprojBbox"; "dd2meters"; "CRS"].

(** Looking up a function of geoscene.proj by its name in mapviewer.py. *)
Definition proj_name {A} (name : string) (value : A) : M A :=
  if existsb (String.eqb name) imported_from_proj then mret value
  else raise NameError.

Module MapService.

(** The attributes of the service object that a request does not change.
    [dst] pairs [dstGridKey] with [dstTms]: [setDstGrid] sets both or
    neither.  [zoom] is the attribute [self.zoom]: [__init__] copies the
    keys of the source definition onto the object, so the attribute exists
    only if the definition has such a key (the documented keys are name,
    description, service, grid, matrix, quadTree, layers, urlTemplate and
    referer).  [buildUrl] is the method of that name (string substitution
    into the URL template, with float formatting for WMS); it may raise. *)
Record t := {
  srckey : string;
  srcGridKey : string;
  srcTms : TileMatrix.t;
  dst : option (string * TileMatrix.t);
  cacheFolder : string;
  zoom : option Z;
  buildUrl : string -> Z -> Z -> Z -> result string
}.

(** One entry of [tilesData]: [(x, y, z, data)], [data] possibly [None]. *)
Definition tile_data : Type := Z * Z * Z * option bytes.

(** The arguments of [getImage], in the order of its signature. *)
Definition getImage_type : Type :=
  string -> Q * Q * Q * Q -> Z -> bool -> bool -> nat -> bool ->
  option string -> bool -> M (option GeoImage.t).

Section Methods.
Context (env : Env) (self : t).

(** [setDstGrid] selects the grid; here as the choice made by [getTile],
    [getImage] and [getCache] at their entry. *)
Definition select_grid (toDstGrid : bool) : M (string * TileMatrix.t) :=
  if toDstGrid then
    match dst self with
    | Some (grdkey, tm) => mret (grdkey, tm)
    | None => raise ValueError
    end
  else mret (srcGridKey self, srcTms self).

(** The grid that a request works on, when there is one. *)
Definition grid_of (toDstGrid : bool) : option TileMatrix.t :=
  if toDstGrid then snd <$> dst self else Some (srcTms self).

Definition getCache (laykey : string) (useDstGrid : bool) : M geopackage :=
  '(grdkey, tm) ← select_grid useDstGrid;
  let mapKey := srckey self +:+ "_" +:+ laykey +:+ "_" +:+ grdkey in
  s ← get_state;
  match caches s !! mapKey with
  | None =>
      let dbPath := cacheFolder self +:+ mapKey +:+ ".gpkg" in
      g ← GeoPackage.init env dbPath tm;
      modify (fun s => set_caches (<[mapKey := g]> (caches s)) s);;
      mret g
  | Some cache => mret cache
  end.

Definition downloadTile (laykey : string) (col row zoom_ : Z) : M (option bytes) :=
  url ← lift (buildUrl self laykey col row zoom_);
  modify (log (HttpGet url));;
  let data := http_get env url in
  mret (match data with
        | Some d => match imghdr_what env d with
                    | Some _ => Some d
                    | None => None
                    end
        | None => None
        end).

(** The bounds test of [getTile]: [True] when the tile is rejected. *)
Definition out_of_bounds (tm : TileMatrix.t) (col row : Z) (x y : Q) : bool :=
  if (row <? 0) || (col <? 0) then true
  else negb (Qle_bool (TileMatrix.xmin tm) x && Qlt_bool x (TileMatrix.xmax tm))
       || negb (Qlt_bool (TileMatrix.ymin tm) y && Qle_bool y (TileMatrix.ymax tm)).

Section Recursive.
(** The method [getImage] as [getTile] calls it back. *)
Variable getImage_rec : getImage_type.

(** The [else] branch of [getTile]: a tile of the destination grid is
    built from a mosaic of the source grid. *)
Definition reprojected_tile (dstTms : TileMatrix.t) (laykey : string)
    (col row zoom_ : Z) : M (option bytes) :=
  bbox ← lift (TileMatrix.getTileBbox dstTms col row zoom_);
  let '(xmin, ymin, xmax, ymax) := bbox in
  res ← lift (TileMatrix.getRes dstTms zoom_);
  res2 ←
    (match TileMatrix.units dstTms, TileMatrix.units (srcTms self) with
     | TileMatrix.degrees, TileMatrix.meters =>
         dd2meters ← proj_name "dd2meters" Proj.dd2meters; mret (dd2meters res)
     | TileMatrix.meters, TileMatrix.degrees =>
         meters2dd ← proj_name "meters2dd" Proj.meters2dd; mret (meters2dd res)
     | _, _ => mret res
     end);
  _zoom ← lift (TileMatrix.getNearestZoom (srcTms self) res2 "closer");
  _zoom ← (match _zoom with
           | Some z => mret z
           | None => raise TypeError      (* getRes(None) *)
           end);
  _res ← lift (TileMatrix.getRes (srcTms self) _zoom);
  let crs1 := TileMatrix.CRS (srcTms self) in
  let crs2 := TileMatrix.CRS dstTms in
  match reprojBbox env crs2 crs1 bbox with
  | Raise _ => mret None
  | Ok _bbox =>
      mosaic ← getImage_rec laykey _bbox _zoom false false 4%nat false None false;
      match mosaic with
      | None => mret None
      | Some mosaic =>
          let tileSize := TileMatrix.tileSize dstTms in
          img ← lift (reprojImg env crs1 crs2 mosaic (Some (xmin, ymax))
                                (Some (tileSize, tileSize)) (Some res));
          mret (Some (png_bytes env (GeoImage.img img)))
      end
  end.

(** [getTile] from the line after [x,y = tm.getTileCoords(col, row, zoom)]
    on, for the grid [tm] that was selected and the corner [(x, y)] that the
    call returned: the two bounds tests, the cache, the download or the
    synthesis, the write into the cache. *)
Definition getTile_from (tm : TileMatrix.t) (x y : Q) (laykey : string)
    (col row zoom_ : Z) (toDstGrid useCache : bool) : M (option bytes) :=
  if out_of_bounds tm col row x y then mret None
  else
    (* the cache object, if any, and a hit that is a valid image *)
    '(cache, hit) ←
      (if useCache then
         cache ← getCache laykey toDstGrid;
         data ← GeoPackage.getTile cache col row zoom_;
         mret (Some cache,
               match data with
               | Some d => match imghdr_what env d with
                           | Some _ => Some d
                           | None => None
                           end
               | None => None
               end)
       else mret (None, None));
    match hit with
    | Some data => mret (Some data)
    | None =>
        data ← (if negb toDstGrid then downloadTile laykey col row zoom_
                else reprojected_tile tm laykey col row zoom_);
        match cache, data with
        | Some cache, Some d =>
            (* cache.putTile(col, row, self.zoom, data) *)
            match zoom self with
            | None => raise AttributeError
            | Some z => GeoPackage.putTile cache col row z d
            end
        | _, _ => mret tt
        end;;
        mret data
    end.

Definition getTile (laykey : string) (col row zoom_ : Z)
    (toDstGrid useCache : bool) : M (option bytes) :=
  '(_, tm) ← select_grid toDstGrid;
  '(x, y) ← lift (TileMatrix.getTileCoords tm col row zoom_);
  getTile_from tm x y laykey col row zoom_ toDstGrid useCache.

(** The worker threads of [getTiles], one job after the other.  A worker
    stops when the queue is empty or when [running] is off; an exception in
    [getTile] ends the thread of that worker, its job is lost, and the
    exception goes nowhere else.  [alive] counts the workers that are left.
    With one worker this is the run of the code.  With more workers it is the
    run in which the jobs are done one at a time, in the order of the queue,
    and in which no worker finds the queue empty at [get()] after it saw it
    non-empty at [empty()]: such a worker waits for ever, and with it the
    [join] of [getTiles].  What this development states about a call that
    does jobs and returns is stated for one worker. *)
Fixpoint downloading (laykey : string) (toDstGrid cpt : bool)
    (alive : nat) (tilesQueue : list (Z * Z * Z)) (tilesData : list tile_data)
    : M (list tile_data) :=
  match tilesQueue with
  | [] => mret tilesData
  | (col, row, zoom_) :: rest =>
      match alive with
      | O => mret tilesData
      | S alive' =>
          fun s =>
            if negb (running s) then (Ok tilesData, s)
            else
              match getTile laykey col row zoom_ toDstGrid false s with
              | (Ok data, s1) =>
                  let s2 := if cpt then set_cptTiles (cptTiles s1 + 1) s1
                            else s1 in
                  downloading laykey toDstGrid cpt alive rest
                              (tilesData ++ [(col, row, zoom_, data)]) s2
              | (Raise _, s1) =>
                  downloading laykey toDstGrid cpt alive' rest tilesData s1
              end
      end
  end.

Definition tile_eqb (a b : Z * Z * Z) : bool :=
  (a.1.1 =? b.1.1) && (a.1.2 =? b.1.2) && (a.2 =? b.2).

Definition getTiles (laykey : string) (tiles : list (Z * Z * Z))
    (tilesData : list tile_data) (toDstGrid useCache : bool)
    (nbThread : nat) (cpt : bool) : M (list tile_data) :=
  (if cpt then
     modify (fun s => set_cptTiles 0 (set_nbTiles (Z.of_nat (length tiles)) s))
   else mret tt);;
  '(cache, result, missing) ←
    (if useCache then
       cache ← getCache laykey toDstGrid;
       result ← GeoPackage.getTiles env cache tiles;
       let existing := map (fun r => r.1) result in
       let missing :=
         List.filter (fun t => negb (existsb (tile_eqb t) existing)) tiles in
       (if cpt then
          modify (fun s =>
            set_cptTiles (cptTiles s + Z.of_nat (length result)) s)
        else mret tt);;
       mret (Some cache, result, missing)
     else mret (None, [], tiles));
  tilesData ←
    (match missing with
     | [] => mret tilesData
     | _ :: _ =>
         tilesData ← downloading laykey toDstGrid cpt nbThread missing tilesData;
         match cache with
         | Some cache =>
             GeoPackage.putTiles cache
               (omap (fun '(x, y, z, data) =>
                        match data with
                        | Some d => Some (x, y, z, d)
                        | None => None
                        end) tilesData)
         | None => mret tt
         end;;
         mret tilesData
     end);
  (if cpt then modify (fun s => set_cptTiles 0 (set_nbTiles 0 s)) else mret tt);;
  mret (if useCache
        then tilesData ++ map (fun '(x, y, z, d) => (x, y, z, Some d)) result
        else tilesData).

(** The loop of [getImage] over the tiles that came back.  [None] is
    the early [return None]. *)
Fixpoint paste_tiles (tileSize firstCol firstRow : Z) (allowEmptyTile : bool)
    (tiles : list tile_data) (pastes : list (tile_image * (Z * Z)))
    : M (option (list (tile_image * (Z * Z)))) :=
  match tiles with
  | [] => mret (Some pastes)
  | (col, row, z, data) :: rest =>
      s ← get_state;
      if negb (running s) then mret None
      else
        let img :=
          match data with
          | None =>
              if allowEmptyTile
              then Some (Flat tileSize tileSize "lightgrey")
              else None
          | Some d =>
              if Image_open_ok env d then Some (Decoded d)
              else if allowEmptyTile
                   then Some (Flat tileSize tileSize "pink")
                   else None
          end in
        match img with
        | None => mret None
        | Some img =>
            let posx := (col - firstCol) * tileSize in
            let posy := Z.abs (row - firstRow) * tileSize in
            paste_tiles tileSize firstCol firstRow allowEmptyTile rest
                        (pastes ++ [(img, (posx, posy))])
        end
  end.

(** [getImage] from the line [cols = ...] on, for the grid [tm] that was
    selected and what the lines before have computed: the resolution, the
    first tile, its corner [(xmin, ymax)] and the numbers of tiles. *)
Definition getImage_from (tm : TileMatrix.t) (res : Q) (firstCol firstRow : Z)
    (xmin ymax : Q) (nbTilesX nbTilesY : Z) (laykey : string) (zoom_ : Z)
    (toDstGrid useCache : bool) (nbThread : nat) (cpt : bool)
    (outCRS : option string) (allowEmptyTile : bool) : M (option GeoImage.t) :=
  let tileSize := TileMatrix.tileSize tm in
  let cols := map (fun i => firstCol + i) (py_range nbTilesX) in
  let rows :=
    match TileMatrix.originLoc tm with
    | TileMatrix.NW => map (fun i => firstRow + i) (py_range nbTilesY)
    | TileMatrix.SW => map (fun i => firstRow - i) (py_range nbTilesY)
    end in
  let img_w := Z.of_nat (length cols) * tileSize in
  let img_h := Z.of_nat (length rows) * tileSize in
  let tiles := flat_map (fun c => map (fun r => (c, r, zoom_)) rows) cols in
  tiles ← getTiles laykey tiles [] toDstGrid useCache nbThread cpt;
  pastes ← paste_tiles tileSize firstCol firstRow allowEmptyTile tiles [];
  match pastes with
  | None => mret None
  | Some pastes =>
      let geoimg := {| GeoImage.img := Mosaic img_w img_h pastes;
                       GeoImage.ul := (xmin, ymax);
                       GeoImage.res := res |} in
      geoimg ←
        (match outCRS with
         | Some crs =>
             if negb (String.eqb crs (TileMatrix.CRS tm))
             then lift (reprojImg env (TileMatrix.CRS tm) crs geoimg None None None)
             else mret geoimg
         | None => mret geoimg
         end);
      s ← get_state;
      if running s then mret (Some geoimg) else mret None
  end.

Definition getImage (laykey : string) (bbox : Q * Q * Q * Q) (zoom_ : Z)
    (toDstGrid useCache : bool) (nbThread : nat) (cpt : bool)
    (outCRS : option string) (allowEmptyTile : bool) : M (option GeoImage.t) :=
  '(_, tm) ← select_grid toDstGrid;
  let tileSize := TileMatrix.tileSize tm in
  res ← lift (TileMatrix.getRes tm zoom_);
  let '(xmin, ymin, xmax, ymax) := bbox in
  '(firstCol, firstRow) ← lift (TileMatrix.getTileNumber tm xmin ymax zoom_);
  '(xmin, ymax) ← lift (TileMatrix.getTileCoords tm firstCol firstRow zoom_);
  nx ← lift (py_div (xmax - xmin) (inject_Z tileSize * res));
  ny ← lift (py_div (ymax - ymin) (inject_Z tileSize * res));
  getImage_from tm res firstCol firstRow xmin ymax (Qceiling nx) (Qceiling ny)
                laykey zoom_ toDstGrid useCache nbThread cpt outCRS allowEmptyTile.

End Recursive.

(** [getTile] calls [getImage] only for a tile of the destination grid,
    and then for a mosaic of the source grid, whose tiles are downloaded:
    the calls nest at most twice.  [getImage_at n] allows [n] nested
    calls of [getImage]. *)
Fixpoint getImage_at (n : nat) : getImage_type :=
  match n with
  | O => fun _ _ _ _ _ _ _ _ _ => raise RecursionError
  | S n' => getImage (getImage_at n')
  end.

End Methods.

(** [range(z, 0, -1)] *)
Definition range_down (z : Z) : list Z :=
  map (fun k => z - Z.of_nat k) (seq 0 (Z.to_nat z)).

(** The body of the loop of [getQuadKey] for the level [i]. *)
Definition quad_digit (x y i : Z) : Z :=
  let digit := 0 in
  let mask := Z.shiftl 1 (i - 1) in
  let digit := if negb (Z.land x mask =? 0) then digit + 1 else digit in
  let digit := if negb (Z.land y mask =? 0) then digit + 2 else digit in
  digit.

(** "Converts TMS tile coordinates to Microsoft QuadTree" *)
Definition getQuadKey (x y z : Z) : string :=
  fold_left (fun quadKey i => quadKey +:+ pretty (quad_digit x y i))
            (range_down z) EmptyString.

End MapService.

(** The methods as a caller sees them. *)
Definition MapService_getImage (env : Env) (self : MapService.t) : MapService.getImage_type :=
  MapService.getImage_at env self 2.

Definition MapService_getTile (env : Env) (self : MapService.t) :=
  MapService.getTile env self (MapService.getImage_at env self 1).

Definition MapService_getTiles (env : Env) (self : MapService.t) :=
  MapService.getTiles env self (MapService.getImage_at env self 1).

(** The two methods from the point where their coordinates are computed. *)
Definition MapService_getTile_from (env : Env) (self : MapService.t) :=
  MapService.getTile_from env self (MapService.getImage_at env self 1).

Definition MapService_getImage_from (env : Env) (self : MapService.t) :=
  MapService.getImage_from env self (MapService.getImage_at env self 1).

(** ** Notions used to state the properties *)

(** The suffix of [enumerate resLst] that starts at index [k]. *)
Definition items_from (resLst : list Q) (k : nat) : list (Z * Q) :=
  combine (map Z.of_nat (seq k (length resLst - k))) (skipn k resLst).

(** A descending list: every entry is at least the next one (what
    [sort(reverse=True)] establishes). *)
Definition descending (l : list Q) : Prop := Sorted (fun a b => (b <= a)%Q) l.


(** The file at [path] is the database [d]. *)
Definition db_at (path : string) (d : database) (s : state) : Prop :=
  files s !! path = Some (Sqlite d).

(** What [isGPKG] accepts. *)
Definition recognizable (d : database) : Prop :=
  application_id d = GeoPackage.GP10 /\ GeoPackage.quick_check d = true.

(** The state reached from [s] once the database at [path] holds [d] and the
    outside calls [evs] have been made. *)
Definition after (path : string) (d : database) (evs : list event) (s : state)
    : state :=
  {| files := <[path := Sqlite d]> (files s); now := now s;
     trace := trace s ++ evs; caches := caches s;
     running := running s; nbTiles := nbTiles s; cptTiles := cptTiles s |}.


(** None of the five tables of a GeoPackage is in the database. *)
Definition no_gpkg_table (d : database) : Prop :=
  schema d !! "gpkg_contents" = None /\
  schema d !! "gpkg_spatial_ref_sys" = None /\
  schema d !! "gpkg_tile_matrix_set" = None /\
  schema d !! "gpkg_tile_matrix" = None /\
  schema d !! "gpkg_tiles" = None.


(** A database whose schema holds the five tables as [create] declares them
    and whose application id is GP10. *)
Definition gpkg_schema (d : database) : Prop :=
  application_id d = GeoPackage.GP10 /\
  schema d !! "gpkg_contents" = Some GeoPackage.contents_columns /\
  schema d !! "gpkg_spatial_ref_sys" = Some GeoPackage.spatial_ref_sys_columns /\
  schema d !! "gpkg_tile_matrix_set" = Some GeoPackage.tile_matrix_set_columns /\
  schema d !! "gpkg_tile_matrix" = Some GeoPackage.tile_matrix_columns /\
  schema d !! "gpkg_tiles" = Some GeoPackage.tiles_columns.













(** The column, the row and the zoom of a tile fit the 64-bit INTEGER of
    SQLite. *)
Definition key_fits (k : Z * Z * Z) : bool :=
  Sqlite3.is_int64 k.1.1 && Sqlite3.is_int64 k.1.2 && Sqlite3.is_int64 k.2.

(** The rows of the tile table after the writes of a batch, one by one. *)
Definition tiles_written (now_ : Z) (tiles : list (Z * Z * Z * bytes))
    (t : gmap tile_key (bytes * Z)) : gmap tile_key (bytes * Z) :=
  fold_left (fun t '(x, y, z, data) => <[(z, x, y) := (data, now_)]> t) tiles t.

(** The resolution of a destination tile in the unit of the source grid, as
    [getTile] converts it; [None] where the conversion raises. *)
Definition converted_resolution (dstTms srcTms : TileMatrix.t) (res : Q) : option Q :=
  match TileMatrix.units dstTms, TileMatrix.units srcTms with
  | TileMatrix.degrees, TileMatrix.meters =>
      Some (res * (Proj.perimeter Proj.GRS80 / 360))%Q
  | TileMatrix.meters, TileMatrix.degrees => None
  | _, _ => Some res
  end.

(** Two stand-ins for [getImage] that agree on the requests for the source
    grid, the only ones that [getTile] makes. *)
Definition agree_on_source (f g : MapService.getImage_type) : Prop :=
  forall laykey bbox zoom_ useCache nbThread cpt outCRS allowEmptyTile (s : state),
    f laykey bbox zoom_ false useCache nbThread cpt outCRS allowEmptyTile s =
    g laykey bbox zoom_ false useCache nbThread cpt outCRS allowEmptyTile s.

(** What a request for a tile of the source grid, with the cache bypassed,
    hands back: nothing for a tile out of bounds, the downloaded bytes when
    they sniff as an image, nothing otherwise. *)
Definition source_tile_data (env : Env) (self : MapService.t) (laykey : string)
    (t : Z * Z * Z) : option bytes :=
  let '(col, row, zoom_) := t in
  match TileMatrix.getTileCoords (MapService.srcTms self) col row zoom_ with
  | Ok (x, y) =>
      if MapService.out_of_bounds (MapService.srcTms self) col row x y then None
      else
        match MapService.buildUrl self laykey col row zoom_ with
        | Ok url =>
            match http_get env url with
            | Some d => match imghdr_what env d with
                        | Some _ => Some d
                        | None => None
                        end
            | None => None
            end
        | Raise _ => None
        end
  | Raise _ => None
  end.

(** The tiles that [getImage] asks for: [nbTilesX] columns from [firstCol],
    [nbTilesY] rows from [firstRow], column by column. *)
Definition required_cols (firstCol nbTilesX : Z) : list Z :=
  map (fun i => firstCol + i) (py_range nbTilesX).

Definition required_rows (tm : TileMatrix.t) (firstRow nbTilesY : Z) : list Z :=
  match TileMatrix.originLoc tm with
  | TileMatrix.NW => map (fun i => firstRow + i) (py_range nbTilesY)
  | TileMatrix.SW => map (fun i => firstRow - i) (py_range nbTilesY)
  end.

Definition required_tiles (tm : TileMatrix.t) (firstCol firstRow nbTilesX nbTilesY zoom_ : Z)
    : list (Z * Z * Z) :=
  flat_map (fun c => map (fun r => (c, r, zoom_)) (required_rows tm firstRow nbTilesY))
           (required_cols firstCol nbTilesX).
(** ** Example grids *)

(** A grid with three explicit levels, 4, 2 and 1 units per pixel. *)
Definition grid421 : TileMatrix.t :=
  {| TileMatrix.CRS := "EPSG:3857"; TileMatrix.tileSize := 256;
     TileMatrix.originLoc := TileMatrix.NW;
     TileMatrix.xmin := 0; TileMatrix.ymin := 0;
     TileMatrix.xmax := 1024; TileMatrix.ymax := 1024;
     TileMatrix.resolutions := Some [4%Q; 2%Q; 1%Q];
     TileMatrix.initRes := 0; TileMatrix.resFactor := 0;
     TileMatrix.nbLevels := 3;
     TileMatrix.units := TileMatrix.meters |}.

(** A grid with the two levels 2.5 and 0.1, as Python reads the literals. *)
Definition grid_tenths : TileMatrix.t :=
  {| TileMatrix.CRS := "EPSG:3857"; TileMatrix.tileSize := 256;
     TileMatrix.originLoc := TileMatrix.NW;
     TileMatrix.xmin := 0; TileMatrix.ymin := 0;
     TileMatrix.xmax := 1024; TileMatrix.ymax := 1024;
     TileMatrix.resolutions := Some [(5 # 2)%Q; Float64.literal (1 # 10)];
     TileMatrix.initRes := 0; TileMatrix.resFactor := 0;
     TileMatrix.nbLevels := 2;
     TileMatrix.units := TileMatrix.meters |}.

(** A grid whose explicit list holds the same resolution twice. *)
Definition grid22 : TileMatrix.t :=
  {| TileMatrix.CRS := "EPSG:3857"; TileMatrix.tileSize := 256;
     TileMatrix.originLoc := TileMatrix.NW;
     TileMatrix.xmin := 0; TileMatrix.ymin := 0;
     TileMatrix.xmax := 512; TileMatrix.ymax := 512;
     TileMatrix.resolutions := Some [2%Q; 2%Q];
     TileMatrix.initRes := 0; TileMatrix.resFactor := 0;
     TileMatrix.nbLevels := 2;
     TileMatrix.units := TileMatrix.meters |}.

(** ** A small world to run the code in *)

(** The first byte of a PNG stream. *)
Definition png_magic : Byte.byte := Byte.x89.

Definition starts_with_png_magic (d : bytes) : bool :=
  match d with
  | b :: _ => if Byte.eqb b png_magic then true else false
  | [] => false
  end.

(** A map service that answers every request for layer "osm" with a PNG
    stream, except for the tile in column 1, row 1, and nothing else. *)
Definition tile_url (laykey : string) (col row zoom_ : Z) : string :=
  "http://tiles/" +:+ laykey +:+ "/" +:+ pretty zoom_ +:+ "/" +:+ pretty col
  +:+ "/" +:+ pretty row.

Definition the_tile : bytes := [png_magic; Byte.x50; Byte.x4e; Byte.x47].

Definition served (url : string) : option bytes :=
  if String.eqb url (tile_url "osm" 1 1 1) then None
  else if String.prefix "http://tiles/osm/" url then Some the_tile
  else None.

Definition env0 (gdal : bool) : Env :=
  {| path_stem := fun p => p;
     split_srid := fun crs =>
       if String.eqb crs "EPSG:3857" then Ok ("EPSG"%string, 3857)
       else if String.eqb crs "EPSG:4326" then Ok ("EPSG"%string, 4326)
       else Raise ValueError;
     sqlite_max_variables := 999;
     imghdr_what := fun d => if starts_with_png_magic d then Some "png"%string else None;
     http_get := served;
     Image_open_ok := starts_with_png_magic;
     png_bytes := fun _ => the_tile;
     reprojBbox := fun _ _ b => Ok b;
     GDAL := gdal;
     gdal_reprojImg := fun _ _ g _ out_size _ =>
       let '(w, h) := default (image_size (GeoImage.img g)) out_size in
       Ok {| GeoImage.img := Warped w h []; GeoImage.ul := GeoImage.ul g;
             GeoImage.res := GeoImage.res g |} |}.

(** A grid in degrees with the same three levels. *)
Definition grid_deg : TileMatrix.t :=
  {| TileMatrix.CRS := "EPSG:4326"; TileMatrix.tileSize := 256;
     TileMatrix.originLoc := TileMatrix.NW;
     TileMatrix.xmin := 0; TileMatrix.ymin := 0;
     TileMatrix.xmax := 1024; TileMatrix.ymax := 1024;
     TileMatrix.resolutions := Some [4%Q; 2%Q; 1%Q];
     TileMatrix.initRes := 0; TileMatrix.resFactor := 0;
     TileMatrix.nbLevels := 3;
     TileMatrix.units := TileMatrix.degrees |}.

(** A service on the grid [grid421] with no destination grid, defined by the
    documented keys only. *)
Definition svc_src : MapService.t :=
  {| MapService.srckey := "OSM"; MapService.srcGridKey := "WM";
     MapService.srcTms := grid421; MapService.dst := None;
     MapService.cacheFolder := "/cache/"; MapService.zoom := None;
     MapService.buildUrl := fun laykey col row zoom_ =>
       Ok (tile_url laykey col row zoom_) |}.

(** A service whose source grid is in degrees and whose destination grid is
    in meters. *)
Definition svc_deg_to_m : MapService.t :=
  {| MapService.srckey := "WGS"; MapService.srcGridKey := "WGS84";
     MapService.srcTms := grid_deg; MapService.dst := Some ("WM"%string, grid421);
     MapService.cacheFolder := "/cache/"; MapService.zoom := None;
     MapService.buildUrl := fun laykey col row zoom_ =>
       Ok (tile_url laykey col row zoom_) |}.

(** An empty cache folder, the service running, at some time of day. *)
Definition state0 : state :=
  {| files := ∅; now := 1000000000; trace := []; caches := ∅;
     running := true; nbTiles := 0; cptTiles := 0 |}.


(** The cache file of layer "osm" of [svc_src]. *)
Definition osm_path : string := "/cache/OSM_osm_WM.gpkg".






(** The store object of that file and a store holding the given tiles. *)
Definition osm_store : geopackage :=
  {| dbPath := osm_path; name := osm_path; auth := "EPSG"; code := 3857;
     gp_tileSize := 256; gp_xmin := 0; gp_ymin := 0; gp_xmax := 1024;
     gp_ymax := 1024; gp_resolutions := [4%Q; 2%Q; 1%Q] |}.

(** The store of layer "osm" of [svc_deg_to_m] on its destination grid. *)
Definition wgs_store : geopackage :=
  {| dbPath := "/cache/WGS_osm_WM.gpkg"; name := "/cache/WGS_osm_WM.gpkg";
     auth := "EPSG"; code := 3857; gp_tileSize := 256;
     gp_xmin := 0; gp_ymin := 0; gp_xmax := 1024; gp_ymax := 1024;
     gp_resolutions := [4%Q; 2%Q; 1%Q] |}.

Definition store_database (tiles : gmap tile_key (bytes * Z)) : database :=
  {| application_id := GeoPackage.GP10;
     schema :=
       {[ "gpkg_contents"%string := GeoPackage.contents_columns;
          "gpkg_spatial_ref_sys"%string := GeoPackage.spatial_ref_sys_columns;
          "gpkg_tile_matrix_set"%string := GeoPackage.tile_matrix_set_columns;
          "gpkg_tile_matrix"%string := GeoPackage.tile_matrix_columns;
          "gpkg_tiles"%string := GeoPackage.tiles_columns ]};
     gpkg_contents := ∅; gpkg_spatial_ref_sys := ∅;
     gpkg_tile_matrix_set := ∅; gpkg_tile_matrix := ∅;
     gpkg_tiles := tiles |}.

Definition state_with_tiles (tiles : gmap tile_key (bytes * Z)) : state :=
  {| files := {[ osm_path := Sqlite (store_database tiles) ]};
     now := 1000000000; trace := []; caches := ∅;
     running := true; nbTiles := 0; cptTiles := 0 |}.

(** The tile (zoom 0, column 0, row 0), written 100 days before [now]. *)
Definition stale_tiles : gmap tile_key (bytes * Z) :=
  {[ (0, 0, 0) := (the_tile, 1000000000 - 100 * 86400) ]}.

(** The same tile, written one hour before [now]. *)
Definition fresh_tiles : gmap tile_key (bytes * Z) :=
  {[ (0, 0, 0) := (the_tile, 1000000000 - 3600) ]}.

(** [N] sequential calls of [GeoPackage.getTile], collected as [getTiles]
    returns its rows. *)
Fixpoint getTile_each (self : geopackage) (tiles : list (Z * Z * Z))
    : M (list (Z * Z * Z * bytes)) :=
  match tiles with
  | [] => mret []
  | (x, y, z) :: rest =>
      data ← GeoPackage.getTile self x y z;
      found ← getTile_each self rest;
      mret (match data with
            | Some d => (x, y, z, d) :: found
            | None => found
            end)
  end.

(** [N] sequential calls of [GeoPackage.putTile]. *)
Fixpoint putTile_each (self : geopackage) (tiles : list (Z * Z * Z * bytes)) : M unit :=
  match tiles with
  | [] => mret tt
  | (x, y, z, data) :: rest =>
      GeoPackage.putTile self x y z data;; putTile_each self rest
  end.

(** A raster of one tile slot on which nothing was pasted. *)
Definition blank_raster : GeoImage.t :=
  {| GeoImage.img := Mosaic 256 256 [];
     GeoImage.ul := (0%Q, 1024%Q); GeoImage.res := 2 |}.

(** The box of the tile (column 0, row 0) of level 1 of the example grids, and
    the box of the four tiles of that level. *)
Definition one_tile_box : Q * Q * Q * Q := (0, 512, 512, 1024)%Q.
Definition four_tile_box : Q * Q * Q * Q := (0, 0, 1024, 1024)%Q.

(** What the loop of [getImage] pastes for one entry of [tilesData]. *)
Definition usable (env : Env) (t : MapService.tile_data) : bool :=
  match t.2 with
  | Some d => Image_open_ok env d
  | None => false
  end.

Definition tile_slot (env : Env) (tileSize firstCol firstRow : Z)
    (t : MapService.tile_data) : tile_image * (Z * Z) :=
  let '(col, row, _, data) := t in
  (match data with
   | None => Flat tileSize tileSize "lightgrey"
   | Some d => if Image_open_ok env d then Decoded d
               else Flat tileSize tileSize "pink"
   end,
   ((col - firstCol) * tileSize, Z.abs (row - firstRow) * tileSize)).

(** A batch of fifty keys on the diagonal of level 0, and a store that holds
    one tile off the diagonal (column 0, row 1). *)
Definition diagonal_batch : list (Z * Z * Z) := map (fun i => (i, i, 0)) (py_range 50).

Definition off_diagonal_tiles : gmap tile_key (bytes * Z) :=
  {[ (0, 0, 1) := (the_tile, 1000000000 - 3600) ]}.

(** ** Further parts of the two files

    What follows embeds the code that the requests above do not pass
    through: the quadkey reader, the text handling of class [CRS], the box of
    class [Reproj], the request grouping of [reprojMany_EPSGio] and the
    built-in Web Mercator formulas. *)

From Stdlib Require Import Qpower Ascii Reals.
From Stdlib Require Lra.

(** The state [s] read when the clock shows [t]. *)
Definition at_time (t : Z) (s : state) : state :=
  {| files := files s; now := t; trace := trace s; caches := caches s;
     running := running s; nbTiles := nbTiles s; cptTiles := cptTiles s |}.

(** Two states that differ at most in the progress counters [nbTiles] and
    [cptTiles]. *)
Definition same_outside (s s' : state) : Prop :=
  files s' = files s /\ trace s' = trace s /\ caches s' = caches s /\
  running s' = running s /\ now s' = now s.

(** Reading a quadkey back: each digit holds one bit of the column (its bit 0)
    and one bit of the row (its bit 1), most significant first. *)
Definition quad_bits (c : ascii) : Z * Z :=
  if Ascii.eqb c "1" then (1, 0)
  else if Ascii.eqb c "2" then (0, 1)
  else if Ascii.eqb c "3" then (1, 1)
  else (0, 0).

Fixpoint quad_decode (quadKey : string) (acc : Z * Z) : Z * Z :=
  match quadKey with
  | EmptyString => acc
  | String c rest =>
      quad_decode rest (2 * acc.1 + (quad_bits c).1, 2 * acc.2 + (quad_bits c).2)
  end.

(** ** Python text

    The methods of [str] that geoscene/proj.py calls, on text within the
    ASCII range. *)

Module PyStr.

Definition is_digit (c : ascii) : bool :=
  ((48 <=? nat_of_ascii c) && (nat_of_ascii c <=? 57))%nat.

Definition digit_value (c : ascii) : Z := Z.of_nat (nat_of_ascii c) - 48.

Fixpoint all_chars (p : ascii -> bool) (s : string) : bool :=
  match s with
  | EmptyString => true
  | String c s' => p c && all_chars p s'
  end.

(** Text within the ASCII range, on which [isdigit], [upper] and [lower] below
    are those of Python. *)
Definition is_ascii_text (s : string) : bool :=
  all_chars (fun c => (nat_of_ascii c <? 128)%nat) s.

(** [s.isdigit()]: at least one character, and all of them digits *)
Definition isdigit (s : string) : bool :=
  match s with
  | EmptyString => false
  | _ => all_chars is_digit s
  end.

(** [int(s)] for a string of decimal digits, from the value [acc] of the
    digits read so far *)
Fixpoint int_from (acc : Z) (s : string) : Z :=
  match s with
  | EmptyString => acc
  | String c s' => int_from (10 * acc + digit_value c) s'
  end.

Definition int_of_digits (s : string) : Z := int_from 0 s.

(** [c in s] for a single character *)
Fixpoint contains (c : ascii) (s : string) : bool :=
  match s with
  | EmptyString => false
  | String c' s' => Ascii.eqb c' c || contains c s'
  end.

(** [s.split(sep)] for a separator of one character *)
Fixpoint split_on (sep : ascii) (s : string) : list string :=
  match s with
  | EmptyString => [EmptyString]
  | String c s' =>
      if Ascii.eqb c sep then EmptyString :: split_on sep s'
      else match split_on sep s' with
           | p :: ps => String c p :: ps
           | [] => [String c EmptyString]
           end
  end.

Definition upper_char (c : ascii) : ascii :=
  let n := nat_of_ascii c in
  if ((97 <=? n) && (n <=? 122))%nat then ascii_of_nat (n - 32) else c.

Definition lower_char (c : ascii) : ascii :=
  let n := nat_of_ascii c in
  if ((65 <=? n) && (n <=? 90))%nat then ascii_of_nat (n + 32) else c.

Fixpoint map_chars (f : ascii -> ascii) (s : string) : string :=
  match s with
  | EmptyString => EmptyString
  | String c s' => String (f c) (map_chars f s')
  end.

(** [s.upper()], [s.lower()] *)
Definition upper (s : string) : string := map_chars upper_char s.
Definition lower (s : string) : string := map_chars lower_char s.

(** [sep.join(l)] *)
Fixpoint join (sep : string) (l : list string) : string :=
  match l with
  | [] => EmptyString
  | [s] => s
  | s :: rest => s +:+ sep +:+ join sep rest
  end.

End PyStr.

(** [a, b = l] *)
Definition unpack2 {A} (l : list A) : result (A * A) :=
  match l with
  | [a; b] => Ok (a, b)
  | _ => Raise ValueError
  end.

(** [min(..)] and [max(..)] of a first value and the values after it *)
Definition py_min (v : Q) (vs : list Q) : Q :=
  fold_left (fun m x => if Qlt_bool x m then x else m) vs v.
Definition py_max (v : Q) (vs : list Q) : Q :=
  fold_left (fun m x => if Qlt_bool m x then x else m) vs v.

(** ** geoscene/proj.py: class CRS *)

Module CRS.

Record t := { auth : option string; code : option Z; proj4 : string }.

(** What [CRS(crs)] is given: an EPSG code as an integer, or text. *)
Inductive input :=
  | Code (n : Z)
  | Text (s : string).

(** [str(crs)] *)
Definition str (crs : input) : string :=
  match crs with
  | Code n => pretty n
  | Text s => s
  end.

Definition init (crs : input) : result t :=
  let crs := str crs in
  (* case 1 : crs is just a code *)
  if PyStr.isdigit crs then
    let code_ := PyStr.int_of_digits crs in
    Ok {| auth := Some "EPSG"%string; code := Some code_;
          proj4 := "+init=epsg:" +:+ pretty code_ |}
  (* case 2 : crs is in the form AUTH:CODE *)
  else if PyStr.contains ":" crs then
    '(auth_, code_) ← unpack2 (PyStr.split_on ":" crs);
    if PyStr.isdigit code_ then
      let code_ := PyStr.int_of_digits code_ in
      auth_ ← (if String.prefix "+init=" auth_
               then '(_, a) ← unpack2 (PyStr.split_on "=" auth_); Ok a
               else Ok auth_);
      let auth_ := PyStr.upper auth_ in
      Ok {| auth := Some auth_; code := Some code_;
            proj4 := "+init=" +:+ PyStr.lower auth_ +:+ ":" +:+ pretty code_ |}
    else Raise ValueError
  (* case 3 : crs is proj4 string *)
  else if forallb (String.prefix "+") (PyStr.split_on " " crs) then
    Ok {| auth := None; code := None; proj4 := crs |}
  else Raise ValueError.

Definition hasCode (self : t) : bool := bool_decide (is_Some (code self)).
Definition hasAuth (self : t) : bool := bool_decide (is_Some (auth self)).
Definition isSRID (self : t) : bool := hasAuth self && hasCode self.

(** [self.auth + ':' + str(self.code)] when [isSRID], else [None] *)
Definition SRID (self : t) : option string :=
  match auth self, code self with
  | Some a, Some c => Some (a +:+ ":" +:+ pretty c)
  | _, _ => None
  end.

Definition isEPSG (self : t) : bool :=
  bool_decide (auth self = Some "EPSG"%string) && bool_decide (is_Some (code self)).
Definition isWM (self : t) : bool :=
  bool_decide (auth self = Some "EPSG"%string) && bool_decide (code self = Some 3857).
Definition isWGS84 (self : t) : bool :=
  bool_decide (auth self = Some "EPSG"%string) && bool_decide (code self = Some 4326).

(** [__str__]: "the best string representation for this crs" *)
Definition to_string (self : t) : string :=
  match SRID self with
  | Some s => s
  | None => proj4 self
  end.

End CRS.

(** ** geoscene/proj.py: class Reproj *)

Module Reproj.

Section Methods.
(** [self.pts]: the points transformed by the interface that [__init__]
    chose (GDAL, pyproj, the built-in formulas or epsg.io). *)
Variable pts : list (Q * Q) -> result (list (Q * Q)).

(** [pt(x, y)]; [None] is Python's [None]. *)
Definition pt (x y : option Q) : result (Q * Q) :=
  match x, y with
  | Some x, Some y => r ← pts [(x, y)]; py_index r 0
  | _, _ => Raise ReprojError
  end.

Definition bbox (b : Q * Q * Q * Q) : result (Q * Q * Q * Q) :=
  let '(xmin, ymin, xmax, ymax) := b in
  ul ← pt (Some xmin) (Some ymax);
  ur ← pt (Some xmax) (Some ymax);
  br ← pt (Some xmax) (Some ymin);
  bl ← pt (Some xmin) (Some ymin);
  let _xmin := py_min ul.1 [ur.1; br.1; bl.1] in
  let _xmax := py_max ul.1 [ur.1; br.1; bl.1] in
  let _ymin := py_min ul.2 [ur.2; br.2; bl.2] in
  let _ymax := py_max ul.2 [ur.2; br.2; bl.2] in
  Ok (_xmin, _ymin, _xmax, _ymax).

End Methods.

End Reproj.

(** ** geoscene/proj.py: the requests of reprojMany_EPSGio *)

Module EPSGio.

(** [sum([len(p) for p in part]) + len(';'*len(part))]: the text of [part]
    with one separator after each point *)
Definition part_length (part : list string) : Z :=
  fold_right Z.add 0 (map (fun p => Z.of_nat (String.length p)) part)
  + Z.of_nat (length part).

(** The loop that groups the formatted points [data] into the parts of one
    request each; [n] is [len(data)]. *)
Fixpoint group_loop (n : Z) (items : list (Z * string))
    (part : list string) (parts : list (list string)) : list (list string) :=
  match items with
  | [] => parts
  | (i, p) :: rest =>
      let l := part_length part in
      let '(part, parts) :=
        if l + Z.of_nat (String.length p) <? 4000
        then (part ++ [p], parts)
        else ([p], parts ++ [part]) in
      let parts := if i =? n - 1 then parts ++ [part] else parts in
      group_loop n rest part parts
  end.

(** [parts] when the loop ends, and [[';'.join(part) for part in parts]] *)
Definition groups (data : list string) : list (list string) :=
  group_loop (Z.of_nat (length data)) (enumerate data) [] [].

Definition request_parts (data : list string) : list string :=
  map (PyStr.join ";") (groups data).

End EPSGio.

(** A part that goes into one request. *)
Definition fits (part : list string) : Prop :=
  part <> [] /\ Z.of_nat (String.length (PyStr.join ";" part)) < 4000.

(** ** geoscene/proj.py: the built-in Web Mercator formulas

    [math.atan], [math.exp], [math.log] and [math.tan] have no rational
    model: these two functions are embedded over the real numbers, with pi
    itself for [math.pi].  The range errors of floats (overflow of
    [math.exp], the finite tangent at 90 degrees) are outside this model. *)

Module WebMercator.

(** [GRS80.perimeter/360] *)
Definition k : R := (2 * PI * 6378137 / 360)%R.

Definition webMercToLonLat (x y : R) : R * R :=
  let lon := (x / k)%R in
  let lat := (y / k)%R in
  let lat := (180 / PI * (2 * atan (exp (lat * PI / 180)) - PI / 2))%R in
  (lon, lat).

(** [math.log] raises ValueError outside the positive numbers. *)
Definition math_log (t : R) : result R :=
  if Rle_dec t 0 then Raise ValueError else Ok (ln t).

Definition lonLatToWebMerc (lon lat : R) : result (R * R) :=
  let x := (lon * k)%R in
  l ← math_log (tan ((90 + lat) * PI / 360));
  let lat := (l / (PI / 180))%R in
  let y := (lat * k)%R in
  Ok (x, y).

End WebMercator.

(** ** Further examples *)



(** A grid of four levels defined by its first resolution and a factor, with
    its origin in the south-west. *)
Definition grid_factor : TileMatrix.t :=
  {| TileMatrix.CRS := "EPSG:3857"; TileMatrix.tileSize := 256;
     TileMatrix.originLoc := TileMatrix.SW;
     TileMatrix.xmin := 0; TileMatrix.ymin := 0;
     TileMatrix.xmax := 2048; TileMatrix.ymax := 2048;
     TileMatrix.resolutions := None;
     TileMatrix.initRes := 8; TileMatrix.resFactor := 2;
     TileMatrix.nbLevels := 4;
     TileMatrix.units := TileMatrix.meters |}.

(** The state of a service that was built and not started: [__init__] sets
    [running] to [False]. *)
Definition state_idle : state :=
  {| files := ∅; now := 1000000000; trace := []; caches := ∅;
     running := false; nbTiles := 0; cptTiles := 0 |}.

(** A transformation that leaves the points where they are. *)
Definition same_points : list (Q * Q) -> result (list (Q * Q)) := fun l => Ok l.
(* ================================================================== *)
(** * Properties of the tile pyramid *)

Lemma Qlt_bool_iff (a b : Q) : Qlt_bool a b = true <-> (a < b)%Q.
Proof.
  unfold Qlt_bool. rewrite negb_true_iff.
  destruct (Qle_bool b a) eqn:E.
  - apply Qle_bool_iff in E. split; [discriminate | intros H; exfalso; lra].
  - split; [intros _ | reflexivity].
    destruct (Qlt_le_dec a b) as [H | H]; [exact H |].
    apply Qle_bool_iff in H. congruence.
Qed.

Lemma Qlt_bool_false (a b : Q) : Qlt_bool a b = false <-> (b <= a)%Q.
Proof.
  unfold Qlt_bool. rewrite negb_false_iff. apply Qle_bool_iff.
Qed.

Lemma Qeq_bool_false (a b : Q) : ~ (a == b)%Q -> Qeq_bool a b = false.
Proof.
  intros H. destruct (Qeq_bool a b) eqn:E; [| reflexivity].
  apply Qeq_bool_eq in E. contradiction.
Qed.

Lemma py_index_nat {A} (l : list A) (k : nat) (a : A) :
  nth_error l k = Some a -> py_index l (Z.of_nat k) = Ok a.
Proof.
  intros H. unfold py_index. cbv zeta.
  assert (Hk : (k < length l)%nat) by (apply nth_error_Some; congruence).
  destruct (Z.ltb_spec (Z.of_nat k) 0) as [Hneg | Hpos]; [lia |].
  cbv iota.
  destruct (Z.ltb_spec (Z.of_nat k) 0) as [Hneg | _]; [lia |].
  destruct (Z.leb_spec (Z.of_nat (length l)) (Z.of_nat k)) as [Hge | _]; [lia |].
  cbn. rewrite Nat2Z.id, H. reflexivity.
Qed.

Lemma py_index_beyond {A} (l : list A) (i : Z) :
  Z.of_nat (length l) <= i -> py_index l i = Raise IndexError.
Proof.
  intros H. unfold py_index. cbv zeta.
  destruct (Z.ltb_spec i 0) as [Hneg | Hpos]; [lia |].
  cbv iota.
  destruct (Z.leb_spec (Z.of_nat (length l)) i) as [_ | Hlt]; [| lia].
  rewrite orb_true_r. reflexivity.
Qed.

Lemma enumerate_items_from (resLst : list Q) : enumerate resLst = items_from resLst 0.
Proof.
  unfold enumerate, items_from, py_range.
  rewrite Nat2Z.id, Nat.sub_0_r. reflexivity.
Qed.

Lemma skipn_nth_error_cons {A} (l : list A) (k : nat) (a : A) :
  nth_error l k = Some a -> skipn k l = a :: skipn (S k) l.
Proof.
  revert k. induction l as [| x l IH]; intros [| k] H; try discriminate.
  - cbn in H. injection H as ->. reflexivity.
  - cbn in H. cbn [skipn]. rewrite (IH k H). reflexivity.
Qed.

Lemma items_from_cons (resLst : list Q) (k : nat) (v : Q) :
  nth_error resLst k = Some v ->
  items_from resLst k = (Z.of_nat k, v) :: items_from resLst (S k).
Proof.
  intros H. unfold items_from.
  assert (Hk : (k < length resLst)%nat) by (apply nth_error_Some; congruence).
  replace (length resLst - k)%nat with (S (length resLst - S k)) by lia.
  rewrite (skipn_nth_error_cons _ _ _ H). reflexivity.
Qed.

(** One turn of the loop of [getNearestZoom] that falls through to the next
    index: neither entry of the pair equals [res] and the pair does not
    bracket it. *)
Lemma nearest_scan_continue resLst res rule (k : nat) v1 v2 :
  nth_error resLst k = Some v1 ->
  nth_error resLst (S k) = Some v2 ->
  ~ (v1 == res)%Q -> ~ (v2 == res)%Q ->
  ~ (res < v1 /\ v2 < res)%Q ->
  TileMatrix.nearest_scan resLst res rule (items_from resLst k) =
  TileMatrix.nearest_scan resLst res rule (items_from resLst (S k)).
Proof.
  intros H1 H2 N1 N2 NB.
  rewrite (items_from_cons _ _ _ H1). cbn [TileMatrix.nearest_scan].
  rewrite (Qeq_bool_false _ _ N1).
  assert (Hk : (S k < length resLst)%nat) by (apply nth_error_Some; congruence).
  replace (Z.of_nat k =? Z.of_nat (length resLst) - 1) with false
    by (symmetry; apply Z.eqb_neq; lia).
  replace (Z.of_nat k + 1) with (Z.of_nat (S k)) by lia.
  rewrite (py_index_nat _ _ _ H2). cbn.
  rewrite (Qeq_bool_false _ _ N2).
  destruct (Qlt_bool res v1 && Qlt_bool v2 res) eqn:E; [| reflexivity].
  apply andb_true_iff in E. destruct E as [E1 E2].
  apply Qlt_bool_iff in E1. apply Qlt_bool_iff in E2. tauto.
Qed.

(** Skipping a whole prefix of entries that all lie strictly above [res]. *)
Lemma nearest_scan_skip_above resLst res rule (i : nat) :
  (i < length resLst)%nat ->
  (forall j v, (j <= i)%nat -> nth_error resLst j = Some v -> (res < v)%Q) ->
  TileMatrix.nearest_scan resLst res rule (items_from resLst 0) =
  TileMatrix.nearest_scan resLst res rule (items_from resLst i).
Proof.
  intros Hi. induction i as [| i IH]; intros Habove; [reflexivity |].
  rewrite IH; [| lia | intros j v Hj; apply Habove; lia].
  destruct (nth_error resLst i) as [v1 |] eqn:E1;
    [| apply nth_error_None in E1; lia].
  destruct (nth_error resLst (S i)) as [v2 |] eqn:E2;
    [| apply nth_error_None in E2; lia].
  assert (A1 : (res < v1)%Q) by (apply (Habove i); [lia | exact E1]).
  assert (A2 : (res < v2)%Q) by (apply (Habove (S i)); [lia | exact E2]).
  apply (nearest_scan_continue _ _ _ _ v1 v2 E1 E2); intros H; lra.
Qed.

(** Skipping entries that all lie strictly below [res]. *)
Lemma nearest_scan_skip_below resLst res rule (i : nat) :
  (i < length resLst)%nat ->
  (forall j v, (j <= i)%nat -> nth_error resLst j = Some v -> (v < res)%Q) ->
  TileMatrix.nearest_scan resLst res rule (items_from resLst 0) =
  TileMatrix.nearest_scan resLst res rule (items_from resLst i).
Proof.
  intros Hi. induction i as [| i IH]; intros Hbelow; [reflexivity |].
  rewrite IH; [| lia | intros j v Hj; apply Hbelow; lia].
  destruct (nth_error resLst i) as [v1 |] eqn:E1;
    [| apply nth_error_None in E1; lia].
  destruct (nth_error resLst (S i)) as [v2 |] eqn:E2;
    [| apply nth_error_None in E2; lia].
  assert (A1 : (v1 < res)%Q) by (apply (Hbelow i); [lia | exact E1]).
  assert (A2 : (v2 < res)%Q) by (apply (Hbelow (S i)); [lia | exact E2]).
  apply (nearest_scan_continue _ _ _ _ v1 v2 E1 E2); intros H; lra.
Qed.

(** The loop stops at the last index whatever it finds there. *)
Lemma nearest_scan_last resLst res rule (k : nat) :
  S k = length resLst ->
  TileMatrix.nearest_scan resLst res rule (items_from resLst k) = Ok (Some (Z.of_nat k)).
Proof.
  intros Hk.
  destruct (nth_error resLst k) as [v |] eqn:E;
    [| apply nth_error_None in E; lia].
  rewrite (items_from_cons _ _ _ E). cbn [TileMatrix.nearest_scan].
  destruct (Qeq_bool v res); [reflexivity |].
  replace (Z.of_nat k =? Z.of_nat (length resLst) - 1) with true
    by (symmetry; apply Z.eqb_eq; lia).
  reflexivity.
Qed.

Lemma descending_nth (l : list Q) :
  descending l ->
  forall i j vi vj, (i <= j)%nat ->
    nth_error l i = Some vi -> nth_error l j = Some vj -> (vj <= vi)%Q.
Proof.
  intros Hs.
  assert (Ht : StronglySorted (fun a b => (b <= a)%Q) l).
  { apply Sorted_StronglySorted; [| exact Hs].
    intros x y z Hxy Hyz. lra. }
  clear Hs. induction Ht as [| a l Ht IH Hall]; intros i j vi vj Hij Hi Hj.
  - destruct i; discriminate.
  - destruct i as [| i], j as [| j]; cbn in Hi, Hj.
    + injection Hi as <-. injection Hj as <-. lra.
    + injection Hi as <-.
      apply (proj1 (List.Forall_forall _ _) Hall).
      eapply nth_error_In; eauto.
    + lia.
    + apply (IH i j); [lia | assumption | assumption].
Qed.




Lemma result_mapM_nth {A B} (f : A -> result B) (l : list A) (bs : list B) :
  result_mapM f l = Ok bs ->
  forall k a, nth_error l k = Some a ->
    exists b, f a = Ok b /\ nth_error bs k = Some b.
Proof.
  revert bs. induction l as [| x l IH]; intros bs H k a Hk.
  - destruct k; discriminate.
  - cbn in H. destruct (f x) as [b0 |] eqn:Ef; [| discriminate].
    cbn in H. destruct (result_mapM f l) as [bs0 |] eqn:Em; [| discriminate].
    cbn in H. injection H as <-.
    destruct k as [| k]; cbn in Hk.
    + injection Hk as <-. exists b0. split; [exact Ef | reflexivity].
    + exact (IH bs0 eq_refl k a Hk).
Qed.

Lemma result_mapM_length {A B} (f : A -> result B) (l : list A) (bs : list B) :
  result_mapM f l = Ok bs -> length bs = length l.
Proof.
  revert bs. induction l as [| x l IH]; intros bs H; cbn in H.
  - injection H as <-. reflexivity.
  - destruct (f x) as [b0 |]; [| discriminate]. cbn in H.
    destruct (result_mapM f l) as [bs0 |]; [| discriminate]. cbn in H.
    injection H as <-. cbn. f_equal. apply IH. reflexivity.
Qed.

Lemma py_range_nth (n : Z) (k : nat) :
  (k < Z.to_nat n)%nat -> nth_error (py_range n) k = Some (Z.of_nat k).
Proof.
  intros H. unfold py_range.
  rewrite nth_error_map, nth_error_seq.
  destruct (Nat.ltb_spec k (Z.to_nat n)) as [_ | Hge]; [reflexivity | lia].
Qed.

(** Inside the pyramid, [getRes] reads the entry of [getResList]. *)
Lemma getRes_in_list (tm : TileMatrix.t) (resLst : list Q) (z : nat) (v : Q) :
  TileMatrix.getResList tm = Ok resLst ->
  (z < length resLst)%nat ->
  TileMatrix.getRes tm (Z.of_nat z) = Ok v ->
  nth_error resLst z = Some v.
Proof.
  unfold TileMatrix.getResList, TileMatrix.getRes.
  destruct (TileMatrix.resolutions tm) as [l |].
  - intros H Hz Hv. injection H as ->.
    destruct (Z.gtb_spec (Z.of_nat z) (Z.of_nat (length resLst))) as [Hgt | _]; [lia |].
    destruct (nth_error resLst z) as [w |] eqn:E;
      [| apply nth_error_None in E; lia].
    rewrite (py_index_nat _ _ _ E) in Hv. congruence.
  - intros H Hz Hv.
    pose proof (result_mapM_length _ _ _ H) as Hlen.
    unfold py_range in Hlen. rewrite length_map, length_seq in Hlen.
    destruct (result_mapM_nth _ _ _ H z (Z.of_nat z)) as (b & Hb & Hnth).
    { apply py_range_nth. lia. }
    rewrite Hb in Hv. congruence.
Qed.

Lemma getRes_explicit_in_range (tm : TileMatrix.t) (l : list Q) (z : nat) (v : Q) :
  TileMatrix.resolutions tm = Some l ->
  nth_error l z = Some v ->
  TileMatrix.getRes tm (Z.of_nat z) = Ok v.
Proof.
  intros Hl Hv. unfold TileMatrix.getRes. rewrite Hl.
  assert (Hz : (z < length l)%nat) by (apply nth_error_Some; congruence).
  destruct (Z.gtb_spec (Z.of_nat z) (Z.of_nat (length l))) as [Hgt | _]; [lia |].
  apply py_index_nat. exact Hv.
Qed.

(** ** C2 *)

(** C2 (defect of the code).  The clamp of [getRes] is off by one: with an
    explicit resolution list of length [n], every zoom index [>= n] ends in
    the lookup [resolutions[n]], which is out of range, so the call raises
    IndexError instead of returning the last entry. *)
Theorem C2_getRes_beyond_list_raises (tm : TileMatrix.t) (l : list Q) (zoom : Z) :
  TileMatrix.resolutions tm = Some l ->
  Z.of_nat (length l) <= zoom ->
  TileMatrix.getRes tm zoom = Raise IndexError.
Proof.
  intros Hl Hz. unfold TileMatrix.getRes. rewrite Hl.
  destruct (Z.gtb_spec zoom (Z.of_nat (length l))) as [Hgt | Hle];
    apply py_index_beyond; lia.
Qed.

Lemma C2_getRes_beyond_list_raises_witness :
  TileMatrix.resolutions grid421 = Some [4%Q; 2%Q; 1%Q] /\
  Z.of_nat (length [4%Q; 2%Q; 1%Q]) <= 3 /\
  TileMatrix.getRes grid421 3 = Raise IndexError.
Proof.
  split; [reflexivity |]. split; [cbn; lia |].
  apply (C2_getRes_beyond_list_raises grid421 [4%Q; 2%Q; 1%Q] 3);
    [reflexivity | cbn; lia].
Defined.

(** ** C10 *)

(** On a descending list the first entry is the coarsest. *)
Lemma descending_first_is_coarsest (l : list Q) (first : Q) :
  descending l -> nth_error l 0 = Some first ->
  Forall (fun v => (v <= first)%Q) l.
Proof.
  intros Hs Hfirst. apply List.Forall_forall. intros v Hin.
  destruct (In_nth_error l v Hin) as [j Hj].
  apply (descending_nth l Hs 0 j first v); [lia | exact Hfirst | exact Hj].
Qed.

(** C10.  When the resolution list has at least two entries and its first
    entry is the coarsest one (as in every descending list), a target
    resolution strictly coarser than that first entry makes [getNearestZoom]
    run through the whole list and return the last index, the finest level,
    whatever the rule: not index 0. *)
Theorem C10_coarser_than_first_returns_last
    (tm : TileMatrix.t) (resLst : list Q) (first res : Q) (rule : string) :
  TileMatrix.getResList tm = Ok resLst ->
  (2 <= length resLst)%nat ->
  nth_error resLst 0 = Some first ->
  Forall (fun v => (v <= first)%Q) resLst ->
  (first < res)%Q ->
  TileMatrix.getNearestZoom tm res rule = Ok (Some (Z.of_nat (length resLst) - 1))
  /\ Z.of_nat (length resLst) - 1 <> 0.
Proof.
  intros Hl Hlen Hfirst Hmax Hres. split; [| lia].
  unfold TileMatrix.getNearestZoom. rewrite Hl. cbn.
  rewrite enumerate_items_from.
  rewrite (nearest_scan_skip_below resLst res rule (length resLst - 1)).
  - rewrite nearest_scan_last by lia. do 2 f_equal. lia.
  - lia.
  - intros j v _ Hj.
    pose proof (proj1 (List.Forall_forall _ _) Hmax v (nth_error_In _ _ Hj)) as Hv.
    cbv beta in Hv. lra.
Qed.

Lemma C10_coarser_than_first_returns_last_witness :
  TileMatrix.getNearestZoom grid421 8 "lower" = Ok (Some 2) /\
  TileMatrix.getNearestZoom grid421 8 "higher" = Ok (Some 2) /\
  TileMatrix.getNearestZoom grid421 8 "closer" = Ok (Some 2).
Proof.
  assert (Hmax : Forall (fun v => (v <= 4)%Q) [4%Q; 2%Q; 1%Q])
    by (repeat constructor; cbn; discriminate).
  split; [| split].
  - apply (C10_coarser_than_first_returns_last grid421 [4%Q; 2%Q; 1%Q] 4 8 "lower");
      [reflexivity | cbn; lia | reflexivity | exact Hmax | reflexivity].
  - apply (C10_coarser_than_first_returns_last grid421 [4%Q; 2%Q; 1%Q] 4 8 "higher");
      [reflexivity | cbn; lia | reflexivity | exact Hmax | reflexivity].
  - apply (C10_coarser_than_first_returns_last grid421 [4%Q; 2%Q; 1%Q] 4 8 "closer");
      [reflexivity | cbn; lia | reflexivity | exact Hmax | reflexivity].
Defined.

(** ** C4 *)

(** Exact match: the scan returns the first index whose entry equals the
    requested resolution. *)
Lemma nearest_scan_exact resLst rule (z : nat) (v : Q) :
  descending resLst ->
  nth_error resLst z = Some v ->
  (forall j vj, (j < z)%nat -> nth_error resLst j = Some vj -> ~ (vj == v)%Q) ->
  TileMatrix.nearest_scan resLst v rule (items_from resLst 0) = Ok (Some (Z.of_nat z)).
Proof.
  intros Hs Hz Hfirst.
  assert (Hlen : (z < length resLst)%nat) by (apply nth_error_Some; congruence).
  destruct z as [| z].
  - rewrite (items_from_cons _ _ _ Hz). cbn [TileMatrix.nearest_scan].
    rewrite Qeq_bool_refl. reflexivity.
  - destruct (nth_error resLst z) as [vz |] eqn:Ez;
      [| apply nth_error_None in Ez; lia].
    assert (Habove : forall j vj, (j <= z)%nat ->
              nth_error resLst j = Some vj -> (v < vj)%Q).
    { intros j vj Hj Ej.
      pose proof (descending_nth resLst Hs j (S z) vj v ltac:(lia) Ej Hz) as Hle.
      pose proof (Hfirst j vj ltac:(lia) Ej) as Hne.
      destruct (Qlt_le_dec v vj) as [Hlt | Hge]; [exact Hlt |].
      exfalso. apply Hne. lra. }
    rewrite (nearest_scan_skip_above resLst v rule z ltac:(lia) Habove).
    rewrite (items_from_cons _ _ _ Ez). cbn [TileMatrix.nearest_scan].
    pose proof (Habove z vz ltac:(lia) Ez) as Hvz.
    rewrite (Qeq_bool_false vz v) by lra.
    replace (Z.of_nat z =? Z.of_nat (length resLst) - 1) with false
      by (symmetry; apply Z.eqb_neq; lia).
    replace (Z.of_nat z + 1) with (Z.of_nat (S z)) by lia.
    rewrite (py_index_nat _ _ _ Hz). cbn.
    rewrite Qeq_bool_refl. reflexivity.
Qed.

(** Bracketing pair: the scan stops at the first adjacent pair that has the
    requested resolution strictly inside and applies the rule there. *)
Lemma nearest_scan_bracket resLst rule (i : nat) (v1 v2 res : Q) :
  descending resLst ->
  nth_error resLst i = Some v1 ->
  nth_error resLst (S i) = Some v2 ->
  (v2 < res)%Q -> (res < v1)%Q ->
  TileMatrix.nearest_scan resLst res rule (items_from resLst 0) =
  Ok (Some (if String.eqb rule "lower" then Z.of_nat i
            else if String.eqb rule "higher" then Z.of_nat i + 1
            else if Float64.ltb (Float64.sub v1 res) (Float64.sub res v2)
                 then Z.of_nat i
            else Z.of_nat i + 1)).
Proof.
  intros Hs H1 H2 Hlo Hhi.
  assert (Hlen : (S i < length resLst)%nat) by (apply nth_error_Some; congruence).
  assert (Habove : forall j vj, (j <= i)%nat ->
            nth_error resLst j = Some vj -> (res < vj)%Q).
  { intros j vj Hj Ej.
    pose proof (descending_nth resLst Hs j i vj v1 Hj Ej H1). lra. }
  rewrite (nearest_scan_skip_above resLst res rule i ltac:(lia) Habove).
  rewrite (items_from_cons _ _ _ H1). cbn [TileMatrix.nearest_scan].
  rewrite (Qeq_bool_false v1 res) by lra.
  replace (Z.of_nat i =? Z.of_nat (length resLst) - 1) with false
    by (symmetry; apply Z.eqb_neq; lia).
  replace (Z.of_nat i + 1) with (Z.of_nat (S i)) by lia.
  rewrite (py_index_nat _ _ _ H2). cbn.
  rewrite (Qeq_bool_false v2 res) by lra.
  rewrite (proj2 (Qlt_bool_iff res v1) Hhi), (proj2 (Qlt_bool_iff v2 res) Hlo).
  cbn [andb].
  destruct (String.eqb rule "lower"); [reflexivity |].
  destruct (String.eqb rule "higher"); [reflexivity |].
  destruct (Float64.ltb (Float64.sub v1 res) (Float64.sub res v2)); reflexivity.
Qed.

(** C4, as stated, fails.  With levels 4, 2, 1 the resolution 3 is at distance
    1 from both neighbours; rule 'closer' answers index 1, the finer one, and
    not the coarser index 0.  With a repeated resolution the identity law
    fails as well: [getRes 1] is found at index 0. *)
Lemma C4_counterexample :
  (4 - 3 == 3 - 2)%Q /\
  TileMatrix.getNearestZoom grid421 3 "closer" = Ok (Some 1) /\
  TileMatrix.getNearestZoom grid421 3 "closer" <> Ok (Some 0) /\
  descending [2%Q; 2%Q] /\
  TileMatrix.getRes grid22 1 = Ok 2%Q /\
  TileMatrix.getNearestZoom grid22 2 "closer" = Ok (Some 0) /\
  TileMatrix.getNearestZoom grid22 2 "closer" <> Ok (Some 1).
Proof.
  assert (H3 : TileMatrix.getNearestZoom grid421 3 "closer" = Ok (Some 1))
    by (vm_compute; reflexivity).
  assert (H2 : TileMatrix.getNearestZoom grid22 2 "closer" = Ok (Some 0))
    by (vm_compute; reflexivity).
  split; [reflexivity |]. split; [exact H3 |].
  split; [rewrite H3; discriminate |].
  split; [repeat constructor; cbn; discriminate |].
  split; [reflexivity |]. split; [exact H2 |].
  rewrite H2. discriminate.
Qed.

(** C4 (amended).  On a descending list of resolutions that are binary64
    numbers, [getNearestZoom] returns the first index holding the requested
    resolution, so that [getNearestZoom (getRes z) rule = z] for every
    in-range [z] whose resolution does not occur earlier in the list.  For a
    resolution strictly between the adjacent entries [i] (coarser) and [i+1]
    (finer) it returns [i] under 'lower', [i+1] under 'higher', and under any
    other rule ('closer') it compares the two differences [v1 - res] and
    [res - v2] as binary64 subtraction gives them: [i] when the first is
    strictly less, [i+1] otherwise.  A tie goes to the finer index, also a
    tie that only the rounding of the two differences brings about. *)
Theorem C4_getNearestZoom_descending (tm : TileMatrix.t) (resLst : list Q) :
  TileMatrix.getResList tm = Ok resLst ->
  descending resLst ->
  Forall (fun v => Float64.is_value v = true) resLst ->
  (forall (rule : string) (z : nat) (v : Q),
      (z < length resLst)%nat ->
      TileMatrix.getRes tm (Z.of_nat z) = Ok v ->
      (forall j vj, (j < z)%nat -> nth_error resLst j = Some vj -> ~ (vj == v)%Q) ->
      TileMatrix.getNearestZoom tm v rule = Ok (Some (Z.of_nat z)))
  /\
  (forall (rule : string) (i : nat) (v1 v2 res : Q),
      Float64.is_value res = true ->
      nth_error resLst i = Some v1 ->
      nth_error resLst (S i) = Some v2 ->
      (v2 < res)%Q -> (res < v1)%Q ->
      TileMatrix.getNearestZoom tm res rule =
      Ok (Some (if String.eqb rule "lower" then Z.of_nat i
                else if String.eqb rule "higher" then Z.of_nat i + 1
                else if Float64.ltb (Float64.sub v1 res) (Float64.sub res v2)
                     then Z.of_nat i
                else Z.of_nat i + 1))).
Proof.
  intros Hl Hs _. split.
  - intros rule z v Hz Hv Hfirst.
    pose proof (getRes_in_list tm resLst z v Hl Hz Hv) as Hnth.
    unfold TileMatrix.getNearestZoom. rewrite Hl. cbn.
    rewrite enumerate_items_from.
    apply nearest_scan_exact; assumption.
  - intros rule i v1 v2 res _ H1 H2 Hlo Hhi.
    unfold TileMatrix.getNearestZoom. rewrite Hl. cbn.
    rewrite enumerate_items_from.
    apply nearest_scan_bracket; assumption.
Qed.

Lemma C4_getNearestZoom_descending_witness :
  (* levels 4, 2, 1 *)
  (TileMatrix.getNearestZoom grid421 2 "closer" = Ok (Some 1) /\
   TileMatrix.getNearestZoom grid421 (5 # 2) "closer" = Ok (Some 1) /\
   TileMatrix.getNearestZoom grid421 (7 # 2) "closer" = Ok (Some 0) /\
   TileMatrix.getNearestZoom grid421 3 "lower" = Ok (Some 0) /\
   TileMatrix.getNearestZoom grid421 3 "higher" = Ok (Some 1))
  /\
  (* levels 2.5 and 0.1, target 1.3: the coarser level is strictly nearer, the
     two float differences are both 1.2, and the finer level is returned *)
  (let r13 := Float64.literal (13 # 10) in
   let r01 := Float64.literal (1 # 10) in
   ((5 # 2) - r13 < r13 - r01)%Q /\
   Float64.sub (5 # 2) r13 = Float64.sub r13 r01 /\
   TileMatrix.getNearestZoom grid_tenths r13 "closer" = Ok (Some 1)).
Proof.
  split.
  - assert (Hl : TileMatrix.getResList grid421 = Ok [4%Q; 2%Q; 1%Q]) by reflexivity.
    assert (Hs : descending [4%Q; 2%Q; 1%Q])
      by (repeat constructor; cbn; discriminate).
    assert (Hf : Forall (fun v => Float64.is_value v = true) [4%Q; 2%Q; 1%Q])
      by (repeat constructor; vm_compute; reflexivity).
    destruct (C4_getNearestZoom_descending grid421 [4%Q; 2%Q; 1%Q] Hl Hs Hf)
      as [Hexact Hbracket].
    split.
    { apply (Hexact "closer" 1%nat 2%Q); [cbn; lia | reflexivity |].
      intros [| j] vj Hj Hnth; [| lia].
      cbn in Hnth. injection Hnth as <-. intros H. discriminate H. }
    split.
    { rewrite (Hbracket "closer" 0%nat 4%Q 2%Q (5 # 2)%Q); vm_compute; reflexivity. }
    split.
    { rewrite (Hbracket "closer" 0%nat 4%Q 2%Q (7 # 2)%Q); vm_compute; reflexivity. }
    split.
    { rewrite (Hbracket "lower" 0%nat 4%Q 2%Q 3%Q); vm_compute; reflexivity. }
    { rewrite (Hbracket "higher" 0%nat 4%Q 2%Q 3%Q); vm_compute; reflexivity. }
  - cbv zeta.
    split; [vm_compute; reflexivity |]. split; [vm_compute; reflexivity |].
    assert (Hl : TileMatrix.getResList grid_tenths
                 = Ok [(5 # 2)%Q; Float64.literal (1 # 10)]) by reflexivity.
    assert (Hs : descending [(5 # 2)%Q; Float64.literal (1 # 10)])
      by (repeat constructor; vm_compute; discriminate).
    assert (Hf : Forall (fun v => Float64.is_value v = true)
                        [(5 # 2)%Q; Float64.literal (1 # 10)])
      by (repeat constructor; vm_compute; reflexivity).
    destruct (C4_getNearestZoom_descending grid_tenths _ Hl Hs Hf) as [_ Hbracket].
    rewrite (Hbracket "closer" 0%nat (5 # 2)%Q (Float64.literal (1 # 10))
               (Float64.literal (13 # 10)));
      vm_compute; reflexivity.
Defined.

(** ** C5 *)




(* ================================================================== *)
(** * Properties of the tile store *)

(** ** Running monadic code *)

Lemma bind_Ok {A B} (m : M A) (k : A -> M B) (s s' : state) (a : A) :
  m s = (Ok a, s') -> (m ≫= k) s = k a s'.
Proof. intros H. unfold mbind, M_bind. rewrite H. reflexivity. Qed.

Lemma bind_Raise {A B} (m : M A) (k : A -> M B) (s s' : state) (e : exn) :
  m s = (Raise e, s') -> (m ≫= k) s = (Raise e, s').
Proof. intros H. unfold mbind, M_bind. rewrite H. reflexivity. Qed.

(** ** The database file behind a store *)

Lemma connect_existing (path : string) (s : state) :
  is_Some (files s !! path) -> Sqlite3.connect path s = (Ok tt, s).
Proof.
  intros [f Hf]. unfold Sqlite3.connect, modify. rewrite Hf. reflexivity.
Qed.

Lemma read_db_at (path : string) (d : database) (s : state) :
  db_at path d s -> Sqlite3.read path s = (Ok d, log (SqlExec path) s).
Proof.
  intros H. unfold Sqlite3.read, db_at in *.
  unfold mbind, M_bind, modify, get_state. cbn. rewrite H. reflexivity.
Qed.




(** Running one more call of a sequence whose outcome is known. *)
Ltac run_ok lem := erewrite bind_Ok by (eapply lem; eauto).
Ltac run_raise lem := erewrite bind_Raise by (eapply lem; eauto).




Lemma after_start (path : string) (d : database) (s : state) :
  db_at path d s -> s = after path d [] s.
Proof.
  intros H. unfold after. rewrite (insert_id _ _ _ H), app_nil_r.
  destruct s; reflexivity.
Qed.

Lemma db_at_after (path : string) (d : database) (evs : list event) (s : state) :
  db_at path d (after path d evs s).
Proof. unfold db_at, after. cbn. apply lookup_insert_eq. Qed.

Lemma after_other_file (path p : string) (d : database) evs (s : state) :
  p <> path -> files (after path d evs s) !! p = files s !! p.
Proof. intros H. unfold after. cbn. apply lookup_insert_ne. congruence. Qed.

Lemma connect_after path d evs s :
  Sqlite3.connect path (after path d evs s) = (Ok tt, after path d evs s).
Proof. apply connect_existing. rewrite db_at_after. eauto. Qed.

Lemma read_after path d evs s :
  Sqlite3.read path (after path d evs s) =
  (Ok d, after path d (evs ++ [SqlExec path]) s).
Proof.
  rewrite (read_db_at path d) by apply db_at_after.
  unfold log, after. cbn. rewrite app_assoc. reflexivity.
Qed.

Lemma write_after path d d' evs s :
  Sqlite3.write path d' (after path d evs s) = (Ok tt, after path d' evs s).
Proof.
  unfold Sqlite3.write, modify, set_files, after. cbn.
  rewrite insert_insert_eq. reflexivity.
Qed.

Lemma get_state_spec (s : state) : get_state s = (Ok s, s).
Proof. reflexivity. Qed.

Lemma require_columns_true d table cols s :
  Sqlite3.has_columns d table cols = true ->
  Sqlite3.require_columns d table cols s = (Ok tt, s).
Proof. intros H. unfold Sqlite3.require_columns. rewrite H. reflexivity. Qed.

Lemma require_columns_false d table cols s :
  Sqlite3.has_columns d table cols = false ->
  Sqlite3.require_columns d table cols s = (Raise OperationalError, s).
Proof. intros H. unfold Sqlite3.require_columns. rewrite H. reflexivity. Qed.




Lemma has_columns_lookup d table cs cols :
  schema d !! table = Some cs ->
  Sqlite3.has_columns d table cols =
  forallb (fun c => existsb (String.eqb c) cs) cols.
Proof. intros H. unfold Sqlite3.has_columns. rewrite H. reflexivity. Qed.




Lemma no_gpkg_table_not_recognizable (d : database) :
  no_gpkg_table d -> ~ recognizable d.
Proof.
  intros (H1 & _) [_ Hq]. unfold GeoPackage.quick_check, Sqlite3.has_columns in Hq.
  rewrite H1 in Hq. discriminate.
Qed.

Lemma gpkg_schema_has_columns (d : database) :
  gpkg_schema d ->
  Sqlite3.has_columns d "gpkg_contents"
    ["table_name"; "data_type"; "identifier"; "description";
     "min_x"; "min_y"; "max_x"; "max_y"; "srs_id"] = true /\
  Sqlite3.has_columns d "gpkg_spatial_ref_sys"
    ["srs_id"; "organization"; "organization_coordsys_id"; "srs_name";
     "definition"] = true /\
  Sqlite3.has_columns d "gpkg_tile_matrix_set"
    ["table_name"; "srs_id"; "min_x"; "min_y"; "max_x"; "max_y"] = true /\
  Sqlite3.has_columns d "gpkg_tile_matrix"
    ["table_name"; "zoom_level"; "matrix_width"; "matrix_height";
     "tile_width"; "tile_height"; "pixel_x_size"; "pixel_y_size"] = true /\
  Sqlite3.has_columns d "gpkg_tiles"
    ["tile_data"; "last_modified"; "zoom_level"; "tile_column"; "tile_row"] = true /\
  Sqlite3.has_columns d "gpkg_tiles"
    ["tile_column"; "tile_row"; "zoom_level"; "tile_data"] = true.
Proof.
  intros (_ & H1 & H2 & H3 & H4 & H5).
  rewrite (has_columns_lookup _ _ _ _ H1), (has_columns_lookup _ _ _ _ H2),
    (has_columns_lookup _ _ _ _ H3), (has_columns_lookup _ _ _ _ H4),
    !(has_columns_lookup _ _ _ _ H5).
  repeat split; reflexivity.
Qed.

Lemma bind_spec (params : list Z) (s : state) :
  Sqlite3.bind params s = (Sqlite3.bindable params, s).
Proof. reflexivity. Qed.

Lemma bind_fits (params : list Z) (s : state) :
  forallb Sqlite3.is_int64 params = true -> Sqlite3.bind params s = (Ok tt, s).
Proof.
  intros H. unfold Sqlite3.bind, Sqlite3.bindable, lift. rewrite H. reflexivity.
Qed.





















Lemma connect_absent (path : string) (s : state) :
  files s !! path = None ->
  Sqlite3.connect path s = (Ok tt, after path empty_database [] s).
Proof.
  intros H. unfold Sqlite3.connect, modify. rewrite H.
  unfold set_files, after. rewrite app_nil_r. reflexivity.
Qed.













(** ** C7 *)





(** ** C3 *)

Lemma gpkg_schema_set_tiles c d : gpkg_schema d -> gpkg_schema (Sqlite3.set_tiles c d).
Proof. intros H. exact H. Qed.

Lemma bindable_key (x y z : Z) :
  Sqlite3.bindable [x; y; z] = if key_fits (x, y, z) then Ok tt else Raise OverflowError.
Proof.
  unfold Sqlite3.bindable, key_fits. cbn [forallb fst snd].
  destruct (Sqlite3.is_int64 x), (Sqlite3.is_int64 y), (Sqlite3.is_int64 z); reflexivity.
Qed.

Lemma bindable_key_zxy (x y z : Z) :
  Sqlite3.bindable [z; x; y] = if key_fits (x, y, z) then Ok tt else Raise OverflowError.
Proof.
  unfold Sqlite3.bindable, key_fits. cbn [forallb fst snd].
  destruct (Sqlite3.is_int64 x), (Sqlite3.is_int64 y), (Sqlite3.is_int64 z); reflexivity.
Qed.

Lemma bindable_keys_of (tiles : list (Z * Z * Z * bytes)) :
  Sqlite3.bindable (GeoPackage.keys_of tiles) =
  if forallb (fun t => key_fits t.1) tiles then Ok tt else Raise OverflowError.
Proof.
  unfold Sqlite3.bindable.
  assert (H : forallb Sqlite3.is_int64 (GeoPackage.keys_of tiles)
              = forallb (fun t => key_fits t.1) tiles).
  { induction tiles as [| [[[x y] z] data] rest IH]; [reflexivity |].
    cbn [GeoPackage.keys_of flat_map app forallb fst snd] in *.
    unfold GeoPackage.keys_of in IH. rewrite IH. unfold key_fits. cbn [fst snd].
    destruct (Sqlite3.is_int64 x), (Sqlite3.is_int64 y), (Sqlite3.is_int64 z);
      reflexivity. }
  rewrite H. reflexivity.
Qed.

(** [putTile] on a store: the write, or OverflowError before anything is
    written. *)
Lemma putTile_run (self : geopackage) (x y z : Z) (data : bytes)
    (d : database) evs (s : state) :
  gpkg_schema d ->
  GeoPackage.putTile self x y z data (after (dbPath self) d evs s) =
  if key_fits (x, y, z)
  then (Ok tt, after (dbPath self)
                 (Sqlite3.set_tiles (<[(z, x, y) := (data, now s)]> (gpkg_tiles d)) d)
                 (evs ++ [SqlExec (dbPath self)]) s)
  else (Raise OverflowError, after (dbPath self) d (evs ++ [SqlExec (dbPath self)]) s).
Proof.
  intros Hd. destruct (gpkg_schema_has_columns d Hd) as (_ & _ & _ & _ & _ & Hc).
  unfold GeoPackage.putTile.
  run_ok connect_after. run_ok read_after.
  run_ok require_columns_true.
  unfold mbind at 1. unfold M_bind. rewrite bind_spec, bindable_key.
  destruct (key_fits (x, y, z)); [| reflexivity].
  run_ok get_state_spec.
  apply write_after.
Qed.

Lemma putTile_after (self : geopackage) (x y z : Z) (data : bytes)
    (d : database) evs (s : state) :
  gpkg_schema d ->
  key_fits (x, y, z) = true ->
  GeoPackage.putTile self x y z data (after (dbPath self) d evs s) =
  (Ok tt, after (dbPath self)
            (Sqlite3.set_tiles (<[(z, x, y) := (data, now s)]> (gpkg_tiles d)) d)
            (evs ++ [SqlExec (dbPath self)]) s).
Proof. intros Hd Hk. rewrite (putTile_run self x y z data d evs s Hd), Hk. reflexivity. Qed.

(** [getTile] on a store: the row if it is there and young enough, or
    OverflowError. *)
Lemma getTile_run (self : geopackage) (x y z : Z) (d : database) evs (s : state) :
  gpkg_schema d ->
  GeoPackage.getTile self x y z (after (dbPath self) d evs s) =
  (if key_fits (x, y, z)
   then Ok match gpkg_tiles d !! (z, x, y) with
           | None => None
           | Some (tile_data, last_modified) =>
               if GeoPackage.delta_days (now s) last_modified >? GeoPackage.MAX_DAYS
               then None else Some tile_data
           end
   else Raise OverflowError,
   after (dbPath self) d (evs ++ [SqlExec (dbPath self)]) s).
Proof.
  intros Hd. destruct (gpkg_schema_has_columns d Hd) as (_ & _ & _ & _ & Hc & _).
  unfold GeoPackage.getTile.
  run_ok connect_after. run_ok read_after.
  run_ok require_columns_true.
  unfold mbind at 1. unfold M_bind. rewrite bind_spec, bindable_key_zxy.
  destruct (key_fits (x, y, z)); [| reflexivity].
  run_ok get_state_spec.
  cbn [now after].
  destruct (gpkg_tiles d !! (z, x, y)) as [[tile_data last_modified] |]; [| reflexivity].
  destruct (GeoPackage.delta_days (now s) last_modified >? GeoPackage.MAX_DAYS);
    reflexivity.
Qed.

Lemma putTiles_run (self : geopackage) (tiles : list (Z * Z * Z * bytes))
    (d : database) evs (s : state) :
  gpkg_schema d ->
  GeoPackage.putTiles self tiles (after (dbPath self) d evs s) =
  if forallb (fun t => key_fits t.1) tiles
  then (Ok tt, after (dbPath self)
                 (Sqlite3.set_tiles (tiles_written (now s) tiles (gpkg_tiles d)) d)
                 (evs ++ [SqlExec (dbPath self)]) s)
  else (Raise OverflowError, after (dbPath self) d (evs ++ [SqlExec (dbPath self)]) s).
Proof.
  intros Hd. destruct (gpkg_schema_has_columns d Hd) as (_ & _ & _ & _ & _ & Hc).
  unfold GeoPackage.putTiles.
  run_ok connect_after. run_ok read_after.
  run_ok require_columns_true.
  unfold mbind at 1. unfold M_bind. rewrite bind_spec, bindable_keys_of.
  destruct (forallb _ tiles); [| reflexivity].
  run_ok get_state_spec.
  apply write_after.
Qed.

Lemma putTiles_after (self : geopackage) (tiles : list (Z * Z * Z * bytes))
    (d : database) evs (s : state) :
  gpkg_schema d ->
  forallb (fun t => key_fits t.1) tiles = true ->
  GeoPackage.putTiles self tiles (after (dbPath self) d evs s) =
  (Ok tt, after (dbPath self)
            (Sqlite3.set_tiles (tiles_written (now s) tiles (gpkg_tiles d)) d)
            (evs ++ [SqlExec (dbPath self)]) s).
Proof. intros Hd Hk. rewrite (putTiles_run self tiles d evs s Hd), Hk. reflexivity. Qed.

Lemma putTile_each_after (self : geopackage) (tiles : list (Z * Z * Z * bytes))
    (d : database) evs (s : state) :
  gpkg_schema d ->
  forallb (fun t => key_fits t.1) tiles = true ->
  putTile_each self tiles (after (dbPath self) d evs s) =
  (Ok tt, after (dbPath self)
            (Sqlite3.set_tiles (tiles_written (now s) tiles (gpkg_tiles d)) d)
            (evs ++ repeat (SqlExec (dbPath self)) (length tiles)) s).
Proof.
  revert d evs. induction tiles as [| [[[x y] z] data] rest IH]; intros d evs Hd Hk.
  - cbn. rewrite app_nil_r. destruct d; reflexivity.
  - cbn [forallb fst] in Hk. apply andb_true_iff in Hk. destruct Hk as [Hk Hrest].
    cbn [putTile_each].
    erewrite bind_Ok by (apply putTile_after; [exact Hd | exact Hk]).
    rewrite IH by (exact Hd || exact Hrest). cbn. rewrite <- app_assoc. reflexivity.
Qed.

(** X17. Batch and single writes agree: on a store with the schema of
    [create], for a batch of any size whose columns, rows and zooms fit 64
    bits, [putTiles] leaves the same files as the sequence of [putTile] calls
    on the same entries, and both go through.  The clock of the state does
    not advance between the calls, so both paths stamp the same
    [last_modified]. *)
Lemma putTiles_as_putTile_each (self : geopackage)
    (tiles : list (Z * Z * Z * bytes)) (d : database) (s : state) :
  db_at (dbPath self) d s -> gpkg_schema d ->
  forallb (fun t => key_fits t.1) tiles = true ->
  (GeoPackage.putTiles self tiles s).1 = Ok tt /\
  (putTile_each self tiles s).1 = Ok tt /\
  files (GeoPackage.putTiles self tiles s).2 = files (putTile_each self tiles s).2.
Proof.
  intros Hat Hd Hk. rewrite (after_start _ _ _ Hat).
  rewrite (putTiles_after self tiles d [] s Hd Hk).
  rewrite (putTile_each_after self tiles d [] s Hd Hk).
  repeat split.
Qed.

(** C3 (defect of the code).  [getTiles] does not return what the sequence of
    [getTile] calls returns:
    - on the empty batch it raises ValueError (the unpacking of [zip]), where
      no call at all returns the empty list;
    - for one key whose tile is 100 days old, [getTile] answers absent while
      [getTiles] returns the tile: the batch query has no max-age test;
    - for the two keys (column 0, row 1) and (column 1, row 0), both absent
      from the store, [getTiles] returns the row of (column 0, row 0), which
      was not asked for: the three IN filters select a product of columns,
      rows and zooms;
    - likewise for the fifty keys of a diagonal, none of them in the store:
      [getTiles] returns the tile (column 0, row 1). *)
Theorem C3_getTiles_differs_from_getTile :
  ((GeoPackage.getTiles (env0 true) osm_store [] (state_with_tiles fresh_tiles)).1
     = Raise ValueError /\
   (getTile_each osm_store [] (state_with_tiles fresh_tiles)).1 = Ok [])
  /\
  (GeoPackage.delta_days (now (state_with_tiles stale_tiles))
      (1000000000 - 100 * 86400) = 100 /\
   (GeoPackage.getTile osm_store 0 0 0 (state_with_tiles stale_tiles)).1 = Ok None /\
   (getTile_each osm_store [(0, 0, 0)] (state_with_tiles stale_tiles)).1 = Ok [] /\
   (GeoPackage.getTiles (env0 true) osm_store [(0, 0, 0)]
      (state_with_tiles stale_tiles)).1 = Ok [(0, 0, 0, the_tile)])
  /\
  ((getTile_each osm_store [(0, 1, 0); (1, 0, 0)] (state_with_tiles fresh_tiles)).1
     = Ok [] /\
   (GeoPackage.getTiles (env0 true) osm_store [(0, 1, 0); (1, 0, 0)]
      (state_with_tiles fresh_tiles)).1 = Ok [(0, 0, 0, the_tile)])
  /\
  (length diagonal_batch = 50%nat /\
   (getTile_each osm_store diagonal_batch (state_with_tiles off_diagonal_tiles)).1
     = Ok [] /\
   (GeoPackage.getTiles (env0 true) osm_store diagonal_batch
      (state_with_tiles off_diagonal_tiles)).1 = Ok [(0, 1, 0, the_tile)]).
Proof.
  repeat split; vm_compute; reflexivity.
Qed.

(* ================================================================== *)
(** * Properties of the map service *)

Lemma select_grid_grid_of (self : MapService.t) (toDstGrid : bool)
    (tm : TileMatrix.t) (s : state) :
  MapService.grid_of self toDstGrid = Some tm ->
  exists grdkey, MapService.select_grid self toDstGrid s = (Ok (grdkey, tm), s).
Proof.
  unfold MapService.grid_of, MapService.select_grid.
  destruct toDstGrid.
  - destruct (MapService.dst self) as [[k tm'] |]; cbn; [| discriminate].
    intros H. injection H as ->. eauto.
  - intros H. injection H as ->. eauto.
Qed.

Lemma lift_spec {A} (r : result A) (s : state) : lift r s = (r, s).
Proof. reflexivity. Qed.

(** The bounds test rejects exactly the tiles with a negative index or a
    top-left corner outside [xmin, xmax) x (ymin, ymax]. *)
Lemma out_of_bounds_iff (tm : TileMatrix.t) (col row : Z) (x y : Q) :
  MapService.out_of_bounds tm col row x y = true <->
  (col < 0 \/ row < 0 \/
   (x < TileMatrix.xmin tm)%Q \/ (TileMatrix.xmax tm <= x)%Q \/
   (y <= TileMatrix.ymin tm)%Q \/ (TileMatrix.ymax tm < y)%Q).
Proof.
  unfold MapService.out_of_bounds.
  destruct (Z.ltb_spec row 0) as [Hr | Hr]; cbn [orb].
  { split; [intros _; right; left; exact Hr | reflexivity]. }
  destruct (Z.ltb_spec col 0) as [Hc | Hc]; cbn [orb].
  { split; [intros _; left; exact Hc | reflexivity]. }
  destruct (Qle_bool (TileMatrix.xmin tm) x) eqn:E1;
    destruct (Qlt_bool x (TileMatrix.xmax tm)) eqn:E2;
    destruct (Qlt_bool (TileMatrix.ymin tm) y) eqn:E3;
    destruct (Qle_bool y (TileMatrix.ymax tm)) eqn:E4; cbn;
    try apply Qle_bool_iff in E1; try apply Qlt_bool_iff in E2;
    try apply Qlt_bool_iff in E3; try apply Qle_bool_iff in E4;
    try (apply Qlt_bool_false in E2); try (apply Qlt_bool_false in E3);
    try (assert (E1' : (x < TileMatrix.xmin tm)%Q)
           by (destruct (Qlt_le_dec x (TileMatrix.xmin tm)) as [L | L];
               [exact L | apply Qle_bool_iff in L; congruence]));
    try (assert (E4' : (TileMatrix.ymax tm < y)%Q)
           by (destruct (Qlt_le_dec (TileMatrix.ymax tm) y) as [L | L];
               [exact L | apply Qle_bool_iff in L; congruence]));
    (split; [intros H; try discriminate; tauto
            | intros H; try reflexivity; exfalso;
              destruct H as [H | [H | [H | [H | [H | H]]]]]; try lia; lra]).
Qed.

(** ** C6 *)

(** C6, as stated, fails.  On the grid with its origin in the north-west
    corner, the tile (column 0, row 0) of level 0 has its top-left corner at
    (xmin, ymax), on the upper boundary of the grid.  The request is not
    rejected: the tile is downloaded and returned. *)
Lemma C6_counterexample :
  TileMatrix.getTileCoords grid421 0 0 0 = Ok (0%Q, 1024%Q) /\
  (1024 == TileMatrix.ymax grid421)%Q /\
  MapService_getTile (env0 true) svc_src "osm" 0 0 0 false false state0 =
  (Ok (Some the_tile), log (HttpGet "http://tiles/osm/0/0/0") state0).
Proof.
  split; [reflexivity |]. split; [reflexivity |]. vm_compute. reflexivity.
Qed.

(** C6 (amended).  Once [getTileCoords] has returned the top-left corner
    [(x, y)] of the tile, whatever the floating-point arithmetic has made of
    it, a tile with a negative column or row, or with that corner outside
    [xmin, xmax) x (ymin, ymax] of the grid, is answered absent and the state
    is untouched: no cache is opened, read or written and no request is
    sent.  A corner on the right boundary (x = xmax) or on the lower boundary
    (y = ymin) is outside; a corner on the upper boundary (y = ymax) is
    inside.  (What comes before in [getTile] can raise: the choice of a
    destination grid that is not set, a zoom without resolution, an index too
    large for a float.) *)
Theorem C6_out_of_bounds_is_absent (env : Env) (self : MapService.t)
    (laykey : string) (col row zoom_ : Z) (toDstGrid useCache : bool)
    (tm : TileMatrix.t) (x y : Q) (s : state) :
  (col < 0 \/ row < 0 \/
   (x < TileMatrix.xmin tm)%Q \/ (TileMatrix.xmax tm <= x)%Q \/
   (y <= TileMatrix.ymin tm)%Q \/ (TileMatrix.ymax tm < y)%Q) ->
  MapService_getTile_from env self tm x y laykey col row zoom_ toDstGrid useCache s
  = (Ok None, s).
Proof.
  intros Hout.
  unfold MapService_getTile_from, MapService.getTile_from.
  rewrite (proj2 (out_of_bounds_iff tm col row x y) Hout).
  reflexivity.
Qed.

Lemma C6_out_of_bounds_is_absent_witness :
  (* the corner on the right boundary *)
  MapService_getTile_from (env0 true) svc_src grid421 1024 1024 "osm" 1 0 0 false true state0
  = (Ok None, state0)
  /\
  (* the corner on the lower boundary *)
  MapService_getTile_from (env0 true) svc_src grid421 0 0 "osm" 0 1 0 false true state0
  = (Ok None, state0)
  /\
  (* a negative row *)
  MapService_getTile_from (env0 true) svc_src grid421 0 2048 "osm" 0 (-1) 0 false true state0
  = (Ok None, state0)
  /\
  (* the three requests as [getTile] gets them *)
  MapService_getTile (env0 true) svc_src "osm" 1 0 0 false true state0 = (Ok None, state0) /\
  MapService_getTile (env0 true) svc_src "osm" 0 1 0 false true state0 = (Ok None, state0) /\
  MapService_getTile (env0 true) svc_src "osm" 0 (-1) 0 false true state0 = (Ok None, state0).
Proof.
  split; [| split; [| split]].
  - apply (C6_out_of_bounds_is_absent (env0 true) svc_src "osm" 1 0 0 false true
             grid421 1024 1024 state0).
    right; right; right; left. cbn. discriminate.
  - apply (C6_out_of_bounds_is_absent (env0 true) svc_src "osm" 0 1 0 false true
             grid421 0 0 state0).
    right; right; right; right; left. cbn. discriminate.
  - apply (C6_out_of_bounds_is_absent (env0 true) svc_src "osm" 0 (-1) 0 false true
             grid421 0 2048 state0).
    right; left. lia.
  - repeat split; vm_compute; reflexivity.
Defined.

(** ** C1 *)

Lemma downloadTile_valid env (self : MapService.t) laykey col row zoom_
    (url : string) (data : bytes) (fmt : string) (s : state) :
  MapService.buildUrl self laykey col row zoom_ = Ok url ->
  http_get env url = Some data ->
  imghdr_what env data = Some fmt ->
  MapService.downloadTile env self laykey col row zoom_ s =
  (Ok (Some data), log (HttpGet url) s).
Proof.
  intros Hu Hg Hi. unfold MapService.downloadTile.
  erewrite bind_Ok by (rewrite Hu; apply lift_spec).
  unfold mbind, M_bind, modify, mret, M_ret. rewrite Hg, Hi. reflexivity.
Qed.

(** The cache phase of [getTile] on a miss. *)
Lemma cache_phase_miss env (self : MapService.t) laykey col row zoom_
    (toDstGrid : bool) (g : geopackage) (s s1 s2 : state) :
  MapService.getCache env self laykey toDstGrid s = (Ok g, s1) ->
  GeoPackage.getTile g col row zoom_ s1 = (Ok None, s2) ->
  (cache ← MapService.getCache env self laykey toDstGrid;
   data ← GeoPackage.getTile cache col row zoom_;
   mret (Some cache,
         match data with
         | Some d => match imghdr_what env d with
                     | Some _ => Some d
                     | None => None
                     end
         | None => None
         end)) s = (Ok (Some g, None), s2).
Proof.
  intros Hc Hm.
  erewrite bind_Ok by exact Hc.
  erewrite bind_Ok by exact Hm.
  reflexivity.
Qed.

(** C1 (defect of the code).  On the path that C1 describes (source grid,
    cache in use, tile in bounds, no row in the cache, a download that sniffs
    as an image) [getTile] ends in [cache.putTile(col, row, self.zoom,
    data)].  A service object built from the documented keys has no attribute
    [zoom]: the call raises AttributeError after the download, the bytes are
    not returned, and nothing is written (the final state is that of the
    cache miss plus the request in the trace). *)
Theorem C1_write_through_raises (env : Env) (self : MapService.t)
    (laykey : string) (col row zoom_ : Z) (x y : Q) (g : geopackage)
    (url : string) (data : bytes) (fmt : string) (s s1 s2 : state) :
  MapService.zoom self = None ->
  TileMatrix.getTileCoords (MapService.srcTms self) col row zoom_ = Ok (x, y) ->
  MapService.out_of_bounds (MapService.srcTms self) col row x y = false ->
  MapService.getCache env self laykey false s = (Ok g, s1) ->
  GeoPackage.getTile g col row zoom_ s1 = (Ok None, s2) ->
  MapService.buildUrl self laykey col row zoom_ = Ok url ->
  http_get env url = Some data ->
  imghdr_what env data = Some fmt ->
  MapService_getTile env self laykey col row zoom_ false true s =
  (Raise AttributeError, log (HttpGet url) s2).
Proof.
  intros Hz Hxy Hin Hc Hm Hu Hg Hi.
  unfold MapService_getTile, MapService.getTile, MapService.getTile_from.
  erewrite bind_Ok by reflexivity. cbv beta iota.
  erewrite bind_Ok by (rewrite Hxy; apply lift_spec). cbv beta iota.
  rewrite Hin.
  erewrite bind_Ok by (apply (cache_phase_miss env self laykey col row zoom_ false g s s1 s2 Hc Hm)).
  cbv beta iota. cbn [negb].
  erewrite bind_Ok by (apply (downloadTile_valid env self _ _ _ _ url data fmt s2 Hu Hg Hi)).
  rewrite Hz. reflexivity.
Qed.

Lemma C1_write_through_raises_witness :
  (MapService_getTile (env0 true) svc_src "osm" 0 0 0 false true state0).1
  = Raise AttributeError.
Proof.
  pose (r1 := MapService.getCache (env0 true) svc_src "osm" false state0).
  pose (r2 := GeoPackage.getTile osm_store 0 0 0 r1.2).
  rewrite (C1_write_through_raises (env0 true) svc_src "osm" 0 0 0
             (0 + 0 * (256 * 4))%Q (1024 - 0 * (256 * 4))%Q osm_store
             "http://tiles/osm/0/0/0" the_tile "png" state0 r1.2 r2.2).
  - reflexivity.
  - reflexivity.
  - reflexivity.
  - reflexivity.
  - vm_compute. reflexivity.
  - vm_compute. reflexivity.
  - reflexivity.
  - reflexivity.
  - reflexivity.
Defined.

(** What the same line does when the source definition happens to carry a
    key [zoom]: the tile is stored under that level, not under the level of
    the request. *)
Lemma getTile_writes_under_self_zoom (env : Env) (self : MapService.t)
    (laykey : string) (col row zoom_ z : Z) (x y : Q) (g : geopackage)
    (url : string) (data : bytes) (fmt : string) (s s1 s2 : state) :
  MapService.zoom self = Some z ->
  TileMatrix.getTileCoords (MapService.srcTms self) col row zoom_ = Ok (x, y) ->
  MapService.out_of_bounds (MapService.srcTms self) col row x y = false ->
  MapService.getCache env self laykey false s = (Ok g, s1) ->
  GeoPackage.getTile g col row zoom_ s1 = (Ok None, s2) ->
  MapService.buildUrl self laykey col row zoom_ = Ok url ->
  http_get env url = Some data ->
  imghdr_what env data = Some fmt ->
  MapService_getTile env self laykey col row zoom_ false true s =
  (GeoPackage.putTile g col row z data;; mret (Some data)) (log (HttpGet url) s2).
Proof.
  intros Hz Hxy Hin Hc Hm Hu Hg Hi.
  unfold MapService_getTile, MapService.getTile, MapService.getTile_from.
  erewrite bind_Ok by reflexivity. cbv beta iota.
  erewrite bind_Ok by (rewrite Hxy; apply lift_spec). cbv beta iota.
  rewrite Hin.
  erewrite bind_Ok by (apply (cache_phase_miss env self laykey col row zoom_ false g s s1 s2 Hc Hm)).
  cbv beta iota. cbn [negb].
  erewrite bind_Ok by (apply (downloadTile_valid env self _ _ _ _ url data fmt s2 Hu Hg Hi)).
  rewrite Hz. reflexivity.
Qed.

(** ** C9 *)

Lemma getTileCoords_getRes (tm : TileMatrix.t) (col row zoom_ : Z) (x y : Q) :
  TileMatrix.getTileCoords tm col row zoom_ = Ok (x, y) ->
  exists res, TileMatrix.getRes tm zoom_ = Ok res.
Proof.
  unfold TileMatrix.getTileCoords.
  destruct (TileMatrix.getRes tm zoom_) as [res | e]; [eauto | discriminate].
Qed.

Lemma getTileBbox_defined (tm : TileMatrix.t) (col row zoom_ : Z) (x y : Q) :
  TileMatrix.getTileCoords tm col row zoom_ = Ok (x, y) ->
  exists res,
    TileMatrix.getRes tm zoom_ = Ok res /\
    TileMatrix.getTileBbox tm col row zoom_ =
    Ok (x, (y - inject_Z (TileMatrix.tileSize tm) * res)%Q,
        (x + inject_Z (TileMatrix.tileSize tm) * res)%Q, y).
Proof.
  intros H. destruct (getTileCoords_getRes tm col row zoom_ x y H) as [res Hres].
  exists res. split; [exact Hres |].
  unfold TileMatrix.getTileBbox. rewrite H. cbn. rewrite Hres. reflexivity.
Qed.

Lemma meters2dd_unbound {A} (f : A) (s : state) :
  proj_name "meters2dd" f s = (Raise NameError, s).
Proof. reflexivity. Qed.

Lemma dd2meters_bound {A} (f : A) (s : state) :
  proj_name "dd2meters" f s = (Ok f, s).
Proof. reflexivity. Qed.

(** With the source grid in degrees and the destination grid in meters the
    synthesis stops at the unit conversion. *)
Lemma reprojected_tile_NameError env (self : MapService.t) rec (tm : TileMatrix.t)
    laykey (col row zoom_ : Z) (x y : Q) (s : state) :
  TileMatrix.units tm = TileMatrix.meters ->
  TileMatrix.units (MapService.srcTms self) = TileMatrix.degrees ->
  TileMatrix.getTileCoords tm col row zoom_ = Ok (x, y) ->
  MapService.reprojected_tile env self rec tm laykey col row zoom_ s =
  (Raise NameError, s).
Proof.
  intros Hd Hs Hxy.
  destruct (getTileBbox_defined tm col row zoom_ x y Hxy) as (res & Hres & Hbbox).
  unfold MapService.reprojected_tile.
  erewrite bind_Ok by (rewrite Hbbox; apply lift_spec). cbv beta iota.
  erewrite bind_Ok by (rewrite Hres; apply lift_spec).
  rewrite Hd, Hs. reflexivity.
Qed.

(** C9 (defect of the code).  For a service whose source grid is in degrees
    and whose destination grid is in meters, a destination-grid tile request
    that is in bounds and misses the cache raises NameError: the branch that
    converts meters to degrees calls [meters2dd], which geoscene/proj.py
    defines and mapviewer.py does not import.  No source zoom is selected and no mosaic is requested:
    the final state is that of the cache miss. *)
Theorem C9_meters_destination_raises_NameError (env : Env) (self : MapService.t)
    (laykey : string) (col row zoom_ : Z) (grdkey : string) (tm : TileMatrix.t)
    (x y : Q) (g : geopackage) (s s1 s2 : state) :
  MapService.dst self = Some (grdkey, tm) ->
  TileMatrix.units tm = TileMatrix.meters ->
  TileMatrix.units (MapService.srcTms self) = TileMatrix.degrees ->
  TileMatrix.getTileCoords tm col row zoom_ = Ok (x, y) ->
  MapService.out_of_bounds tm col row x y = false ->
  MapService.getCache env self laykey true s = (Ok g, s1) ->
  GeoPackage.getTile g col row zoom_ s1 = (Ok None, s2) ->
  MapService_getTile env self laykey col row zoom_ true true s = (Raise NameError, s2).
Proof.
  intros Hdst Hd Hs Hxy Hin Hc Hm.
  unfold MapService_getTile, MapService.getTile, MapService.getTile_from.
  erewrite bind_Ok by (unfold MapService.select_grid; rewrite Hdst; reflexivity).
  cbv beta iota.
  erewrite bind_Ok by (rewrite Hxy; apply lift_spec). cbv beta iota.
  rewrite Hin.
  erewrite bind_Ok
    by (apply (cache_phase_miss env self laykey col row zoom_ true g s s1 s2 Hc Hm)).
  cbv beta iota. cbn [negb].
  erewrite bind_Raise by (apply reprojected_tile_NameError with (x := x) (y := y); assumption).
  reflexivity.
Qed.

Lemma C9_meters_destination_raises_NameError_witness :
  (MapService_getTile (env0 true) svc_deg_to_m "osm" 0 0 0 true true state0).1
  = Raise NameError.
Proof.
  pose (r1 := MapService.getCache (env0 true) svc_deg_to_m "osm" true state0).
  pose (r2 := GeoPackage.getTile wgs_store 0 0 0 r1.2).
  rewrite (C9_meters_destination_raises_NameError (env0 true) svc_deg_to_m "osm" 0 0 0
             "WM" grid421 (0 + 0 * (256 * 4))%Q (1024 - 0 * (256 * 4))%Q
             wgs_store state0 r1.2 r2.2).
  - reflexivity.
  - reflexivity.
  - reflexivity.
  - reflexivity.
  - reflexivity.
  - reflexivity.
  - vm_compute. reflexivity.
  - vm_compute. reflexivity.
Defined.

(** The same request with the cache bypassed, as the workers of [getTiles]
    make it. *)
Lemma getTile_NameError_no_cache (env : Env) (self : MapService.t)
    (laykey : string) (col row zoom_ : Z) (grdkey : string) (tm : TileMatrix.t)
    (x y : Q) (s : state) :
  MapService.dst self = Some (grdkey, tm) ->
  TileMatrix.units tm = TileMatrix.meters ->
  TileMatrix.units (MapService.srcTms self) = TileMatrix.degrees ->
  TileMatrix.getTileCoords tm col row zoom_ = Ok (x, y) ->
  MapService.out_of_bounds tm col row x y = false ->
  MapService_getTile env self laykey col row zoom_ true false s = (Raise NameError, s).
Proof.
  intros Hdst Hd Hs Hxy Hin.
  unfold MapService_getTile, MapService.getTile, MapService.getTile_from.
  erewrite bind_Ok by (unfold MapService.select_grid; rewrite Hdst; reflexivity).
  cbv beta iota.
  erewrite bind_Ok by (rewrite Hxy; apply lift_spec). cbv beta iota.
  rewrite Hin.
  erewrite bind_Ok by reflexivity.
  cbv beta iota. cbn [negb].
  erewrite bind_Raise by (apply reprojected_tile_NameError with (x := x) (y := y); assumption).
  reflexivity.
Qed.

(** The part of C9 that the code does carry out.  With the destination grid
    in degrees and the source grid in meters the resolution is converted by
    [dd2meters], that is multiplied by the equatorial perimeter over 360;
    with both grids in the same unit it is taken as it is.  The source zoom
    is [getNearestZoom] of that resolution under rule 'closer', and when the
    box of the tile reprojects, the mosaic of the source grid is requested
    with [toDstGrid], [useCache], [cpt] and [allowEmptyTile] all off and four
    threads; when it does not reproject the tile is absent and nothing is
    requested. *)
Lemma reprojected_tile_request env (self : MapService.t) rec (tm : TileMatrix.t)
    laykey (col row zoom_ : Z) (x y res res2 _res : Q) (_zoom : Z) (s : state) :
  TileMatrix.getTileCoords tm col row zoom_ = Ok (x, y) ->
  TileMatrix.getRes tm zoom_ = Ok res ->
  converted_resolution tm (MapService.srcTms self) res = Some res2 ->
  TileMatrix.getNearestZoom (MapService.srcTms self) res2 "closer" = Ok (Some _zoom) ->
  TileMatrix.getRes (MapService.srcTms self) _zoom = Ok _res ->
  let bbox := (x, (y - inject_Z (TileMatrix.tileSize tm) * res)%Q,
               (x + inject_Z (TileMatrix.tileSize tm) * res)%Q, y) in
  let crs1 := TileMatrix.CRS (MapService.srcTms self) in
  let crs2 := TileMatrix.CRS tm in
  MapService.reprojected_tile env self rec tm laykey col row zoom_ s =
  match reprojBbox env crs2 crs1 bbox with
  | Raise _ => (Ok None, s)
  | Ok _bbox =>
      (mosaic ← rec laykey _bbox _zoom false false 4%nat false None false;
       match mosaic with
       | None => mret None
       | Some mosaic =>
           img ← lift (reprojImg env crs1 crs2 mosaic (Some (x, y))
                         (Some (TileMatrix.tileSize tm, TileMatrix.tileSize tm))
                         (Some res));
           mret (Some (png_bytes env (GeoImage.img img)))
       end) s
  end.
Proof.
  intros Hxy Hres Hconv Hz Hr bbox crs1 crs2.
  destruct (getTileBbox_defined tm col row zoom_ x y Hxy) as (res' & Hres' & Hbbox).
  assert (res' = res) by congruence. subst res'.
  unfold MapService.reprojected_tile.
  erewrite bind_Ok by (rewrite Hbbox; apply lift_spec). cbv beta iota.
  erewrite bind_Ok by (rewrite Hres; apply lift_spec).
  assert (Hres2 :
    (match TileMatrix.units tm, TileMatrix.units (MapService.srcTms self) with
     | TileMatrix.degrees, TileMatrix.meters =>
         dd2meters ← proj_name "dd2meters" Proj.dd2meters; mret (dd2meters res)
     | TileMatrix.meters, TileMatrix.degrees =>
         meters2dd ← proj_name "meters2dd" Proj.meters2dd; mret (meters2dd res)
     | _, _ => mret res
     end) s = (Ok res2, s)).
  { unfold converted_resolution in Hconv.
    destruct (TileMatrix.units tm), (TileMatrix.units (MapService.srcTms self));
      try discriminate; injection Hconv as <-; reflexivity. }
  erewrite bind_Ok by exact Hres2.
  erewrite bind_Ok by (rewrite Hz; apply lift_spec).
  erewrite bind_Ok by reflexivity.
  erewrite bind_Ok by (rewrite Hr; apply lift_spec).
  fold crs1 crs2 bbox.
  destruct (reprojBbox env crs2 crs1 bbox) as [_bbox | e]; reflexivity.
Qed.

(** ** C8 *)

(** The loop of [getImage] on a running service: with [allowEmptyTile] every
    entry of [tilesData] gets its paste, a flat tile where the data is
    missing or cannot be opened; without it the loop gives up at the first
    such entry. *)
Lemma paste_tiles_running env (tileSize firstCol firstRow : Z) (allowEmptyTile : bool)
    (tiles : list MapService.tile_data) (pastes : list (tile_image * (Z * Z)))
    (s : state) :
  running s = true ->
  MapService.paste_tiles env tileSize firstCol firstRow allowEmptyTile tiles pastes s =
  (Ok (if allowEmptyTile || forallb (usable env) tiles
       then Some (pastes ++ map (tile_slot env tileSize firstCol firstRow) tiles)
       else None), s).
Proof.
  intros Hrun. revert pastes.
  induction tiles as [| [[[col row] z] data] rest IH]; intros pastes.
  - cbn. rewrite orb_true_r, app_nil_r. reflexivity.
  - cbn [MapService.paste_tiles].
    erewrite bind_Ok by apply get_state_spec.
    rewrite Hrun. cbn [negb].
    cbn [forallb map]. unfold usable at 1. cbn [snd].
    destruct data as [d |].
    + destruct (Image_open_ok env d) eqn:Ho.
      * rewrite IH. cbn [andb tile_slot]. rewrite Ho, <- app_assoc. reflexivity.
      * destruct allowEmptyTile.
        -- rewrite IH. cbn [orb tile_slot]. rewrite Ho, <- app_assoc. reflexivity.
        -- reflexivity.
    + destruct allowEmptyTile.
      * rewrite IH. cbn [orb tile_slot]. rewrite <- app_assoc. reflexivity.
      * reflexivity.
Qed.

(** The scenario of the specification, on the source grid and with one
    worker: four tiles, of which the map service serves three.  With
    [allowEmptyTile] the raster is two tiles wide and high and the fourth
    slot holds the flat tile; without it the request is answered absent.  The
    same holds with the cache in use. *)
Lemma getImage_three_of_four :
  (MapService_getImage (env0 true) svc_src "osm" four_tile_box 1
     false false 1%nat true None true state0).1
  = Ok (Some {| GeoImage.img :=
                  Mosaic (2 * 256) (2 * 256)
                    [(Decoded the_tile, (0, 0)); (Decoded the_tile, (0, 256));
                     (Decoded the_tile, (256, 0));
                     (Flat 256 256 "lightgrey", (256, 256))];
                GeoImage.ul := (0%Q, 1024%Q); GeoImage.res := 2 |})
  /\
  (MapService_getImage (env0 true) svc_src "osm" four_tile_box 1
     false false 1%nat true None false state0).1 = Ok None
  /\
  (MapService_getImage (env0 true) svc_src "osm" four_tile_box 1
     false true 1%nat true None true state0).1
  = Ok (Some {| GeoImage.img :=
                  Mosaic (2 * 256) (2 * 256)
                    [(Decoded the_tile, (0, 0)); (Decoded the_tile, (0, 256));
                     (Decoded the_tile, (256, 0));
                     (Flat 256 256 "lightgrey", (256, 256))];
                GeoImage.ul := (0%Q, 1024%Q); GeoImage.res := 2 |})
  /\
  (MapService_getImage (env0 true) svc_src "osm" four_tile_box 1
     false true 1%nat true None false state0).1 = Ok None.
Proof.
  repeat split; vm_compute; reflexivity.
Qed.

(** C8 (defect of the code).  A tile whose request raises inside the worker
    of [getTiles] never reaches [tilesData]: the exception ends the thread
    and is seen by nobody.  [getImage] then has no entry for that slot,
    pastes nothing there and does not give up either.  On the service with a
    source grid in degrees and a destination grid in meters, the only tile of
    the mosaic raises NameError (the defect of C9).  With one worker and
    [allowEmptyTile] off the call returns a raster, not absent; with
    [allowEmptyTile] on the raster has no placeholder: in both cases one
    blank slot. *)
Theorem C8_lost_tile_leaves_blank_slot :
  MapService_getTile (env0 true) svc_deg_to_m "osm" 0 0 1 true false state0
  = (Raise NameError, state0) /\
  MapService_getImage (env0 true) svc_deg_to_m "osm" one_tile_box 1
    true false 1%nat true None false state0 = (Ok (Some blank_raster), state0) /\
  MapService_getImage (env0 true) svc_deg_to_m "osm" one_tile_box 1
    true false 1%nat true None true state0 = (Ok (Some blank_raster), state0).
Proof.
  repeat split; vm_compute; reflexivity.
Qed.

(** ** The nesting of [getImage] and [getTile] *)

(** A request on the source grid never calls [getImage] back. *)
Lemma getTile_source_grid env (self : MapService.t) (f g : MapService.getImage_type)
    laykey col row zoom_ useCache (s : state) :
  MapService.getTile env self f laykey col row zoom_ false useCache s =
  MapService.getTile env self g laykey col row zoom_ false useCache s.
Proof. reflexivity. Qed.

Lemma downloading_source_grid env (self : MapService.t)
    (f g : MapService.getImage_type) laykey cpt alive queue tilesData (s : state) :
  MapService.downloading env self f laykey false cpt alive queue tilesData s =
  MapService.downloading env self g laykey false cpt alive queue tilesData s.
Proof.
  revert alive tilesData s.
  induction queue as [| [[col row] z] rest IH]; intros alive tilesData s.
  - reflexivity.
  - destruct alive as [| alive']; [reflexivity |].
    cbn [MapService.downloading].
    destruct (negb (running s)); [reflexivity |].
    rewrite (getTile_source_grid env self f g).
    destruct (MapService.getTile env self g laykey col row z false false s)
      as [[data | e] s1]; apply IH.
Qed.

(** Two runs of a sequence agree when their parts do. *)
Lemma bind_ext {A B} (m m' : M A) (k k' : A -> M B) (s : state) :
  m s = m' s -> (forall a s1, k a s1 = k' a s1) -> (m ≫= k) s = (m' ≫= k') s.
Proof.
  intros Hm Hk. unfold mbind, M_bind. rewrite Hm.
  destruct (m' s) as [[a | e] s1]; [apply Hk | reflexivity].
Qed.

Lemma getTiles_source_grid env (self : MapService.t)
    (f g : MapService.getImage_type) laykey tiles tilesData useCache nbThread cpt
    (s : state) :
  MapService.getTiles env self f laykey tiles tilesData false useCache nbThread cpt s =
  MapService.getTiles env self g laykey tiles tilesData false useCache nbThread cpt s.
Proof.
  unfold MapService.getTiles.
  apply bind_ext; [reflexivity |]. intros _ s1.
  apply bind_ext; [reflexivity |]. intros [[cache result] missing] s2.
  apply bind_ext; [| reflexivity].
  destruct missing as [| t rest]; [reflexivity |].
  apply bind_ext; [| reflexivity].
  apply downloading_source_grid.
Qed.

Lemma getImage_source_grid env (self : MapService.t)
    (f g : MapService.getImage_type) laykey bbox zoom_ useCache nbThread cpt outCRS
    allowEmptyTile (s : state) :
  MapService.getImage env self f laykey bbox zoom_ false useCache nbThread cpt outCRS
    allowEmptyTile s =
  MapService.getImage env self g laykey bbox zoom_ false useCache nbThread cpt outCRS
    allowEmptyTile s.
Proof.
  unfold MapService.getImage, MapService.getImage_from.
  apply bind_ext; [reflexivity |]. intros [k tm] s1.
  apply bind_ext; [reflexivity |]. intros res s2.
  destruct bbox as [[[xmin ymin] xmax] ymax].
  apply bind_ext; [reflexivity |]. intros [firstCol firstRow] s3.
  apply bind_ext; [reflexivity |]. intros [xmin' ymax'] s4.
  apply bind_ext; [reflexivity |]. intros nx s5.
  apply bind_ext; [reflexivity |]. intros ny s6.
  apply bind_ext; [| reflexivity].
  apply getTiles_source_grid.
Qed.

Lemma reprojected_tile_agree env (self : MapService.t)
    (f g : MapService.getImage_type) tm laykey col row zoom_ (s : state) :
  agree_on_source f g ->
  MapService.reprojected_tile env self f tm laykey col row zoom_ s =
  MapService.reprojected_tile env self g tm laykey col row zoom_ s.
Proof.
  intros H. unfold MapService.reprojected_tile.
  apply bind_ext; [reflexivity |]. intros [[[xmin ymin] xmax] ymax] s1.
  apply bind_ext; [reflexivity |]. intros res s2.
  apply bind_ext; [reflexivity |]. intros res2 s3.
  apply bind_ext; [reflexivity |]. intros oz s4.
  apply bind_ext; [reflexivity |]. intros z s5.
  apply bind_ext; [reflexivity |]. intros _res s6.
  destruct (reprojBbox env _ _ _) as [_bbox | e]; [| reflexivity].
  apply bind_ext; [apply H | reflexivity].
Qed.

Lemma getTile_agree env (self : MapService.t) (f g : MapService.getImage_type)
    laykey col row zoom_ toDstGrid useCache (s : state) :
  agree_on_source f g ->
  MapService.getTile env self f laykey col row zoom_ toDstGrid useCache s =
  MapService.getTile env self g laykey col row zoom_ toDstGrid useCache s.
Proof.
  intros H. unfold MapService.getTile, MapService.getTile_from.
  apply bind_ext; [reflexivity |]. intros [k tm] s1.
  apply bind_ext; [reflexivity |]. intros [x y] s2.
  destruct (MapService.out_of_bounds tm col row x y); [reflexivity |].
  apply bind_ext; [reflexivity |]. intros [cache hit] s3.
  destruct hit as [data |]; [reflexivity |].
  apply bind_ext; [| reflexivity].
  destruct toDstGrid; cbn [negb]; [| reflexivity].
  apply reprojected_tile_agree. exact H.
Qed.

Lemma downloading_agree env (self : MapService.t) (f g : MapService.getImage_type)
    laykey toDstGrid cpt alive queue tilesData (s : state) :
  agree_on_source f g ->
  MapService.downloading env self f laykey toDstGrid cpt alive queue tilesData s =
  MapService.downloading env self g laykey toDstGrid cpt alive queue tilesData s.
Proof.
  intros H. revert alive tilesData s.
  induction queue as [| [[col row] z] rest IH]; intros alive tilesData s.
  - reflexivity.
  - destruct alive as [| alive']; [reflexivity |].
    cbn [MapService.downloading].
    destruct (negb (running s)); [reflexivity |].
    rewrite (getTile_agree env self f g _ _ _ _ _ _ _ H).
    destruct (MapService.getTile env self g laykey col row z toDstGrid false s)
      as [[data | e] s1]; apply IH.
Qed.

Lemma getTiles_agree env (self : MapService.t) (f g : MapService.getImage_type)
    laykey tiles tilesData toDstGrid useCache nbThread cpt (s : state) :
  agree_on_source f g ->
  MapService.getTiles env self f laykey tiles tilesData toDstGrid useCache nbThread cpt s =
  MapService.getTiles env self g laykey tiles tilesData toDstGrid useCache nbThread cpt s.
Proof.
  intros H. unfold MapService.getTiles.
  apply bind_ext; [reflexivity |]. intros _ s1.
  apply bind_ext; [reflexivity |]. intros [[cache result] missing] s2.
  apply bind_ext; [| reflexivity].
  destruct missing as [| t rest]; [reflexivity |].
  apply bind_ext; [| reflexivity].
  apply downloading_agree. exact H.
Qed.

Lemma getImage_agree env (self : MapService.t) (f g : MapService.getImage_type)
    laykey bbox zoom_ toDstGrid useCache nbThread cpt outCRS allowEmptyTile (s : state) :
  agree_on_source f g ->
  MapService.getImage env self f laykey bbox zoom_ toDstGrid useCache nbThread cpt
    outCRS allowEmptyTile s =
  MapService.getImage env self g laykey bbox zoom_ toDstGrid useCache nbThread cpt
    outCRS allowEmptyTile s.
Proof.
  intros H. unfold MapService.getImage, MapService.getImage_from.
  apply bind_ext; [reflexivity |]. intros [k tm] s1.
  apply bind_ext; [reflexivity |]. intros res s2.
  destruct bbox as [[[xmin ymin] xmax] ymax].
  apply bind_ext; [reflexivity |]. intros [firstCol firstRow] s3.
  apply bind_ext; [reflexivity |]. intros [xmin' ymax'] s4.
  apply bind_ext; [reflexivity |]. intros nx s5.
  apply bind_ext; [reflexivity |]. intros ny s6.
  apply bind_ext; [| reflexivity].
  apply getTiles_agree. exact H.
Qed.

(** Two nested calls are all that a request ever needs: allowing more changes
    nothing, so that [MapService_getImage] and [MapService_getTile] are the
    methods themselves and not a truncation of them. *)
Theorem getImage_at_stable env (self : MapService.t) (n : nat)
    laykey bbox zoom_ toDstGrid useCache nbThread cpt outCRS allowEmptyTile (s : state) :
  MapService.getImage_at env self (2 + n) laykey bbox zoom_ toDstGrid useCache
    nbThread cpt outCRS allowEmptyTile s =
  MapService_getImage env self laykey bbox zoom_ toDstGrid useCache nbThread cpt
    outCRS allowEmptyTile s.
Proof.
  unfold MapService_getImage.
  change (MapService.getImage_at env self (2 + n))
    with (MapService.getImage env self (MapService.getImage_at env self (1 + n))).
  change (MapService.getImage_at env self 2)
    with (MapService.getImage env self (MapService.getImage_at env self 1)).
  apply getImage_agree.
  intros laykey' bbox' zoom' useCache' nbThread' cpt' outCRS' allow' s'.
  change (MapService.getImage_at env self (1 + n))
    with (MapService.getImage env self (MapService.getImage_at env self n)).
  change (MapService.getImage_at env self 1)
    with (MapService.getImage env self (MapService.getImage_at env self 0)).
  apply getImage_source_grid.
Qed.

Theorem getTile_at_stable env (self : MapService.t) (n : nat)
    laykey col row zoom_ toDstGrid useCache (s : state) :
  MapService.getTile env self (MapService.getImage_at env self (1 + n))
    laykey col row zoom_ toDstGrid useCache s =
  MapService_getTile env self laykey col row zoom_ toDstGrid useCache s.
Proof.
  unfold MapService_getTile. apply getTile_agree.
  intros laykey' bbox' zoom' useCache' nbThread' cpt' outCRS' allow' s'.
  change (MapService.getImage_at env self (1 + n))
    with (MapService.getImage env self (MapService.getImage_at env self n)).
  change (MapService.getImage_at env self 1)
    with (MapService.getImage env self (MapService.getImage_at env self 0)).
  apply getImage_source_grid.
Qed.

(** ** Mosaics of the source grid *)

Lemma getTileCoords_defined (tm : TileMatrix.t) (col row zoom_ : Z) (res : Q) :
  TileMatrix.getRes tm zoom_ = Ok res ->
  exists x y, TileMatrix.getTileCoords tm col row zoom_ = Ok (x, y).
Proof.
  intros H. unfold TileMatrix.getTileCoords. rewrite H. cbn. eauto.
Qed.

(** A worker's request on the source grid: it returns, and leaves [running]
    as it was. *)
Lemma getTile_source_no_cache env (self : MapService.t) rec laykey
    (col row zoom_ : Z) (res : Q) (s : state) :
  TileMatrix.getRes (MapService.srcTms self) zoom_ = Ok res ->
  (exists url, MapService.buildUrl self laykey col row zoom_ = Ok url) ->
  exists s',
    MapService.getTile env self rec laykey col row zoom_ false false s =
    (Ok (source_tile_data env self laykey (col, row, zoom_)), s')
    /\ running s' = running s.
Proof.
  intros Hres [url Hurl].
  destruct (getTileCoords_defined (MapService.srcTms self) col row zoom_ res Hres)
    as (x & y & Hxy).
  unfold MapService.getTile, MapService.getTile_from, source_tile_data.
  erewrite bind_Ok by reflexivity. cbv beta iota.
  erewrite bind_Ok by (rewrite Hxy; apply lift_spec). cbv beta iota.
  rewrite Hxy.
  destruct (MapService.out_of_bounds (MapService.srcTms self) col row x y).
  { exists s. split; reflexivity. }
  erewrite bind_Ok by reflexivity. cbv beta iota. cbn [negb].
  rewrite Hurl.
  exists (log (HttpGet url) s). split; [| reflexivity].
  unfold MapService.downloadTile.
  erewrite bind_Ok by (erewrite bind_Ok by (rewrite Hurl; apply lift_spec); reflexivity).
  reflexivity.
Qed.

(** One worker and tile requests that all return: every job of the queue
    is answered, in the order of the queue. *)
Lemma downloading_answers env (self : MapService.t) rec laykey cpt (toDstGrid : bool)
    (alive : nat) (zoom_ : Z) (data : Z * Z * Z -> option bytes)
    (queue : list (Z * Z * Z)) (tilesData : list MapService.tile_data) (s : state) :
  (forall col row s0, running s0 = true ->
     exists s1, MapService.getTile env self rec laykey col row zoom_ toDstGrid false s0
                = (Ok (data (col, row, zoom_)), s1) /\ running s1 = true) ->
  Forall (fun t => t.2 = zoom_) queue ->
  running s = true ->
  exists s',
    MapService.downloading env self rec laykey toDstGrid cpt (S alive) queue tilesData s =
    (Ok (tilesData ++ map (fun t => (t, data t)) queue), s')
    /\ running s' = true.
Proof.
  intros Hget Hq. revert tilesData s.
  induction Hq as [| [[col row] z] rest Hz _ IH]; intros tilesData s Hrun.
  - exists s. cbn. rewrite app_nil_r. split; [reflexivity | exact Hrun].
  - cbn in Hz. subst z. cbn [MapService.downloading].
    rewrite Hrun. cbn [negb].
    destruct (Hget col row s Hrun) as (s1 & Hrun_get & Hrun1).
    rewrite Hrun_get.
    set (s2 := if cpt then set_cptTiles (cptTiles s1 + 1) s1 else s1).
    assert (Hrun2 : running s2 = true).
    { subst s2. destruct cpt; cbn; congruence. }
    destruct (IH (tilesData ++ [(col, row, zoom_, data (col, row, zoom_))]) s2 Hrun2)
      as (s' & Hrest & Hrun').
    exists s'. split; [| exact Hrun'].
    rewrite Hrest. cbn [map]. rewrite <- app_assoc. reflexivity.
Qed.

Lemma getTiles_answers env (self : MapService.t) rec laykey cpt (toDstGrid : bool)
    (zoom_ : Z) (data : Z * Z * Z -> option bytes) (tiles : list (Z * Z * Z))
    (s : state) :
  (forall col row s0, running s0 = true ->
     exists s1, MapService.getTile env self rec laykey col row zoom_ toDstGrid false s0
                = (Ok (data (col, row, zoom_)), s1) /\ running s1 = true) ->
  Forall (fun t => t.2 = zoom_) tiles ->
  running s = true ->
  exists s',
    MapService.getTiles env self rec laykey tiles [] toDstGrid false 1%nat cpt s =
    (Ok (map (fun t => (t, data t)) tiles), s')
    /\ running s' = true.
Proof.
  intros Hget Hq Hrun.
  unfold MapService.getTiles.
  set (s0 := if cpt
             then set_cptTiles 0 (set_nbTiles (Z.of_nat (length tiles)) s)
             else s).
  assert (Hrun0 : running s0 = true) by (subst s0; destruct cpt; exact Hrun).
  assert (Hpre : (if cpt
                  then modify (fun s =>
                         set_cptTiles 0 (set_nbTiles (Z.of_nat (length tiles)) s))
                  else mret tt) s = (Ok tt, s0)).
  { subst s0. destruct cpt; reflexivity. }
  erewrite bind_Ok by exact Hpre.
  erewrite bind_Ok by reflexivity. cbv beta iota.
  destruct tiles as [| t rest].
  - erewrite bind_Ok by reflexivity.
    exists (if cpt then set_cptTiles 0 (set_nbTiles 0 s0) else s0).
    split; [destruct cpt; reflexivity | destruct cpt; exact Hrun0].
  - destruct (downloading_answers env self rec laykey cpt toDstGrid 0 zoom_ data
                (t :: rest) [] s0 Hget Hq Hrun0) as (s1 & Hdl & Hrun1).
    erewrite bind_Ok
      by (erewrite bind_Ok by exact Hdl; erewrite bind_Ok by reflexivity; reflexivity).
    exists (if cpt then set_cptTiles 0 (set_nbTiles 0 s1) else s1).
    split; [destruct cpt; reflexivity | destruct cpt; exact Hrun1].
Qed.

Lemma required_tiles_zoom (tm : TileMatrix.t) firstCol firstRow nbTilesX nbTilesY zoom_ :
  Forall (fun t => t.2 = zoom_)
         (required_tiles tm firstCol firstRow nbTilesX nbTilesY zoom_).
Proof.
  unfold required_tiles. apply List.Forall_forall. intros t Hin.
  apply in_flat_map in Hin. destruct Hin as (c & _ & Hin).
  apply in_map_iff in Hin. destruct Hin as (r & <- & _). reflexivity.
Qed.

(** A mosaic of the source grid, with the cache bypassed, one worker and no
    output CRS, on a running service, from the point where [getImage] has the
    first tile and the numbers of tiles: when every tile request returns, all
    the required tiles are asked for, each one is pasted at its slot, as a
    flat tile when it has no usable data, and the raster is as wide and as
    high as the columns and rows asked for.  Without [allowEmptyTile] one
    tile without usable data makes the whole request absent. *)
Lemma getImage_from_mosaic (env : Env) (self : MapService.t)
    (laykey : string) (zoom_ : Z) (cpt allowEmptyTile : bool) (res : Q)
    (firstCol firstRow : Z) (x0 y0 : Q) (n m : Z)
    (data : Z * Z * Z -> option bytes) (s : state) :
  let tm := MapService.srcTms self in
  let tileSize := TileMatrix.tileSize tm in
  (forall col row s0, running s0 = true ->
     exists s1, MapService_getTile env self laykey col row zoom_ false false s0
                = (Ok (data (col, row, zoom_)), s1) /\ running s1 = true) ->
  running s = true ->
  let tilesData :=
    map (fun t => (t, data t)) (required_tiles tm firstCol firstRow n m zoom_) in
  (MapService_getImage_from env self tm res firstCol firstRow x0 y0 n m laykey zoom_
     false false 1%nat cpt None allowEmptyTile s).1 =
  Ok (if allowEmptyTile || forallb (usable env) tilesData
      then Some {| GeoImage.img :=
                     Mosaic (Z.of_nat (length (required_cols firstCol n)) * tileSize)
                            (Z.of_nat (length (required_rows tm firstRow m)) * tileSize)
                            (map (tile_slot env tileSize firstCol firstRow) tilesData);
                   GeoImage.ul := (x0, y0); GeoImage.res := res |}
      else None).
Proof.
  intros tm tileSize Hget Hrun tilesData.
  unfold MapService_getImage_from, MapService.getImage_from.
  fold tileSize.
  destruct (getTiles_answers env self (MapService.getImage_at env self 1)
              laykey cpt false zoom_ data
              (required_tiles tm firstCol firstRow n m zoom_)
              s Hget (required_tiles_zoom _ _ _ _ _ _) Hrun)
    as (s1 & Hgot & Hrun1).
  unfold required_tiles, required_cols, required_rows in Hgot.
  erewrite bind_Ok by exact Hgot.
  erewrite bind_Ok by (apply paste_tiles_running; exact Hrun1).
  cbn [app].
  fold (required_cols firstCol n).
  fold (required_rows tm firstRow m).
  fold (required_tiles tm firstCol firstRow n m zoom_).
  fold tilesData.
  destruct (allowEmptyTile || forallb (usable env) tilesData); [| reflexivity].
  erewrite bind_Ok by reflexivity.
  erewrite bind_Ok by apply get_state_spec.
  rewrite Hrun1. reflexivity.
Qed.

Lemma py_range_length (n : Z) : length (py_range n) = Z.to_nat n.
Proof. unfold py_range. rewrite length_map, length_seq. reflexivity. Qed.

Lemma required_cols_length firstCol n :
  Z.of_nat (length (required_cols firstCol n)) = Z.max 0 n.
Proof. unfold required_cols. rewrite length_map, py_range_length. lia. Qed.

Lemma required_rows_length tm firstRow n :
  Z.of_nat (length (required_rows tm firstRow n)) = Z.max 0 n.
Proof.
  unfold required_rows.
  destruct (TileMatrix.originLoc tm); rewrite length_map, py_range_length; lia.
Qed.

Lemma tile_slot_unusable env tileSize firstCol firstRow (t : MapService.tile_data) :
  usable env t = false ->
  exists color, (tile_slot env tileSize firstCol firstRow t).1 = Flat tileSize tileSize color.
Proof.
  destruct t as [[[col row] z] data]. unfold usable, tile_slot. cbn.
  destruct data as [d |].
  - intros ->. eauto.
  - eauto.
Qed.

(** X24. The scenario of the specification in general, on the source grid
    with the cache bypassed and one worker: an [n] by [m] mosaic of which at
    least one tile has no usable data, from the point where [getImage] has
    computed the first tile, its corner and the numbers of tiles, and with
    tile requests that all return.  Without [allowEmptyTile] the request is
    absent; with it the raster measures [n * tileSize] by [m * tileSize] and
    every required tile has its paste, a flat tile for each tile without
    usable data. *)
Corollary getImage_source_grid_missing_tile (env : Env) (self : MapService.t)
    (laykey : string) (zoom_ : Z) (cpt : bool) (res : Q) (firstCol firstRow : Z)
    (x0 y0 : Q) (n m : Z) (data : Z * Z * Z -> option bytes) (s : state) :
  let tm := MapService.srcTms self in
  let tileSize := TileMatrix.tileSize tm in
  0 <= n -> 0 <= m ->
  (forall col row s0, running s0 = true ->
     exists s1, MapService_getTile env self laykey col row zoom_ false false s0
                = (Ok (data (col, row, zoom_)), s1) /\ running s1 = true) ->
  running s = true ->
  let tilesData :=
    map (fun t => (t, data t)) (required_tiles tm firstCol firstRow n m zoom_) in
  Exists (fun t => usable env t = false) tilesData ->
  (MapService_getImage_from env self tm res firstCol firstRow x0 y0 n m laykey zoom_
     false false 1%nat cpt None false s).1 = Ok None
  /\
  exists pastes,
    (MapService_getImage_from env self tm res firstCol firstRow x0 y0 n m laykey zoom_
       false false 1%nat cpt None true s).1 =
    Ok (Some {| GeoImage.img := Mosaic (n * tileSize) (m * tileSize) pastes;
                GeoImage.ul := (x0, y0); GeoImage.res := res |})
    /\
    forall t, In t tilesData ->
      In (tile_slot env tileSize firstCol firstRow t) pastes /\
      (usable env t = false ->
       exists color,
         (tile_slot env tileSize firstCol firstRow t).1 = Flat tileSize tileSize color).
Proof.
  intros tm tileSize Hn0 Hm0 Hget Hrun tilesData Hmiss.
  assert (Hnot : forallb (usable env) tilesData = false).
  { apply not_true_is_false. intros Hall.
    apply List.Exists_exists in Hmiss. destruct Hmiss as (t & Hin & Hu).
    rewrite forallb_forall in Hall. rewrite (Hall t Hin) in Hu. discriminate. }
  split.
  - pose proof (getImage_from_mosaic env self laykey zoom_ cpt false res firstCol
                  firstRow x0 y0 n m data s Hget Hrun) as Hmosaic.
    cbv zeta in Hmosaic. fold tm tileSize tilesData in Hmosaic.
    rewrite Hmosaic, Hnot. reflexivity.
  - exists (map (tile_slot env tileSize firstCol firstRow) tilesData). split.
    + pose proof (getImage_from_mosaic env self laykey zoom_ cpt true res firstCol
                    firstRow x0 y0 n m data s Hget Hrun) as Hmosaic.
      cbv zeta in Hmosaic. fold tm tileSize tilesData in Hmosaic.
      rewrite Hmosaic. cbn [orb].
      rewrite required_cols_length, required_rows_length.
      rewrite !Z.max_r by assumption. reflexivity.
    + intros t Hin. split.
      * apply in_map. exact Hin.
      * apply tile_slot_unusable.
Qed.

(** * Further properties of the tile pyramid *)

Lemma py_div_defined (a b : Q) : ~ (b == 0)%Q -> py_div a b = Ok (a / b)%Q.
Proof. intros H. unfold py_div. rewrite (Qeq_bool_false b 0 H). reflexivity. Qed.

Lemma py_div_by_zero (a b : Q) : (b == 0)%Q -> py_div a b = Raise ZeroDivisionError.
Proof.
  intros H. unfold py_div.
  destruct (Qeq_bool b 0) eqn:E; [reflexivity |].
  apply Qeq_bool_neq in E. contradiction.
Qed.

Lemma getTileNumber_unfold (tm : TileMatrix.t) (x y : Q) (zoom : Z) (res : Q) :
  TileMatrix.getRes tm zoom = Ok res ->
  ~ (inject_Z (TileMatrix.tileSize tm) * res == 0)%Q ->
  TileMatrix.getTileNumber tm x y zoom =
  Ok (Qfloor ((x - TileMatrix.originx tm) / (inject_Z (TileMatrix.tileSize tm) * res)),
      Qfloor (match TileMatrix.originLoc tm with
              | TileMatrix.NW => TileMatrix.originy tm - y
              | TileMatrix.SW => y - TileMatrix.originy tm
              end / (inject_Z (TileMatrix.tileSize tm) * res)))%Q.
Proof.
  intros Hres Hg. unfold TileMatrix.getTileNumber. rewrite Hres. cbn.
  rewrite !(py_div_defined _ _ Hg). reflexivity.
Qed.

Lemma getTileCoords_unfold (tm : TileMatrix.t) (col row zoom : Z) (res : Q) :
  TileMatrix.getRes tm zoom = Ok res ->
  TileMatrix.getTileCoords tm col row zoom =
  Ok (TileMatrix.originx tm + inject_Z col * (inject_Z (TileMatrix.tileSize tm) * res),
      match TileMatrix.originLoc tm with
      | TileMatrix.NW =>
          TileMatrix.originy tm - inject_Z row * (inject_Z (TileMatrix.tileSize tm) * res)
      | TileMatrix.SW =>
          TileMatrix.originy tm + inject_Z row * (inject_Z (TileMatrix.tileSize tm) * res)
          + inject_Z (TileMatrix.tileSize tm) * res
      end)%Q.
Proof. intros Hres. unfold TileMatrix.getTileCoords. rewrite Hres. reflexivity. Qed.

Lemma getResList_factor_entries (tm : TileMatrix.t) (l : list Q) :
  TileMatrix.resolutions tm = None ->
  TileMatrix.getResList tm = Ok l ->
  length l = Z.to_nat (TileMatrix.nbLevels tm) /\
  (forall (z : nat) (v : Q),
      nth_error l z = Some v -> TileMatrix.getRes tm (Z.of_nat z) = Ok v).
Proof.
  intros Hr Hl. unfold TileMatrix.getResList in Hl. rewrite Hr in Hl.
  pose proof (result_mapM_length _ _ _ Hl) as Hlen.
  assert (Hrange : length (py_range (TileMatrix.nbLevels tm))
                   = Z.to_nat (TileMatrix.nbLevels tm)).
  { unfold py_range. rewrite length_map, length_seq. reflexivity. }
  split; [congruence |].
  intros z v Hz.
  assert (Hlt : (z < Z.to_nat (TileMatrix.nbLevels tm))%nat).
  { rewrite <- Hrange, <- Hlen. apply nth_error_Some. congruence. }
  destruct (result_mapM_nth _ _ _ Hl z (Z.of_nat z) (py_range_nth _ _ Hlt))
    as (b & Hb & Hnth).
  unfold TileMatrix.getRes. rewrite Hr. rewrite Hb. congruence.
Qed.

(** X3. [getResList] and [getRes] agree: the entry [z] of the list is what
    [getRes(z)] returns, and on a grid defined by a factor the list has
    [nbLevels] entries (none when [nbLevels] is not positive). *)
Theorem getResList_getRes (tm : TileMatrix.t) (l : list Q) :
  TileMatrix.getResList tm = Ok l ->
  (TileMatrix.resolutions tm = None -> length l = Z.to_nat (TileMatrix.nbLevels tm)) /\
  (forall (z : nat) (v : Q),
      nth_error l z = Some v -> TileMatrix.getRes tm (Z.of_nat z) = Ok v).
Proof.
  intros Hl.
  destruct (TileMatrix.resolutions tm) as [l' |] eqn:Hr.
  - unfold TileMatrix.getResList in Hl. rewrite Hr in Hl.
    injection Hl as ->. split; [discriminate |].
    intros z v Hz. apply (getRes_explicit_in_range tm l z v Hr Hz).
  - destruct (getResList_factor_entries tm l Hr Hl) as [Hlen Hget].
    split; [intros _; exact Hlen | exact Hget].
Qed.

Lemma getResList_getRes_witness :
  length [4%Q; 2%Q; 1%Q] = 3%nat /\ TileMatrix.getRes grid421 (Z.of_nat 2) = Ok 1%Q.
Proof.
  split; [reflexivity |].
  apply (proj2 (getResList_getRes grid421 [4%Q; 2%Q; 1%Q] eq_refl) 2%nat 1%Q).
  reflexivity.
Defined.

Lemma descending_by_steps (l : list Q) :
  (forall (z : nat) (v w : Q),
      nth_error l z = Some v -> nth_error l (S z) = Some w -> (w <= v)%Q) ->
  descending l.
Proof.
  unfold descending. induction l as [| a l IH]; intros H; [constructor |].
  constructor.
  - apply IH. intros z v w Hv Hw. apply (H (S z) v w); assumption.
  - destruct l as [| b l]; constructor.
    apply (H 0%nat a b); reflexivity.
Qed.

Lemma Qeq_le (a b : Q) : (a == b)%Q -> (a <= b)%Q.
Proof. intros E. apply Qle_lteq. right. exact E. Qed.

Lemma Qdiv_le_denominator (a b c : Q) :
  (0 <= a)%Q -> (0 < c)%Q -> (c <= b)%Q -> (a / b <= a / c)%Q.
Proof.
  intros Ha Hc Hcb.
  assert (Hb : (0 < b)%Q) by lra.
  assert (Hbz : ~ (b == 0)%Q) by (intros E; rewrite E in Hb; discriminate).
  assert (Hab : (0 <= a / b)%Q).
  { apply Qle_shift_div_l; [exact Hb |]. lra. }
  apply Qle_shift_div_l; [exact Hc |].
  apply Qle_trans with (b * (a / b))%Q.
  - apply Qle_trans with (c * (a / b))%Q.
    + apply Qeq_le. ring.
    + apply Qmult_le_compat_r; assumption.
  - apply Qeq_le. field. exact Hbz.
Qed.

(** The level [z] of a grid defined by a factor. *)
Lemma getRes_factor_level (tm : TileMatrix.t) (z : nat) (v : Q) :
  TileMatrix.resolutions tm = None ->
  TileMatrix.getRes tm (Z.of_nat z) = Ok v ->
  v = (TileMatrix.initRes tm / TileMatrix.resFactor tm ^ Z.of_nat z)%Q.
Proof.
  intros Hr H. unfold TileMatrix.getRes in H. rewrite Hr in H.
  unfold py_pow in H.
  destruct (Z.ltb_spec (Z.of_nat z) 0) as [Hneg | _]; [lia |].
  rewrite andb_false_r in H. cbn in H. unfold py_div in H.
  destruct (Qeq_bool (TileMatrix.resFactor tm ^ Z.of_nat z) 0); [discriminate |].
  congruence.
Qed.

Lemma result_mapM_defined {A B} (f : A -> result B) (l : list A) :
  Forall (fun a => exists b, f a = Ok b) l -> exists bs, result_mapM f l = Ok bs.
Proof.
  induction 1 as [| a l [b Hb] _ [bs IH]]; [exists []; reflexivity |].
  exists (b :: bs). cbn. rewrite Hb. cbn. rewrite IH. reflexivity.
Qed.

Lemma getRes_factor_defined (tm : TileMatrix.t) (zoom : Z) :
  TileMatrix.resolutions tm = None ->
  (0 < TileMatrix.resFactor tm)%Q ->
  TileMatrix.getRes tm zoom =
  Ok (TileMatrix.initRes tm / TileMatrix.resFactor tm ^ zoom)%Q.
Proof.
  intros Hr Hf. unfold TileMatrix.getRes. rewrite Hr. unfold py_pow.
  assert (Hfz : ~ (TileMatrix.resFactor tm == 0)%Q)
    by (intros E; rewrite E in Hf; discriminate).
  rewrite (Qeq_bool_false _ _ Hfz). cbn.
  apply py_div_defined. apply Qpower_not_0. exact Hfz.
Qed.

(** X4. On a grid defined by the factor 2 and a first resolution that is a
    binary64 value and not negative, with at most 1024 levels and a last
    level whose resolution is still a binary64 value (no division of the
    pyramid rounds, none overflows), [getResList] returns (it does not raise)
    a list of [nbLevels] resolutions in descending order, the order that
    [getNearestZoom] relies on.  (Beyond 1024 levels the power of the factor
    no longer fits a float and the code raises OverflowError.) *)
Theorem getResList_factor_descending (tm : TileMatrix.t) :
  TileMatrix.resolutions tm = None ->
  (TileMatrix.resFactor tm == 2)%Q ->
  (0 <= TileMatrix.initRes tm)%Q ->
  Float64.is_value (TileMatrix.initRes tm) = true ->
  TileMatrix.nbLevels tm <= 1024 ->
  Float64.is_value (TileMatrix.initRes tm / 2 ^ (TileMatrix.nbLevels tm - 1)) = true ->
  exists l,
    TileMatrix.getResList tm = Ok l /\
    length l = Z.to_nat (TileMatrix.nbLevels tm) /\
    descending l.
Proof.
  intros Hr Hf2 Hi _ _ _.
  assert (Hf : (1 <= TileMatrix.resFactor tm)%Q) by (rewrite Hf2; discriminate).
  assert (Hfpos : (0 < TileMatrix.resFactor tm)%Q) by lra.
  assert (Hdef : exists l, TileMatrix.getResList tm = Ok l).
  { unfold TileMatrix.getResList. rewrite Hr. apply result_mapM_defined.
    apply List.Forall_forall. intros zoom _.
    pose proof (getRes_factor_defined tm zoom Hr Hfpos) as H.
    unfold TileMatrix.getRes in H. rewrite Hr in H. eauto. }
  destruct Hdef as [l Hl]. exists l.
  destruct (getResList_factor_entries tm l Hr Hl) as [Hlen Hget].
  split; [exact Hl |]. split; [exact Hlen |].
  apply descending_by_steps. intros z v w Hv Hw.
  rewrite (getRes_factor_level tm z v Hr (Hget z v Hv)).
  rewrite (getRes_factor_level tm (S z) w Hr (Hget (S z) w Hw)).
  apply Qdiv_le_denominator.
  - exact Hi.
  - apply Qpower_0_lt. exact Hfpos.
  - apply Qpower_le_compat_l; [lia | exact Hf].
Qed.



(** X5. [getRes] does not reject a negative zoom on a grid with a list of
    resolutions: the zoom counts from the end of the list, as Python indexes
    do ([getRes(-1)] is the last, finest resolution), and only a zoom below
    [-len] raises IndexError. *)
Theorem getRes_negative_zoom (tm : TileMatrix.t) (l : list Q) :
  TileMatrix.resolutions tm = Some l ->
  (forall (zoom : Z) (v : Q),
      - Z.of_nat (length l) <= zoom < 0 ->
      nth_error l (Z.to_nat (zoom + Z.of_nat (length l))) = Some v ->
      TileMatrix.getRes tm zoom = Ok v)
  /\
  (forall zoom : Z,
      zoom < - Z.of_nat (length l) -> TileMatrix.getRes tm zoom = Raise IndexError).
Proof.
  intros Hr.
  assert (Hneg : forall zoom, zoom < 0 ->
            TileMatrix.getRes tm zoom =
            if (zoom + Z.of_nat (length l) <? 0)
               || (Z.of_nat (length l) <=? zoom + Z.of_nat (length l))
            then Raise IndexError
            else match nth_error l (Z.to_nat (zoom + Z.of_nat (length l))) with
                 | Some a => Ok a
                 | None => Raise IndexError
                 end).
  { intros zoom Hz. unfold TileMatrix.getRes. rewrite Hr. cbv zeta.
    destruct (Z.gtb_spec zoom (Z.of_nat (length l))) as [Hgt | _]; [lia |].
    unfold py_index. cbv zeta.
    destruct (Z.ltb_spec zoom 0) as [_ | Hge]; [reflexivity | lia]. }
  split.
  - intros zoom v Hz Hv. rewrite (Hneg zoom) by lia. rewrite Hv.
    destruct (Z.ltb_spec (zoom + Z.of_nat (length l)) 0) as [H | _]; [lia |].
    destruct (Z.leb_spec (Z.of_nat (length l)) (zoom + Z.of_nat (length l))) as [H | _];
      [lia | reflexivity].
  - intros zoom Hz. rewrite (Hneg zoom) by lia.
    destruct (Z.ltb_spec (zoom + Z.of_nat (length l)) 0) as [_ | H]; [reflexivity | lia].
Qed.

Lemma getRes_negative_zoom_witness :
  TileMatrix.getRes grid421 (-1) = Ok 1%Q /\
  TileMatrix.getRes grid421 (-3) = Ok 4%Q /\
  TileMatrix.getRes grid421 (-4) = Raise IndexError.
Proof.
  pose proof (getRes_negative_zoom grid421 [4%Q; 2%Q; 1%Q] eq_refl) as [Hin Hout].
  split; [| split].
  - apply (Hin (-1) 1%Q); [cbn; lia | reflexivity].
  - apply (Hin (-3) 4%Q); [cbn; lia | reflexivity].
  - apply (Hout (-4)). cbn. lia.
Defined.

Lemma nearest_scan_in_range (resLst : list Q) (res : Q) (rule : string) (n k : nat) :
  (k + S n = length resLst)%nat ->
  exists z,
    TileMatrix.nearest_scan resLst res rule (items_from resLst k) = Ok (Some z) /\
    Z.of_nat k <= z < Z.of_nat (length resLst).
Proof.
  revert k. induction n as [| n IH]; intros k Hk.
  - exists (Z.of_nat k). split; [| lia].
    apply nearest_scan_last. lia.
  - destruct (nth_error resLst k) as [v1 |] eqn:H1;
      [| apply nth_error_None in H1; lia].
    destruct (nth_error resLst (S k)) as [v2 |] eqn:H2;
      [| apply nth_error_None in H2; lia].
    rewrite (items_from_cons resLst k v1 H1). cbn [TileMatrix.nearest_scan].
    destruct (Qeq_bool v1 res); [exists (Z.of_nat k); split; [reflexivity | lia] |].
    destruct (Z.eqb_spec (Z.of_nat k) (Z.of_nat (length resLst) - 1)) as [E | _]; [lia |].
    replace (Z.of_nat k + 1) with (Z.of_nat (S k)) by lia.
    rewrite (py_index_nat resLst (S k) v2 H2). cbn.
    destruct (Qeq_bool v2 res); [exists (Z.of_nat (S k)); split; [reflexivity | lia] |].
    destruct (Qlt_bool res v1 && Qlt_bool v2 res).
    + destruct (String.eqb rule "lower");
        [exists (Z.of_nat k); split; [reflexivity | lia] |].
      destruct (String.eqb rule "higher");
        [exists (Z.of_nat (S k)); split; [reflexivity | lia] |].
      destruct (Float64.ltb (Float64.sub v1 res) (Float64.sub res v2));
        [exists (Z.of_nat k) | exists (Z.of_nat (S k))]; (split; [reflexivity | lia]).
    + destruct (IH (S k) ltac:(lia)) as (z & Hz & Hrange).
      exists z. split; [exact Hz | lia].
Qed.

(** X6. On a grid that has at least one level [getNearestZoom] always
    returns a level of the grid, for every resolution and every rule,
    whatever the order of the list; it returns [None] only when the list is
    empty. *)
Theorem getNearestZoom_in_range (tm : TileMatrix.t) (resLst : list Q) (res : Q)
    (rule : string) :
  TileMatrix.getResList tm = Ok resLst ->
  match resLst with
  | [] => TileMatrix.getNearestZoom tm res rule = Ok None
  | _ :: _ =>
      exists z, TileMatrix.getNearestZoom tm res rule = Ok (Some z) /\
                0 <= z < Z.of_nat (length resLst)
  end.
Proof.
  intros Hl. unfold TileMatrix.getNearestZoom. rewrite Hl. cbn.
  destruct resLst as [| v rest] eqn:E; [reflexivity |].
  rewrite <- E in *. rewrite enumerate_items_from.
  assert (Hlen : (0 + S (length rest) = length resLst)%nat) by (rewrite E; reflexivity).
  destruct (nearest_scan_in_range resLst res rule (length rest) 0 Hlen) as (z & Hz & Hr).
  exists z. split; [exact Hz | lia].
Qed.

Lemma getNearestZoom_in_range_witness :
  exists z, TileMatrix.getNearestZoom grid421 (1 # 3) "closer" = Ok (Some z) /\
            0 <= z < Z.of_nat (length [4%Q; 2%Q; 1%Q]).
Proof.
  apply (getNearestZoom_in_range grid421 [4%Q; 2%Q; 1%Q] (1 # 3) "closer").
  reflexivity.
Defined.

Lemma getResList_factor_descending_witness :
  exists l,
    TileMatrix.getResList grid_factor = Ok l /\
    length l = Z.to_nat (TileMatrix.nbLevels grid_factor) /\
    descending l.
Proof.
  apply (getResList_factor_descending grid_factor).
  - reflexivity.
  - reflexivity.
  - discriminate.
  - reflexivity.
  - cbn. lia.
  - reflexivity.
Defined.



(** * The tile store *)

Lemma at_time_after (t : Z) path d evs (s : state) :
  at_time t (after path d evs s) = after path d evs (at_time t s).
Proof. reflexivity. Qed.

(** X12. A tile written by [putTile] under a key that fits 64 bits is what
    [getTile] returns for the same key as long as fewer than 91 days have
    passed on the clock ([MAX_DAYS] is compared with the whole days of the
    age, so the tile outlives the 90th day); from 91 days on [getTile]
    returns [None].  With a key that does not fit, [putTile] raises
    OverflowError and writes nothing. *)
Theorem putTile_then_getTile (self : geopackage) (x y z : Z) (data : bytes)
    (d : database) (s : state) (t : Z) :
  db_at (dbPath self) d s ->
  gpkg_schema d ->
  (key_fits (x, y, z) = false ->
   (GeoPackage.putTile self x y z data s).1 = Raise OverflowError /\
   files (GeoPackage.putTile self x y z data s).2 = files s)
  /\
  (key_fits (x, y, z) = true ->
  let later := at_time t (GeoPackage.putTile self x y z data s).2 in
  (t - now s < 91 * 86400 -> (GeoPackage.getTile self x y z later).1 = Ok (Some data))
  /\
  (91 * 86400 <= t - now s -> (GeoPackage.getTile self x y z later).1 = Ok None)).
Proof.
  intros Hat Hd. rewrite (after_start _ _ _ Hat).
  rewrite (putTile_run self x y z data d [] s Hd).
  split; intros Hk; rewrite Hk.
  { split; [reflexivity |]. cbn [snd after files]. rewrite (insert_id _ _ _ Hat).
    reflexivity. }
  intros later. subst later. cbn [snd].
  rewrite at_time_after.
  rewrite getTile_run by (apply gpkg_schema_set_tiles; exact Hd). rewrite Hk.
  cbn [fst gpkg_tiles Sqlite3.set_tiles now at_time].
  rewrite lookup_insert_eq.
  unfold GeoPackage.delta_days, GeoPackage.MAX_DAYS.
  split; intros Ht; cbn [now after] in Ht.
  - destruct (Z.gtb_spec ((t - now s) `div` 86400) 90) as [H | _]; [| reflexivity].
    assert ((t - now s) `div` 86400 < 91) by (apply Z.div_lt_upper_bound; lia). lia.
  - destruct (Z.gtb_spec ((t - now s) `div` 86400) 90) as [_ | H]; [reflexivity |].
    assert (91 <= (t - now s) `div` 86400) by (apply Z.div_le_lower_bound; lia). lia.
Qed.

Lemma putTile_then_getTile_witness :
  (GeoPackage.getTile osm_store 0 0 1
     (at_time (1000000000 + 90 * 86400 + 86399)
        (GeoPackage.putTile osm_store 0 0 1 the_tile (state_with_tiles fresh_tiles)).2)).1
  = Ok (Some the_tile)
  /\
  (GeoPackage.getTile osm_store 0 0 1
     (at_time (1000000000 + 91 * 86400)
        (GeoPackage.putTile osm_store 0 0 1 the_tile (state_with_tiles fresh_tiles)).2)).1
  = Ok None.
Proof.
  assert (Hat : db_at (dbPath osm_store) (store_database fresh_tiles)
                  (state_with_tiles fresh_tiles)) by reflexivity.
  assert (Hd : gpkg_schema (store_database fresh_tiles)) by (repeat split).
  split.
  - apply (proj2 (putTile_then_getTile osm_store 0 0 1 the_tile _ _
                    (1000000000 + 90 * 86400 + 86399) Hat Hd) eq_refl).
    cbn. lia.
  - apply (proj2 (putTile_then_getTile osm_store 0 0 1 the_tile _ _
                    (1000000000 + 91 * 86400) Hat Hd) eq_refl).
    cbn. lia.
Defined.

(** X13. [putTile] leaves the other tiles alone: what [getTile] returns for
    a key other than the one written is what it returned before. *)
Theorem putTile_keeps_other_tiles (self : geopackage) (x y z : Z) (data : bytes)
    (x' y' z' : Z) (d : database) (s : state) :
  db_at (dbPath self) d s ->
  gpkg_schema d ->
  (x', y', z') <> (x, y, z) ->
  (GeoPackage.getTile self x' y' z' (GeoPackage.putTile self x y z data s).2).1
  = (GeoPackage.getTile self x' y' z' s).1.
Proof.
  intros Hat Hd Hne.
  rewrite (after_start _ _ _ Hat).
  rewrite (putTile_run self x y z data d [] s Hd).
  destruct (key_fits (x, y, z)); cbn [snd].
  - rewrite getTile_run by (apply gpkg_schema_set_tiles; exact Hd).
    rewrite getTile_run by exact Hd.
    cbn [fst gpkg_tiles Sqlite3.set_tiles].
    rewrite lookup_insert_ne by congruence. reflexivity.
  - rewrite !getTile_run by exact Hd. reflexivity.
Qed.

Lemma putTile_keeps_other_tiles_witness :
  (GeoPackage.getTile osm_store 0 0 0
     (GeoPackage.putTile osm_store 0 0 1 [] (state_with_tiles fresh_tiles)).2).1
  = (GeoPackage.getTile osm_store 0 0 0 (state_with_tiles fresh_tiles)).1.
Proof.
  apply (putTile_keeps_other_tiles osm_store 0 0 1 [] 0 0 0 (store_database fresh_tiles)).
  - reflexivity.
  - repeat split.
  - discriminate.
Defined.

Lemma keys_fit_bind (tiles : list (Z * Z * Z)) :
  forallb key_fits tiles = true ->
  forallb Sqlite3.is_int64
    (map (fun t => t.1.1) tiles ++ map (fun t => t.1.2) tiles ++ map (fun t => t.2) tiles)
  = true.
Proof.
  intros H.
  assert (Hall : forall t, In t tiles ->
            Sqlite3.is_int64 t.1.1 = true /\ Sqlite3.is_int64 t.1.2 = true /\
            Sqlite3.is_int64 t.2 = true).
  { intros t Hin. pose proof (proj1 (forallb_forall _ _) H t Hin) as Ht.
    unfold key_fits in Ht. apply andb_true_iff in Ht. destruct Ht as [Ht Hz].
    apply andb_true_iff in Ht. tauto. }
  rewrite !forallb_app, !andb_true_iff.
  repeat split; apply forallb_forall; intros v Hv; apply in_map_iff in Hv;
    destruct Hv as (t & <- & Hin); apply (Hall t Hin).
Qed.

Lemma getTiles_after env (self : geopackage) (tiles : list (Z * Z * Z))
    (d : database) evs (s : state) :
  gpkg_schema d ->
  tiles <> [] ->
  3 * Z.of_nat (length tiles) <= sqlite_max_variables env ->
  forallb key_fits tiles = true ->
  GeoPackage.getTiles env self tiles (after (dbPath self) d evs s) =
  (Ok (omap (fun '((zoom_level, tile_column, tile_row), (tile_data, _)) =>
               if GeoPackage.mem tile_column (map (fun t => t.1.1) tiles)
                  && GeoPackage.mem tile_row (map (fun t => t.1.2) tiles)
                  && GeoPackage.mem zoom_level (map (fun t => t.2) tiles)
               then Some (tile_column, tile_row, zoom_level, tile_data)
               else None)
            (map_to_list (gpkg_tiles d))),
   after (dbPath self) d (evs ++ [SqlExec (dbPath self)]) s).
Proof.
  intros Hd Hne Hmax Hk.
  destruct (gpkg_schema_has_columns d Hd) as (_ & _ & _ & _ & _ & Hc).
  unfold GeoPackage.getTiles.
  destruct tiles as [| t0 rest]; [contradiction |].
  set (tiles := t0 :: rest) in *.
  erewrite bind_Ok by (apply lift_spec). cbv beta iota.
  run_ok connect_after. run_ok read_after.
  destruct (Z.gtb_spec (3 * Z.of_nat (length tiles)) (sqlite_max_variables env))
    as [H | _]; [lia |].
  erewrite bind_Ok by reflexivity.
  run_ok require_columns_true.
  erewrite bind_Ok by (apply bind_fits, keys_fit_bind, Hk).
  reflexivity.
Qed.

Lemma mem_In (v : Z) (l : list Z) : GeoPackage.mem v l = true <-> In v l.
Proof.
  unfold GeoPackage.mem. rewrite existsb_exists. split.
  - intros (w & Hin & E). apply Z.eqb_eq in E. subst. exact Hin.
  - intros Hin. exists v. split; [exact Hin | apply Z.eqb_refl].
Qed.

(** X15. The rows of a batch read: on a store with the schema of [create]
    and a batch that is not empty, within the variable limit of SQLite and of
    keys that fit 64 bits, [getTiles] returns a row exactly for the stored
    tiles whose column, row and zoom each occur somewhere in the batch,
    whatever their age.  So every requested tile that is stored comes back
    with its data. *)
Theorem getTiles_rows env (self : geopackage) (tiles : list (Z * Z * Z))
    (d : database) (s : state) :
  db_at (dbPath self) d s ->
  gpkg_schema d ->
  tiles <> [] ->
  3 * Z.of_nat (length tiles) <= sqlite_max_variables env ->
  forallb key_fits tiles = true ->
  exists rows,
    (GeoPackage.getTiles env self tiles s).1 = Ok rows /\
    (forall (x y z : Z) (data : bytes),
        In (x, y, z, data) rows <->
        ((exists t, gpkg_tiles d !! (z, x, y) = Some (data, t)) /\
         In x (map (fun t => t.1.1) tiles) /\
         In y (map (fun t => t.1.2) tiles) /\
         In z (map (fun t => t.2) tiles))) /\
    (forall (x y z : Z) (data : bytes) (t : Z),
        In (x, y, z) tiles ->
        gpkg_tiles d !! (z, x, y) = Some (data, t) ->
        In (x, y, z, data) rows).
Proof.
  intros Hat Hd Hne Hmax Hk.
  rewrite (after_start _ _ _ Hat).
  rewrite (getTiles_after env self tiles d [] s Hd Hne Hmax Hk). cbn [fst].
  eexists. split; [reflexivity |].
  match goal with |- ?P /\ _ => assert (Hiff : P) end;
    [| split; [exact Hiff |];
       intros x y z data t Hin Hrow; apply Hiff;
       split; [eauto |];
       split; [| split];
       [ exact (in_map (fun t => t.1.1) tiles (x, y, z) Hin)
       | exact (in_map (fun t => t.1.2) tiles (x, y, z) Hin)
       | exact (in_map (fun t => t.2) tiles (x, y, z) Hin) ] ].
  intros x y z data. rewrite <- list_elem_of_In, list_elem_of_omap.
  rewrite <- !mem_In. split.
  - intros ([[[z0 x0] y0] [data0 t0]] & Hin & Hsel).
    apply elem_of_map_to_list in Hin.
    destruct (GeoPackage.mem x0 _) eqn:Hx; [| discriminate].
    destruct (GeoPackage.mem y0 _) eqn:Hy; [| discriminate].
    destruct (GeoPackage.mem z0 _) eqn:Hz; [| discriminate].
    cbn in Hsel. injection Hsel as <- <- <- <-. eauto.
  - intros ((t & Hrow) & Hx & Hy & Hz).
    exists ((z, x, y), (data, t)). split.
    + apply elem_of_map_to_list. exact Hrow.
    + rewrite Hx, Hy, Hz. reflexivity.
Qed.

Lemma getTiles_rows_witness :
  exists rows,
    (GeoPackage.getTiles (env0 true) osm_store [(0, 0, 0); (1, 1, 1)]
       (state_with_tiles stale_tiles)).1 = Ok rows /\
    In (0, 0, 0, the_tile) rows.
Proof.
  destruct (getTiles_rows (env0 true) osm_store [(0, 0, 0); (1, 1, 1)]
              (store_database stale_tiles) (state_with_tiles stale_tiles))
    as (rows & Hrows & _ & Hall).
  - reflexivity.
  - repeat split.
  - discriminate.
  - cbn. lia.
  - reflexivity.
  - exists rows. split; [exact Hrows |].
    apply (Hall 0 0 0 the_tile (1000000000 - 100 * 86400)); [left; reflexivity |].
    reflexivity.
Defined.

Lemma tiles_written_other (now_ : Z) (tiles : list (Z * Z * Z * bytes))
    (t : gmap tile_key (bytes * Z)) (k : tile_key) :
  Forall (fun e => (e.1.2, e.1.1.1, e.1.1.2) <> k) tiles ->
  tiles_written now_ tiles t !! k = t !! k.
Proof.
  unfold tiles_written. revert t.
  induction tiles as [| [[[x y] z] data] rest IH]; intros t H; [reflexivity |].
  apply Forall_cons_1 in H. destruct H as [Hk Hrest]. cbn in Hk.
  cbn [fold_left]. rewrite IH by exact Hrest.
  apply lookup_insert_ne. exact Hk.
Qed.

Lemma tiles_written_last (now_ : Z) (pre post : list (Z * Z * Z * bytes))
    (x y z : Z) (data : bytes) (t : gmap tile_key (bytes * Z)) :
  Forall (fun e => (e.1.2, e.1.1.1, e.1.1.2) <> (z, x, y)) post ->
  tiles_written now_ (pre ++ (x, y, z, data) :: post) t !! (z, x, y)
  = Some (data, now_).
Proof.
  intros Hpost.
  change (tiles_written now_ (pre ++ (x, y, z, data) :: post) t)
    with (fold_left (fun t '(x, y, z, data) => <[(z, x, y) := (data, now_)]> t)
            (pre ++ (x, y, z, data) :: post) t).
  rewrite fold_left_app. cbn [fold_left].
  change (fold_left _ post ?t0) with (tiles_written now_ post t0).
  rewrite tiles_written_other by exact Hpost.
  apply lookup_insert_eq.
Qed.

(** X16. Within a batch written by [putTiles], all of whose keys fit 64
    bits, the last entry for a key wins: it is what [getTile] returns for that
    key afterwards; a key with no entry in the batch reads as before.  When
    some key of the batch does not fit, [putTiles] raises OverflowError and
    the whole batch is lost: the files are as before. *)
Theorem putTiles_then_getTile (self : geopackage) (tiles : list (Z * Z * Z * bytes))
    (d : database) (s : state) (x y z : Z) :
  db_at (dbPath self) d s ->
  gpkg_schema d ->
  (forallb (fun t => key_fits t.1) tiles = false ->
   (GeoPackage.putTiles self tiles s).1 = Raise OverflowError /\
   files (GeoPackage.putTiles self tiles s).2 = files s)
  /\
  (forallb (fun t => key_fits t.1) tiles = true ->
  (forall pre post data,
      tiles = pre ++ (x, y, z, data) :: post ->
      Forall (fun e => (e.1.1.1, e.1.1.2, e.1.2) <> (x, y, z)) post ->
      (GeoPackage.getTile self x y z (GeoPackage.putTiles self tiles s).2).1
      = Ok (Some data))
  /\
  (Forall (fun e => (e.1.1.1, e.1.1.2, e.1.2) <> (x, y, z)) tiles ->
   (GeoPackage.getTile self x y z (GeoPackage.putTiles self tiles s).2).1
   = (GeoPackage.getTile self x y z s).1)).
Proof.
  intros Hat Hd.
  assert (Hkey : forall l : list (Z * Z * Z * bytes),
             Forall (fun e => (e.1.1.1, e.1.1.2, e.1.2) <> (x, y, z)) l ->
             Forall (fun e => (e.1.2, e.1.1.1, e.1.1.2) <> (z, x, y)) l).
  { intros l Hl. eapply List.Forall_impl; [| exact Hl].
    intros [[[a b] c] e] H E. cbn in *. apply H. congruence. }
  rewrite (after_start _ _ _ Hat).
  rewrite (putTiles_run self tiles d [] s Hd).
  split; intros Hk.
  { rewrite Hk. split; [reflexivity |]. cbn [snd after files].
    rewrite (insert_id _ _ _ Hat). reflexivity. }
  cbn [snd].
  split.
  - intros pre post data Htiles Hpost. rewrite Hk. cbn [snd].
    rewrite getTile_run by (apply gpkg_schema_set_tiles; exact Hd).
    assert (Hxyz : key_fits (x, y, z) = true).
    { rewrite Htiles, forallb_app in Hk. apply andb_true_iff in Hk.
      destruct Hk as [_ Hk]. cbn [forallb fst] in Hk.
      apply andb_true_iff in Hk. exact (proj1 Hk). }
    rewrite Hxyz. cbn [fst gpkg_tiles Sqlite3.set_tiles]. subst tiles.
    rewrite (tiles_written_last (now s) pre post x y z data _ (Hkey _ Hpost)).
    unfold GeoPackage.delta_days. rewrite Z.sub_diag. reflexivity.
  - intros Hnone. rewrite Hk. cbn [snd].
    rewrite getTile_run by (apply gpkg_schema_set_tiles; exact Hd).
    rewrite getTile_run by exact Hd.
    cbn [fst gpkg_tiles Sqlite3.set_tiles].
    rewrite (tiles_written_other _ _ _ _ (Hkey _ Hnone)). reflexivity.
Qed.

Lemma putTiles_then_getTile_witness :
  (GeoPackage.getTile osm_store 0 0 1
     (GeoPackage.putTiles osm_store [(0, 0, 1, []); (1, 1, 1, []); (0, 0, 1, the_tile)]
        (state_with_tiles fresh_tiles)).2).1
  = Ok (Some the_tile).
Proof.
  apply (proj1 (proj2 (putTiles_then_getTile osm_store
                  [(0, 0, 1, []); (1, 1, 1, []); (0, 0, 1, the_tile)]
                  (store_database fresh_tiles) (state_with_tiles fresh_tiles) 0 0 1
                  eq_refl ltac:(repeat split)) eq_refl)
           [(0, 0, 1, []); (1, 1, 1, [])] [] the_tile).
  - reflexivity.
  - constructor.
Defined.


(** X14. [getTile] on a store whose file is gone raises (OperationalError,
    no such table), and [sqlite3.connect] has left an empty database file at
    the path. *)
Theorem getTile_without_file (self : geopackage) (x y z : Z) (s : state) :
  files s !! dbPath self = None ->
  GeoPackage.getTile self x y z s =
  (Raise OperationalError,
   after (dbPath self) empty_database [SqlExec (dbPath self)] s).
Proof.
  intros Hf. unfold GeoPackage.getTile.
  run_ok connect_absent. run_ok read_after.
  run_raise require_columns_false.
  reflexivity.
Qed.

Lemma getTile_without_file_witness :
  GeoPackage.getTile osm_store 0 0 0 state0 =
  (Raise OperationalError, after osm_path empty_database [SqlExec osm_path] state0).
Proof. apply (getTile_without_file osm_store 0 0 0 state0). reflexivity. Defined.

Lemma putTiles_as_putTile_each_witness :
  (GeoPackage.putTiles osm_store [(0, 0, 1, the_tile); (1, 0, 1, [])]
     (state_with_tiles fresh_tiles)).1 = Ok tt /\
  (putTile_each osm_store [(0, 0, 1, the_tile); (1, 0, 1, [])]
     (state_with_tiles fresh_tiles)).1 = Ok tt /\
  files (GeoPackage.putTiles osm_store [(0, 0, 1, the_tile); (1, 0, 1, [])]
           (state_with_tiles fresh_tiles)).2
  = files (putTile_each osm_store [(0, 0, 1, the_tile); (1, 0, 1, [])]
             (state_with_tiles fresh_tiles)).2.
Proof.
  apply (putTiles_as_putTile_each osm_store [(0, 0, 1, the_tile); (1, 0, 1, [])]
           (store_database fresh_tiles) (state_with_tiles fresh_tiles)).
  - reflexivity.
  - repeat split.
  - reflexivity.
Defined.

(** * Quadkeys *)


Lemma range_down_succ (z : Z) :
  0 <= z -> MapService.range_down (z + 1) = (z + 1) :: MapService.range_down z.
Proof.
  intros Hz. unfold MapService.range_down.
  replace (Z.to_nat (z + 1)) with (S (Z.to_nat z)) by lia.
  cbn [seq map]. f_equal; [lia |].
  rewrite <- seq_shift, map_map. apply map_ext. intros k. lia.
Qed.

Lemma range_down_last (z : Z) :
  0 <= z -> MapService.range_down (z + 1) = map (fun i => i + 1) (MapService.range_down z) ++ [1].
Proof.
  intros Hz. unfold MapService.range_down.
  replace (Z.to_nat (z + 1)) with (Z.to_nat z + 1)%nat by lia.
  rewrite seq_app, map_app, map_map. cbn [seq map Nat.add].
  f_equal.
  - apply map_ext. intros k. lia.
  - f_equal. lia.
Qed.

Lemma land_pow2 (x k : Z) :
  0 <= k -> (Z.land x (Z.shiftl 1 k) =? 0) = negb (Z.testbit x k).
Proof.
  intros Hk. rewrite Z.shiftl_1_l.
  destruct (Z.testbit x k) eqn:Hb; cbn [negb].
  - apply Z.eqb_neq. intros E.
    assert (H : Z.testbit (Z.land x (2 ^ k)) k = false) by (rewrite E; apply Z.bits_0).
    rewrite Z.land_spec, Hb, Z.pow2_bits_true in H by exact Hk. discriminate.
  - apply Z.eqb_eq. apply Z.bits_inj'. intros j Hj.
    rewrite Z.land_spec, Z.bits_0, Z.pow2_bits_eqb by exact Hk.
    destruct (Z.eqb_spec k j) as [<- | _]; [rewrite Hb; reflexivity | apply andb_false_r].
Qed.

Lemma quad_digit_bits (x y i : Z) :
  1 <= i ->
  MapService.quad_digit x y i = Z.b2z (Z.testbit x (i - 1)) + 2 * Z.b2z (Z.testbit y (i - 1)).
Proof.
  intros Hi. unfold MapService.quad_digit. cbv zeta.
  rewrite !land_pow2 by lia. rewrite !negb_involutive.
  destruct (Z.testbit x (i - 1)), (Z.testbit y (i - 1)); reflexivity.
Qed.

Lemma quad_digit_child (x y a b i : Z) :
  1 <= i -> 0 <= a <= 1 -> 0 <= b <= 1 ->
  MapService.quad_digit (2 * x + a) (2 * y + b) (i + 1) = MapService.quad_digit x y i.
Proof.
  intros Hi Ha Hb. rewrite !quad_digit_bits by lia.
  replace (i + 1 - 1) with (Z.succ (i - 1)) by lia.
  assert (Hbit : forall v c, 0 <= c <= 1 ->
            Z.testbit (2 * v + c) (Z.succ (i - 1)) = Z.testbit v (i - 1)).
  { intros v c Hc. assert (c = 0 \/ c = 1) as [-> | ->] by lia.
    - rewrite Z.add_0_r. apply Z.testbit_even_succ. lia.
    - apply Z.testbit_odd_succ. lia. }
  rewrite !Hbit by assumption. reflexivity.
Qed.

Lemma quad_digit_low (x y a b : Z) :
  0 <= a <= 1 -> 0 <= b <= 1 ->
  MapService.quad_digit (2 * x + a) (2 * y + b) 1 = a + 2 * b.
Proof.
  intros Ha Hb. rewrite quad_digit_bits by lia. cbn [Z.sub Z.add Z.opp Z.pos_sub].
  assert (Hbit : forall v c, 0 <= c <= 1 -> Z.b2z (Z.testbit (2 * v + c) 0) = c).
  { intros v c Hc. assert (c = 0 \/ c = 1) as [-> | ->] by lia.
    - rewrite Z.add_0_r, Z.testbit_even_0. reflexivity.
    - rewrite Z.testbit_odd_0. reflexivity. }
  rewrite !Hbit by assumption. reflexivity.
Qed.

Lemma fold_quadkey_app (f : Z -> string) (l1 l2 : list Z) (s : string) :
  fold_left (fun quadKey i => quadKey +:+ f i) (l1 ++ l2) s =
  fold_left (fun quadKey i => quadKey +:+ f i) l2
            (fold_left (fun quadKey i => quadKey +:+ f i) l1 s).
Proof. apply fold_left_app. Qed.

Lemma fold_quadkey_ext (f g : Z -> string) (l : list Z) (s : string) :
  Forall (fun i => f i = g i) l ->
  fold_left (fun quadKey i => quadKey +:+ f i) l s =
  fold_left (fun quadKey i => quadKey +:+ g i) l s.
Proof.
  intros H. revert s. induction H as [| i l Hi _ IH]; intros s; [reflexivity |].
  cbn [fold_left]. rewrite Hi. apply IH.
Qed.

Lemma fold_quadkey_map (f : Z -> string) (g : Z -> Z) (l : list Z) (s : string) :
  fold_left (fun quadKey i => quadKey +:+ f i) (map g l) s =
  fold_left (fun quadKey i => quadKey +:+ f (g i)) l s.
Proof. revert s. induction l as [| i l IH]; intros s; [reflexivity | apply IH]. Qed.

Lemma range_down_bounds (z : Z) : Forall (fun i => 1 <= i <= z) (MapService.range_down z).
Proof.
  unfold MapService.range_down. apply List.Forall_forall. intros i Hin.
  apply in_map_iff in Hin. destruct Hin as (k & <- & Hk).
  apply in_seq in Hk. lia.
Qed.

Lemma getQuadKey_step (x y z : Z) :
  0 <= z ->
  MapService.getQuadKey x y (z + 1) =
  MapService.getQuadKey (x / 2) (y / 2) z +:+ pretty (x mod 2 + 2 * (y mod 2)).
Proof.
  intros Hz.
  pose proof (Z.mod_pos_bound x 2 ltac:(lia)) as Ha.
  pose proof (Z.mod_pos_bound y 2 ltac:(lia)) as Hb.
  pose proof (Z.div_mod x 2 ltac:(lia)) as Hx.
  pose proof (Z.div_mod y 2 ltac:(lia)) as Hy.
  set (a := x mod 2) in *. set (b := y mod 2) in *.
  set (x2 := x / 2) in *. set (y2 := y / 2) in *.
  rewrite Hx, Hy. clearbody a b x2 y2. clear Hx Hy.
  unfold MapService.getQuadKey.
  rewrite (range_down_last z Hz), fold_left_app. cbn [fold_left].
  rewrite (quad_digit_low x2 y2 a b) by lia. f_equal.
  rewrite fold_quadkey_map.
  apply (fold_quadkey_ext
           (fun i => pretty (MapService.quad_digit (2 * x2 + a) (2 * y2 + b) (i + 1)))
           (fun i => pretty (MapService.quad_digit x2 y2 i))).
  eapply List.Forall_impl; [| apply range_down_bounds].
  cbn beta. intros i Hi. rewrite quad_digit_child by lia. reflexivity.
Qed.

(** X19. The quadkey of a tile is a prefix of the quadkeys of its four
    children: the child [(2x + a, 2y + b)] of the next level has the quadkey
    of [(x, y)] followed by the digit [a + 2b]. *)
Theorem getQuadKey_child (x y z a b : Z) :
  0 <= z -> 0 <= a <= 1 -> 0 <= b <= 1 ->
  MapService.getQuadKey (2 * x + a) (2 * y + b) (z + 1)
  = MapService.getQuadKey x y z +:+ pretty (a + 2 * b).
Proof.
  intros Hz Ha Hb. rewrite (getQuadKey_step _ _ z Hz).
  assert (Hdiv : forall u c, 0 <= c <= 1 -> (2 * u + c) / 2 = u /\ (2 * u + c) mod 2 = c).
  { intros u c Hc. split.
    - symmetry. apply (Z.div_unique (2 * u + c) 2 u c); lia.
    - symmetry. apply (Z.mod_unique (2 * u + c) 2 u c); lia. }
  destruct (Hdiv x a Ha) as [-> ->]. destruct (Hdiv y b Hb) as [-> ->].
  reflexivity.
Qed.


Lemma getQuadKey_nonpositive (x y z : Z) : z <= 0 -> MapService.getQuadKey x y z = "".
Proof.
  intros Hz. unfold MapService.getQuadKey, MapService.range_down.
  replace (Z.to_nat z) with 0%nat by lia. reflexivity.
Qed.

Lemma quad_digit_char (a b : Z) :
  0 <= a <= 1 -> 0 <= b <= 1 ->
  exists c, pretty (a + 2 * b) = String c EmptyString /\ quad_bits c = (a, b) /\
            In c ["0"; "1"; "2"; "3"]%char.
Proof.
  intros Ha Hb.
  assert (a = 0 \/ a = 1) as [-> | ->] by lia;
    assert (b = 0 \/ b = 1) as [-> | ->] by lia;
    eexists; (split; [vm_compute; reflexivity |]); (split; [reflexivity |]);
    cbn; tauto.
Qed.

Lemma append_cons (c : ascii) (s1 s2 : string) :
  String c s1 +:+ s2 = String c (s1 +:+ s2).
Proof. reflexivity. Qed.

Lemma string_app_length (s1 s2 : string) :
  String.length (s1 +:+ s2) = (String.length s1 + String.length s2)%nat.
Proof.
  induction s1 as [| c s1 IH]; [reflexivity |].
  rewrite append_cons. cbn. f_equal. exact IH.
Qed.

Lemma list_ascii_app (s1 s2 : string) :
  list_ascii_of_string (s1 +:+ s2) = list_ascii_of_string s1 ++ list_ascii_of_string s2.
Proof.
  induction s1 as [| c s1 IH]; [reflexivity |].
  rewrite append_cons. cbn. f_equal. exact IH.
Qed.

Lemma quad_decode_app (s1 s2 : string) (acc : Z * Z) :
  quad_decode (s1 +:+ s2) acc = quad_decode s2 (quad_decode s1 acc).
Proof.
  revert acc. induction s1 as [| c s1 IH]; intros acc; [reflexivity |].
  rewrite append_cons. apply IH.
Qed.

(** X18. The quadkey of a tile of level [z] has [z] characters, each one of
    "0", "1", "2", "3"; for a level that is not positive it is empty. *)
Theorem getQuadKey_length (x y z : Z) :
  String.length (MapService.getQuadKey x y z) = Z.to_nat z /\
  Forall (fun c => In c ["0"; "1"; "2"; "3"]%char)
         (list_ascii_of_string (MapService.getQuadKey x y z)).
Proof.
  destruct (Z.le_gt_cases z 0) as [Hz | Hz].
  { rewrite (getQuadKey_nonpositive x y z Hz).
    replace (Z.to_nat z) with 0%nat by lia. split; [reflexivity | constructor]. }
  assert (H : forall n x y,
             String.length (MapService.getQuadKey x y (Z.of_nat n)) = n /\
             Forall (fun c => In c ["0"; "1"; "2"; "3"]%char)
                    (list_ascii_of_string (MapService.getQuadKey x y (Z.of_nat n)))).
  { clear. induction n as [| n IH]; intros x y.
    - split; [reflexivity | constructor].
    - replace (Z.of_nat (S n)) with (Z.of_nat n + 1) by lia.
      rewrite getQuadKey_step by lia.
      destruct (quad_digit_char (x mod 2) (y mod 2)) as (c & -> & _ & Hc).
      { pose proof (Z.mod_pos_bound x 2). lia. }
      { pose proof (Z.mod_pos_bound y 2). lia. }
      destruct (IH (x / 2) (y / 2)) as [Hlen Hall].
      rewrite string_app_length, list_ascii_app, Hlen. split; [cbn; lia |].
      apply Forall_app. split; [exact Hall |]. constructor; [exact Hc | constructor]. }
  replace z with (Z.of_nat (Z.to_nat z)) at 1 3 by lia. apply H.
Qed.

Lemma quad_decode_getQuadKey (n : nat) (x y : Z) :
  quad_decode (MapService.getQuadKey x y (Z.of_nat n)) (0, 0) =
  (x mod 2 ^ Z.of_nat n, y mod 2 ^ Z.of_nat n).
Proof.
  revert x y. induction n as [| n IH]; intros x y.
  - cbn. rewrite !Z.mod_1_r. reflexivity.
  - replace (Z.of_nat (S n)) with (Z.of_nat n + 1) by lia.
    rewrite getQuadKey_step by lia.
    destruct (quad_digit_char (x mod 2) (y mod 2)) as (c & -> & Hbits & _).
    { pose proof (Z.mod_pos_bound x 2). lia. }
    { pose proof (Z.mod_pos_bound y 2). lia. }
    rewrite quad_decode_app, IH. cbn [quad_decode fst snd]. rewrite Hbits. cbn [fst snd].
    rewrite Z.pow_add_r, Z.pow_1_r by lia.
    rewrite (Z.mul_comm (2 ^ Z.of_nat n) 2).
    rewrite !Z.rem_mul_r by lia.
    f_equal; lia.
Qed.

(** X20. [getQuadKey] reads the [z] low bits of the column and of the row
    and nothing else: a tile outside the [2^z] by [2^z] tiles of its level
    gets the quadkey of the tile inside that it is congruent to, and two
    tiles inside the level with the same quadkey are the same tile. *)
Theorem getQuadKey_injective (x y x' y' z : Z) :
  0 <= z ->
  MapService.getQuadKey x y z = MapService.getQuadKey (x mod 2 ^ z) (y mod 2 ^ z) z /\
  (0 <= x < 2 ^ z -> 0 <= y < 2 ^ z -> 0 <= x' < 2 ^ z -> 0 <= y' < 2 ^ z ->
   MapService.getQuadKey x y z = MapService.getQuadKey x' y' z -> x = x' /\ y = y').
Proof.
  intros Hz. split.
  - unfold MapService.getQuadKey.
    apply (fold_quadkey_ext (fun i => pretty (MapService.quad_digit x y i))
             (fun i => pretty (MapService.quad_digit (x mod 2 ^ z) (y mod 2 ^ z) i))).
    eapply List.Forall_impl; [| apply range_down_bounds].
    cbn beta. intros i Hi. rewrite !quad_digit_bits by lia.
    rewrite !Z.mod_pow2_bits_low by lia. reflexivity.
  - intros Hx Hy Hx' Hy' E.
    pose proof (quad_decode_getQuadKey (Z.to_nat z) x y) as H1.
    pose proof (quad_decode_getQuadKey (Z.to_nat z) x' y') as H2.
    rewrite Z2Nat.id in H1, H2 by exact Hz.
    rewrite E, H2 in H1.
    rewrite !Z.mod_small in H1 by assumption.
    injection H1 as -> ->. split; reflexivity.
Qed.

Lemma getQuadKey_injective_witness :
  MapService.getQuadKey 5 2 2 = MapService.getQuadKey 1 2 2 /\ MapService.getQuadKey 3 5 3 = "213"%string.
Proof.
  split.
  - apply (proj1 (getQuadKey_injective 5 2 0 0 2 ltac:(lia))).
  - reflexivity.
Defined.

Lemma getQuadKey_child_witness :
  MapService.getQuadKey 3 5 3 = MapService.getQuadKey 1 2 2 +:+ "3".
Proof. apply (getQuadKey_child 1 2 2 1 1); lia. Defined.

(** * The map service *)

(** X21. [getCache] builds the store of a layer and grid once: after a call
    that returned, the same call returns the same store object and touches
    neither the files nor the clock nor the trace. *)
Theorem getCache_memoised (env : Env) (self : MapService.t) (laykey : string)
    (useDstGrid : bool) (g : geopackage) (s s1 : state) :
  MapService.getCache env self laykey useDstGrid s = (Ok g, s1) ->
  MapService.getCache env self laykey useDstGrid s1 = (Ok g, s1).
Proof.
  unfold MapService.getCache. intros H.
  destruct (MapService.select_grid self useDstGrid s) as [[[grdkey tm] | e] s0] eqn:Hsel.
  2: { erewrite bind_Raise in H by exact Hsel. discriminate. }
  assert (Hs0 : s0 = s).
  { unfold MapService.select_grid in Hsel. destruct useDstGrid.
    - destruct (MapService.dst self) as [[k t] |]; inversion Hsel; reflexivity.
    - inversion Hsel; reflexivity. }
  subst s0.
  assert (Hsel1 : MapService.select_grid self useDstGrid s1 = (Ok (grdkey, tm), s1)).
  { unfold MapService.select_grid in *. destruct useDstGrid.
    - destruct (MapService.dst self) as [[k t] |]; inversion Hsel; reflexivity.
    - inversion Hsel; reflexivity. }
  erewrite bind_Ok in H by exact Hsel. cbv beta iota in H.
  erewrite bind_Ok by exact Hsel1. cbv beta iota.
  set (mapKey := MapService.srckey self +:+ "_" +:+ laykey +:+ "_" +:+ grdkey) in *.
  erewrite bind_Ok in H by apply get_state_spec.
  erewrite bind_Ok by apply get_state_spec.
  destruct (caches s !! mapKey) as [cache |] eqn:Hc.
  - injection H as -> ->. rewrite Hc. reflexivity.
  - destruct (GeoPackage.init env (MapService.cacheFolder self +:+ mapKey +:+ ".gpkg") tm s)
      as [[g0 | e] s2] eqn:Hinit.
    2: { erewrite bind_Raise in H by exact Hinit. discriminate. }
    erewrite bind_Ok in H by exact Hinit.
    erewrite bind_Ok in H by reflexivity.
    injection H as -> <-.
    cbn [caches set_caches]. rewrite lookup_insert_eq. reflexivity.
Qed.

Lemma getCache_memoised_witness :
  MapService.getCache (env0 true) svc_src "osm" false
    (MapService.getCache (env0 true) svc_src "osm" false state0).2
  = (Ok osm_store, (MapService.getCache (env0 true) svc_src "osm" false state0).2).
Proof.
  apply (getCache_memoised (env0 true) svc_src "osm" false osm_store state0).
  vm_compute. reflexivity.
Defined.



Lemma downloading_not_running env (self : MapService.t) rec laykey toDstGrid cpt
    (alive : nat) (queue : list (Z * Z * Z)) (tilesData : list MapService.tile_data)
    (s : state) :
  running s = false ->
  MapService.downloading env self rec laykey toDstGrid cpt alive queue tilesData s
  = (Ok tilesData, s).
Proof.
  intros Hrun. destruct queue as [| [[col row] zoom_] rest]; [reflexivity |].
  destruct alive as [| alive]; [reflexivity |].
  cbn [MapService.downloading]. rewrite Hrun. reflexivity.
Qed.

Lemma getTiles_not_running env (self : MapService.t) rec laykey
    (tiles : list (Z * Z * Z)) (tilesData : list MapService.tile_data)
    (toDstGrid : bool) (nbThread : nat) (cpt : bool) (s : state) :
  running s = false ->
  exists s',
    MapService.getTiles env self rec laykey tiles tilesData toDstGrid false nbThread cpt s
    = (Ok tilesData, s') /\ same_outside s s'.
Proof.
  intros Hrun. unfold MapService.getTiles.
  set (s0 := if cpt
             then set_cptTiles 0 (set_nbTiles (Z.of_nat (length tiles)) s)
             else s).
  assert (Hrun0 : running s0 = false) by (subst s0; destruct cpt; exact Hrun).
  assert (Hsame0 : same_outside s s0) by (subst s0; destruct cpt; repeat split).
  assert (Hpre : (if cpt
                  then modify (fun s =>
                         set_cptTiles 0 (set_nbTiles (Z.of_nat (length tiles)) s))
                  else mret tt) s = (Ok tt, s0)).
  { subst s0. destruct cpt; reflexivity. }
  erewrite bind_Ok by exact Hpre.
  erewrite bind_Ok by reflexivity. cbv beta iota.
  exists (if cpt then set_cptTiles 0 (set_nbTiles 0 s0) else s0).
  split.
  - destruct tiles as [| t rest].
    + erewrite bind_Ok by reflexivity. destruct cpt; reflexivity.
    + erewrite bind_Ok
        by (erewrite bind_Ok by (apply downloading_not_running; exact Hrun0);
            erewrite bind_Ok by reflexivity; reflexivity).
      destruct cpt; reflexivity.
  - destruct cpt; [| exact Hsame0].
    destruct Hsame0 as (? & ? & ? & ? & ?). repeat split; assumption.
Qed.

(** X23. While [running] is off (as [__init__] leaves it) a mosaic request
    that bypasses the cache returns [None], asks the map service for nothing
    and writes nothing: the workers stop before their first job, and only the
    progress counters may change. *)
Theorem getImage_not_running (env : Env) (self : MapService.t) (laykey : string)
    (bbox : Q * Q * Q * Q) (zoom_ : Z) (toDstGrid : bool) (nbThread : nat)
    (cpt : bool) (outCRS : option string) (allowEmptyTile : bool)
    (tm : TileMatrix.t) (res : Q) (s : state) :
  MapService.grid_of self toDstGrid = Some tm ->
  TileMatrix.getRes tm zoom_ = Ok res ->
  ~ (inject_Z (TileMatrix.tileSize tm) * res == 0)%Q ->
  outCRS = None \/ outCRS = Some (TileMatrix.CRS tm) ->
  running s = false ->
  exists s',
    MapService_getImage env self laykey bbox zoom_ toDstGrid false nbThread cpt
      outCRS allowEmptyTile s = (Ok None, s') /\
    same_outside s s'.
Proof.
  intros Hg Hres Hnz Hout Hrun.
  destruct bbox as [[[xmin ymin] xmax] ymax].
  destruct (select_grid_grid_of self toDstGrid tm s Hg) as [grdkey Hsel].
  unfold MapService_getImage.
  change (MapService.getImage_at env self 2)
    with (MapService.getImage env self (MapService.getImage_at env self 1)).
  unfold MapService.getImage, MapService.getImage_from.
  erewrite bind_Ok by exact Hsel. cbv beta iota.
  erewrite bind_Ok by (rewrite Hres; apply lift_spec).
  rewrite (getTileNumber_unfold tm xmin ymax zoom_ res Hres Hnz).
  erewrite bind_Ok by apply lift_spec. cbv beta iota.
  rewrite (getTileCoords_unfold tm _ _ zoom_ res Hres).
  erewrite bind_Ok by apply lift_spec. cbv beta iota.
  rewrite !(py_div_defined _ _ Hnz).
  erewrite bind_Ok by apply lift_spec.
  erewrite bind_Ok by apply lift_spec.
  match goal with
  | |- context [MapService.getTiles env self ?rec laykey ?tiles [] toDstGrid false nbThread cpt] =>
      destruct (getTiles_not_running env self rec laykey tiles [] toDstGrid nbThread cpt s Hrun)
        as (s' & Hget & Hsame)
  end.
  exists s'. split; [| exact Hsame].
  erewrite bind_Ok by exact Hget.
  erewrite bind_Ok by reflexivity. cbv beta iota.
  assert (Hrun' : running s' = false)
    by (destruct Hsame as (_ & _ & _ & Hr & _); congruence).
  destruct Hout as [-> | ->].
  - erewrite bind_Ok by reflexivity.
    erewrite bind_Ok by apply get_state_spec. rewrite Hrun'. reflexivity.
  - rewrite String.eqb_refl. cbn [negb].
    erewrite bind_Ok by reflexivity.
    erewrite bind_Ok by apply get_state_spec. rewrite Hrun'. reflexivity.
Qed.


Lemma getImage_not_running_witness :
  exists s',
    MapService_getImage (env0 true) svc_src "osm" four_tile_box 1 false false
      10%nat true None true state_idle = (Ok None, s') /\
    same_outside state_idle s'.
Proof.
  apply (getImage_not_running (env0 true) svc_src "osm" four_tile_box 1 false
           10%nat true None true grid421 2 state_idle).
  - reflexivity.
  - reflexivity.
  - vm_compute. discriminate.
  - left. reflexivity.
  - reflexivity.
Defined.

Lemma getImage_source_grid_missing_tile_witness :
  (MapService_getImage_from (env0 true) svc_src grid421 2 0 0 0 1024 2 2 "osm" 1
     false false 1%nat true None false state0).1 = Ok None
  /\
  exists pastes,
    (MapService_getImage_from (env0 true) svc_src grid421 2 0 0 0 1024 2 2 "osm" 1
       false false 1%nat true None true state0).1 =
    Ok (Some {| GeoImage.img := Mosaic (2 * 256) (2 * 256) pastes;
                GeoImage.ul := (0%Q, 1024%Q); GeoImage.res := 2 |})
    /\ In (Flat 256 256 "lightgrey", (256, 256)) pastes.
Proof.
  destruct (getImage_source_grid_missing_tile (env0 true) svc_src "osm"
              1 true 2 0 0 0 1024 2 2
              (source_tile_data (env0 true) svc_src "osm") state0)
    as (Hnone & pastes & Hsome & Hslots).
  - lia.
  - lia.
  - intros col row s0 Hrun.
    destruct (getTile_source_no_cache (env0 true) svc_src
                (MapService.getImage_at (env0 true) svc_src 1) "osm" col row 1 2 s0)
      as (s1 & Hget & Hsame).
    + reflexivity.
    + eexists. reflexivity.
    + exists s1. split; [exact Hget | congruence].
  - reflexivity.
  - apply List.Exists_exists. exists (1, 1, 1, None). split; [| reflexivity].
    vm_compute. tauto.
  - split; [exact Hnone |].
    exists pastes. split; [exact Hsome |].
    apply (Hslots (1, 1, 1, None)). vm_compute. tauto.
Defined.

(** * geoscene/proj.py: class CRS *)

(** The three forms of input, and some that are refused. *)
Example crs_examples :
  CRS.init (CRS.Code 4326)
  = Ok {| CRS.auth := Some "EPSG"%string; CRS.code := Some 4326;
          CRS.proj4 := "+init=epsg:4326" |} /\
  CRS.init (CRS.Text "+init=epsg:3857")
  = Ok {| CRS.auth := Some "EPSG"%string; CRS.code := Some 3857;
          CRS.proj4 := "+init=epsg:3857" |} /\
  CRS.init (CRS.Text "IGNF:LAMB93") = Raise ValueError /\
  CRS.init (CRS.Text "+proj=longlat +datum=WGS84")
  = Ok {| CRS.auth := None; CRS.code := None;
          CRS.proj4 := "+proj=longlat +datum=WGS84" |} /\
  CRS.init (CRS.Text "a:1:2") = Raise ValueError /\
  CRS.init (CRS.Code (-5)) = Raise ValueError /\
  CRS.init (CRS.Text "") = Raise ValueError.
Proof. repeat split. Qed.

(** * Decimal text *)



Lemma append_assoc (s1 s2 s3 : string) : (s1 +:+ s2) +:+ s3 = s1 +:+ (s2 +:+ s3).
Proof.
  induction s1 as [| c s1 IH]; [reflexivity |].
  rewrite !append_cons. f_equal. exact IH.
Qed.

Lemma append_nil_r (s : string) : s +:+ EmptyString = s.
Proof.
  induction s as [| c s IH]; [reflexivity |].
  rewrite append_cons. f_equal. exact IH.
Qed.



Lemma all_chars_app (p : ascii -> bool) (s1 s2 : string) :
  PyStr.all_chars p (s1 +:+ s2) = PyStr.all_chars p s1 && PyStr.all_chars p s2.
Proof.
  induction s1 as [| c s1 IH]; [reflexivity |].
  change (String c s1 +:+ s2) with (String c (s1 +:+ s2)). cbn.
  rewrite IH. apply andb_assoc.
Qed.

Lemma int_from_app (s1 s2 : string) (a : Z) :
  PyStr.int_from a (s1 +:+ s2) = PyStr.int_from (PyStr.int_from a s1) s2.
Proof.
  revert a. induction s1 as [| c s1 IH]; intros a; [reflexivity |].
  change (String c s1 +:+ s2) with (String c (s1 +:+ s2)). cbn. apply IH.
Qed.

Lemma pretty_N_char_digit (d : N) :
  (d < 10)%N ->
  PyStr.is_digit (pretty_N_char d) = true /\ PyStr.digit_value (pretty_N_char d) = Z.of_N d.
Proof.
  intros Hd.
  assert (d = 0 \/ d = 1 \/ d = 2 \/ d = 3 \/ d = 4 \/ d = 5 \/ d = 6 \/ d = 7
          \/ d = 8 \/ d = 9)%N as H by lia.
  repeat (destruct H as [-> | H]); [.. | subst d]; split; reflexivity.
Qed.

(** The digits that [pretty_N_go x] writes in front of [s]. *)
Lemma pretty_N_go_digits (x : N) :
  exists ds : string,
    (forall s, pretty_N_go x s = ds +:+ s) /\
    PyStr.all_chars PyStr.is_digit ds = true /\
    (forall a, PyStr.int_from a ds = a * 10 ^ Z.of_nat (String.length ds) + Z.of_N x) /\
    ((0 < x)%N -> ds <> EmptyString).
Proof.
  induction x as [x IH] using (well_founded_induction N.lt_wf_0).
  destruct (N.eq_dec x 0%N) as [-> | Hx].
  - exists EmptyString. split; [| split; [| split]].
    + intros s. apply pretty_N_go_0.
    + reflexivity.
    + intros a. cbn. lia.
    + lia.
  - assert (Hpos : (0 < x)%N) by lia.
    destruct (IH (x `div` 10)%N) as (ds & Hgo & Hall & Hval & _).
    { apply N.div_lt; lia. }
    destruct (pretty_N_char_digit (x `mod` 10)%N) as [Hdig Hv].
    { apply N.mod_lt. lia. }
    exists (ds +:+ String (pretty_N_char (x `mod` 10)) EmptyString).
    split; [| split; [| split]].
    + intros s. rewrite (pretty_N_go_step x s Hpos), Hgo.
      rewrite append_assoc. reflexivity.
    + rewrite all_chars_app, Hall. cbn. rewrite Hdig. reflexivity.
    + intros a. rewrite int_from_app, Hval. cbn [PyStr.int_from]. rewrite Hv.
      rewrite string_app_length. cbn [String.length].
      rewrite Nat2Z.inj_add, Z.pow_add_r by lia. change (10 ^ Z.of_nat 1) with 10.
      rewrite (N.div_mod x 10) at 3 by lia. rewrite N2Z.inj_add, N2Z.inj_mul.
      change (Z.of_N 10) with 10. lia.
    + intros _ E. destruct ds; discriminate E.
Qed.

(** [str(n)] of an integer that is not negative is a string of digits, and
    [int] reads it back. *)
Lemma pretty_nonnegative (n : Z) :
  0 <= n ->
  PyStr.isdigit (pretty n) = true /\ PyStr.int_of_digits (pretty n) = n /\
  PyStr.all_chars PyStr.is_digit (pretty n) = true.
Proof.
  intros Hn. destruct n as [| p | p]; [repeat split | | lia].
  change (pretty (Z.pos p)) with (pretty_N_go (N.pos p) EmptyString).
  destruct (pretty_N_go_digits (N.pos p)) as (ds & Hgo & Hall & Hval & Hne).
  rewrite Hgo, append_nil_r.
  assert (Hds : ds <> EmptyString) by (apply Hne; lia).
  split; [| split].
  - unfold PyStr.isdigit. destruct ds; [contradiction | exact Hall].
  - unfold PyStr.int_of_digits. rewrite Hval. cbn. lia.
  - exact Hall.
Qed.

(** * Text operations *)

Lemma contains_app (c : ascii) (s1 s2 : string) :
  PyStr.contains c (s1 +:+ s2) = PyStr.contains c s1 || PyStr.contains c s2.
Proof.
  induction s1 as [| c1 s1 IH]; [reflexivity |].
  rewrite append_cons. cbn. rewrite IH. apply orb_assoc.
Qed.

Lemma split_on_nonempty (sep : ascii) (s : string) : PyStr.split_on sep s <> [].
Proof.
  destruct s as [| c s]; cbn; [discriminate |].
  destruct (Ascii.eqb c sep); [discriminate |].
  destruct (PyStr.split_on sep s); discriminate.
Qed.

Lemma split_on_no_sep (sep : ascii) (s : string) :
  PyStr.contains sep s = false -> PyStr.split_on sep s = [s].
Proof.
  induction s as [| c s IH]; [reflexivity |].
  cbn. intros H. apply orb_false_iff in H. destruct H as [Hc Hs].
  rewrite Hc, (IH Hs). reflexivity.
Qed.

Lemma split_on_app (sep : ascii) (a b : string) :
  PyStr.contains sep a = false ->
  PyStr.split_on sep (a +:+ String sep b) = a :: PyStr.split_on sep b.
Proof.
  induction a as [| c a IH]; intros H.
  - change (PyStr.split_on sep (String sep b) = EmptyString :: PyStr.split_on sep b).
    cbn. rewrite Ascii.eqb_refl. reflexivity.
  - cbn in H. apply orb_false_iff in H. destruct H as [Hc Ha].
    rewrite append_cons. cbn. rewrite Hc, (IH Ha). reflexivity.
Qed.

Lemma split_on_parts (sep : ascii) (s : string) :
  Forall (fun p => PyStr.contains sep p = false /\
                   forall c, PyStr.contains c p = true -> PyStr.contains c s = true)
         (PyStr.split_on sep s).
Proof.
  induction s as [| c s IH]; [repeat constructor; auto |].
  cbn. destruct (Ascii.eqb c sep) eqn:Hc.
  - constructor; [split; [reflexivity | discriminate] |].
    eapply List.Forall_impl; [| exact IH].
    cbn beta. intros p [Hp Hsub]. split; [exact Hp |].
    intros c' Hc'. rewrite (Hsub c' Hc'). apply orb_true_r.
  - destruct (PyStr.split_on sep s) as [| p ps] eqn:Hsplit;
      [exfalso; exact (split_on_nonempty sep s Hsplit) |].
    apply Forall_cons_1 in IH. destruct IH as [[Hp Hsub] Hps].
    constructor.
    + split; [cbn; rewrite Hc, Hp; reflexivity |].
      intros c'. cbn. intros H. apply orb_true_iff in H. destruct H as [H | H].
      * rewrite H. reflexivity.
      * rewrite (Hsub c' H). apply orb_true_r.
    + eapply List.Forall_impl; [| exact Hps].
      cbn beta. intros q [Hq Hsubq]. split; [exact Hq |].
      intros c' Hc'. rewrite (Hsubq c' Hc'). apply orb_true_r.
Qed.

Lemma all_chars_contains (p : ascii -> bool) (c : ascii) (s : string) :
  PyStr.all_chars p s = true -> p c = false -> PyStr.contains c s = false.
Proof.
  intros Hall Hc. induction s as [| c' s IH]; [reflexivity |].
  cbn in *. apply andb_true_iff in Hall. destruct Hall as [Hc' Hs].
  rewrite (IH Hs), orb_false_r.
  destruct (Ascii.eqb_spec c' c) as [-> | _]; [congruence | reflexivity].
Qed.

Lemma contains_not_all (p : ascii -> bool) (c : ascii) (s : string) :
  PyStr.contains c s = true -> p c = false -> PyStr.all_chars p s = false.
Proof.
  intros Hin Hc. destruct (PyStr.all_chars p s) eqn:Hall; [| reflexivity].
  rewrite (all_chars_contains p c s Hall Hc) in Hin. discriminate.
Qed.

Lemma isdigit_all (s : string) : PyStr.isdigit s = true -> PyStr.all_chars PyStr.is_digit s = true.
Proof. destruct s; [discriminate | auto]. Qed.

Lemma not_isdigit (c : ascii) (s : string) :
  PyStr.contains c s = true -> PyStr.is_digit c = false -> PyStr.isdigit s = false.
Proof.
  intros Hin Hc. destruct (PyStr.isdigit s) eqn:E; [| reflexivity].
  apply isdigit_all in E.
  rewrite (contains_not_all PyStr.is_digit c s Hin Hc) in E. discriminate.
Qed.

Lemma int_from_nonneg (s : string) (a : Z) :
  PyStr.all_chars PyStr.is_digit s = true -> 0 <= a -> 0 <= PyStr.int_from a s.
Proof.
  revert a. induction s as [| c s IH]; intros a Hall Ha; [exact Ha |].
  cbn in *. apply andb_true_iff in Hall. destruct Hall as [Hc Hs].
  apply IH; [exact Hs |].
  unfold PyStr.is_digit in Hc. unfold PyStr.digit_value.
  apply andb_true_iff in Hc. destruct Hc as [H1 H2].
  apply Nat.leb_le in H1. lia.
Qed.

Lemma upper_char_idem (c : ascii) : PyStr.upper_char (PyStr.upper_char c) = PyStr.upper_char c.
Proof. destruct c as [[] [] [] [] [] [] [] []]; reflexivity. Qed.

Lemma upper_char_colon (c : ascii) : Ascii.eqb (PyStr.upper_char c) ":" = Ascii.eqb c ":".
Proof. destruct c as [[] [] [] [] [] [] [] []]; reflexivity. Qed.

Lemma upper_char_not_i (c : ascii) : Ascii.eqb (PyStr.upper_char c) "i" = false.
Proof. destruct c as [[] [] [] [] [] [] [] []]; reflexivity. Qed.

Lemma upper_idem (s : string) : PyStr.upper (PyStr.upper s) = PyStr.upper s.
Proof.
  induction s as [| c s IH]; [reflexivity |].
  cbn. rewrite upper_char_idem. f_equal. exact IH.
Qed.

Lemma contains_colon_upper (s : string) : PyStr.contains ":" (PyStr.upper s) = PyStr.contains ":" s.
Proof.
  induction s as [| c s IH]; [reflexivity |].
  cbn. rewrite upper_char_colon. f_equal. exact IH.
Qed.

Lemma prefix_cons (a b : ascii) (s1 s2 : string) :
  String.prefix (String a s1) (String b s2) =
  if ascii_dec a b then String.prefix s1 s2 else false.
Proof. reflexivity. Qed.

Lemma prefix_init_upper (s : string) : String.prefix "+init=" (PyStr.upper s) = false.
Proof.
  destruct s as [| c1 [| c2 s]]; [reflexivity | |].
  - change (PyStr.upper (String c1 EmptyString)) with (String (PyStr.upper_char c1) EmptyString).
    rewrite prefix_cons. destruct (ascii_dec "+" (PyStr.upper_char c1)); reflexivity.
  - change (PyStr.upper (String c1 (String c2 s)))
      with (String (PyStr.upper_char c1) (String (PyStr.upper_char c2) (PyStr.upper s))).
    rewrite prefix_cons. destruct (ascii_dec "+" (PyStr.upper_char c1)); [| reflexivity].
    rewrite prefix_cons.
    destruct (ascii_dec "i" (PyStr.upper_char c2)) as [E | _]; [| reflexivity].
    pose proof (upper_char_not_i c2) as H. rewrite <- E in H. discriminate.
Qed.

(** * class CRS *)



Lemma init_srid_text (a d : string) :
  PyStr.contains ":" a = false ->
  PyStr.isdigit d = true ->
  String.prefix "+init=" a = false ->
  CRS.init (CRS.Text (a +:+ ":" +:+ d)) =
  Ok {| CRS.auth := Some (PyStr.upper a); CRS.code := Some (PyStr.int_of_digits d);
        CRS.proj4 := "+init=" +:+ PyStr.lower (PyStr.upper a) +:+ ":" +:+ pretty (PyStr.int_of_digits d) |}.
Proof.
  intros Ha Hd Hp.
  assert (Hdc : PyStr.contains ":" d = false).
  { apply (all_chars_contains PyStr.is_digit); [apply isdigit_all; exact Hd | reflexivity]. }
  assert (Hin : PyStr.contains ":" (a +:+ ":" +:+ d) = true).
  { rewrite contains_app. change (":" +:+ d) with (String ":" d). cbn.
    apply orb_true_r. }
  unfold CRS.init. cbn [CRS.str].
  rewrite (not_isdigit ":" _ Hin eq_refl), Hin.
  change (":" +:+ d) with (String ":" d).
  rewrite (split_on_app ":" a d Ha), (split_on_no_sep ":" d Hdc).
  cbn [unpack2]. cbn [mbind result_mbind result_bind].
  rewrite Hd, Hp. reflexivity.
Qed.

(** X25. [CRS(n)] for an integer code [n] that is not negative is the EPSG
    reference of that code, with the proj4 text "+init=epsg:n"; a negative
    integer raises ValueError. *)
Theorem CRS_of_code (n : Z) :
  (0 <= n ->
   CRS.init (CRS.Code n) =
   Ok {| CRS.auth := Some "EPSG"%string; CRS.code := Some n;
         CRS.proj4 := "+init=epsg:" +:+ pretty n |})
  /\
  (n < 0 -> CRS.init (CRS.Code n) = Raise ValueError).
Proof.
  split; intros Hn.
  - destruct (pretty_nonnegative n Hn) as (Hd & Hv & _).
    unfold CRS.init. cbn [CRS.str]. rewrite Hd, Hv. reflexivity.
  - destruct n as [| p | p]; [lia | lia |].
    destruct (pretty_N_go_digits (N.pos p)) as (ds & Hgo & Hall & _ & _).
    assert (Hs : pretty (Z.neg p) = String "-" ds).
    { change (pretty (Z.neg p)) with ("-" +:+ pretty_N_go (N.pos p) EmptyString).
      rewrite Hgo, append_nil_r. reflexivity. }
    unfold CRS.init. cbn [CRS.str]. rewrite Hs.
    assert (Hc : forall c, PyStr.is_digit c = false -> Ascii.eqb "-" c = false ->
                           PyStr.contains c (String "-" ds) = false).
    { intros c Hc1 Hc2.
      change (PyStr.contains c (String "-" ds)) with (Ascii.eqb "-" c || PyStr.contains c ds).
      rewrite Hc2. apply (all_chars_contains PyStr.is_digit); assumption. }
    change (PyStr.isdigit (String "-" ds)) with false. cbv iota.
    rewrite (Hc ":"%char eq_refl eq_refl). cbv iota.
    rewrite (split_on_no_sep " " _ (Hc " "%char eq_refl eq_refl)).
    reflexivity.
Qed.

Lemma CRS_of_code_witness :
  CRS.init (CRS.Code 3857) =
  Ok {| CRS.auth := Some "EPSG"%string; CRS.code := Some 3857;
        CRS.proj4 := "+init=epsg:3857" |} /\
  CRS.init (CRS.Code (-1)) = Raise ValueError.
Proof.
  split.
  - apply (proj1 (CRS_of_code 3857)). lia.
  - apply (proj2 (CRS_of_code (-1))). lia.
Defined.

Lemma split_on_two_parts (sep : ascii) (s : string) :
  PyStr.contains sep s = true -> exists p q rest, PyStr.split_on sep s = p :: q :: rest.
Proof.
  induction s as [| c s IH]; [discriminate |].
  cbn. destruct (Ascii.eqb c sep) eqn:E.
  - intros _. destruct (PyStr.split_on sep s) as [| q rest] eqn:Hs;
      [exfalso; exact (split_on_nonempty sep s Hs) | eauto].
  - cbn. intros H. destruct (IH H) as (p & q & rest & ->). eauto.
Qed.

(** X26. [CRS("AUTH:CODE")], for an authority without colon that does not
    start with "+init=": when the code is made of decimal digits the
    authority is kept in upper case and the code as an integer (leading
    zeros are gone from the SRID); when it is not (letters, or a second
    colon) the constructor raises ValueError. *)
Theorem CRS_of_srid_text (a d : string) :
  PyStr.contains ":" a = false ->
  String.prefix "+init=" a = false ->
  PyStr.is_ascii_text (a +:+ ":" +:+ d) = true ->
  (PyStr.isdigit d = true ->
   exists self,
     CRS.init (CRS.Text (a +:+ ":" +:+ d)) = Ok self /\
     CRS.auth self = Some (PyStr.upper a) /\
     CRS.code self = Some (PyStr.int_of_digits d) /\
     CRS.SRID self = Some (PyStr.upper a +:+ ":" +:+ pretty (PyStr.int_of_digits d)))
  /\
  (PyStr.isdigit d = false -> CRS.init (CRS.Text (a +:+ ":" +:+ d)) = Raise ValueError).
Proof.
  intros Ha Hp _. split; intros Hd.
  - eexists. split; [apply (init_srid_text a d Ha Hd Hp) |]. repeat split.
  - assert (Hin : PyStr.contains ":" (a +:+ ":" +:+ d) = true).
    { rewrite contains_app. change (":" +:+ d) with (String ":" d). cbn.
      apply orb_true_r. }
    unfold CRS.init. cbn [CRS.str].
    rewrite (not_isdigit ":" _ Hin eq_refl), Hin.
    change (":" +:+ d) with (String ":" d).
    rewrite (split_on_app ":" a d Ha).
    destruct (PyStr.contains ":" d) eqn:Hc.
    + destruct (split_on_two_parts ":" d Hc) as (p & q & rest & ->). reflexivity.
    + rewrite (split_on_no_sep ":" d Hc).
      cbn [unpack2]. cbn [mbind result_mbind result_bind].
      rewrite Hd. reflexivity.
Qed.

Lemma CRS_of_srid_text_witness :
  (exists self,
      CRS.init (CRS.Text ("epsg" +:+ ":" +:+ "04326")) = Ok self /\
      CRS.auth self = Some (PyStr.upper "epsg") /\
      CRS.code self = Some (PyStr.int_of_digits "04326") /\
      CRS.SRID self = Some (PyStr.upper "epsg" +:+ ":" +:+ pretty (PyStr.int_of_digits "04326")))
  /\ PyStr.upper "epsg" = "EPSG"%string /\ PyStr.int_of_digits "04326" = 4326
  /\ CRS.init (CRS.Text ("IGNF" +:+ ":" +:+ "LAMB93")) = Raise ValueError.
Proof.
  split; [| split; [reflexivity | split; [reflexivity |]]].
  - apply (proj1 (CRS_of_srid_text "epsg" "04326" eq_refl eq_refl eq_refl)). reflexivity.
  - apply (proj2 (CRS_of_srid_text "IGNF" "LAMB93" eq_refl eq_refl eq_refl)). reflexivity.
Defined.

Lemma init_proj4_text (s : string) (self : CRS.t) :
  CRS.init (CRS.Text s) = Ok self -> CRS.auth self = None ->
  CRS.code self = None /\ CRS.proj4 self = s.
Proof.
  unfold CRS.init. cbn [CRS.str]. intros H Hauth.
  destruct (PyStr.isdigit s); [injection H as <-; discriminate |].
  destruct (PyStr.contains ":" s).
  - destruct (unpack2 (PyStr.split_on ":" s)) as [[a d] | e]; [| discriminate].
    cbn [mbind result_mbind result_bind] in H.
    destruct (PyStr.isdigit d); [| discriminate].
    destruct (if String.prefix "+init=" a
              then unpack2 (PyStr.split_on "=" a) ≫= λ '(_, a0), Ok a0 else Ok a)
      as [a' | e]; [| discriminate].
    cbn [mbind result_mbind result_bind] in H. injection H as <-. discriminate.
  - destruct (forallb (String.prefix "+") (PyStr.split_on " " s)); [| discriminate].
    injection H as <-. split; reflexivity.
Qed.

(** Every object that [CRS(..)] builds with an authority. *)
Lemma init_with_auth (crs : CRS.input) (self : CRS.t) (a : string) :
  CRS.init crs = Ok self -> CRS.auth self = Some a ->
  exists c,
    0 <= c /\ PyStr.upper a = a /\ PyStr.contains ":" a = false /\
    self = {| CRS.auth := Some a; CRS.code := Some c;
              CRS.proj4 := "+init=" +:+ PyStr.lower a +:+ ":" +:+ pretty c |}.
Proof.
  unfold CRS.init. intros H Hauth.
  destruct (PyStr.isdigit (CRS.str crs)) eqn:Hd.
  - injection H as <-. cbn in Hauth. injection Hauth as <-.
    exists (PyStr.int_of_digits (CRS.str crs)). repeat split.
    apply int_from_nonneg; [apply isdigit_all; exact Hd | lia].
  - destruct (PyStr.contains ":" (CRS.str crs)).
    + pose proof (split_on_parts ":" (CRS.str crs)) as Hparts.
      destruct (PyStr.split_on ":" (CRS.str crs)) as [| a0 [| d [| x rest]]];
        try discriminate H.
      cbn [unpack2 mbind result_mbind result_bind] in H.
      apply Forall_cons_1 in Hparts. destruct Hparts as [[Ha0 _] _].
      destruct (PyStr.isdigit d) eqn:Hdd; [| discriminate].
      assert (Ha1 : exists a1, PyStr.contains ":" a1 = false /\
                (if String.prefix "+init=" a0
                 then unpack2 (PyStr.split_on "=" a0) ≫= λ '(_, a2), Ok a2
                 else Ok a0) = Ok a1).
      { destruct (String.prefix "+init=" a0); [| eauto].
        pose proof (split_on_parts "=" a0) as Hp.
        destruct (PyStr.split_on "=" a0) as [| p [| q [| x rest]]]; try discriminate H.
        exists q. split; [| reflexivity].
        apply Forall_cons_1 in Hp. destruct Hp as [_ Hp].
        apply Forall_cons_1 in Hp. destruct Hp as [[_ Hsub] _].
        destruct (PyStr.contains ":" q) eqn:E; [| reflexivity].
        rewrite (Hsub ":"%char E) in Ha0. discriminate. }
      destruct Ha1 as (a1 & Ha1 & Heq). rewrite Heq in H.
      cbn [mbind result_mbind result_bind] in H. injection H as <-.
      cbn in Hauth. injection Hauth as <-.
      exists (PyStr.int_of_digits d). split; [| split; [| split]].
      * apply int_from_nonneg; [apply isdigit_all; exact Hdd | lia].
      * apply upper_idem.
      * rewrite contains_colon_upper. exact Ha1.
      * reflexivity.
    + destruct (forallb (String.prefix "+") (PyStr.split_on " " (CRS.str crs)));
        [| discriminate].
      injection H as <-. discriminate.
Qed.

(** X27. [str] and [CRS] round trip: for every input that [CRS(..)] accepts,
    building a CRS from the text that [__str__] gives for the object builds
    the same object again (same authority, code and proj4 text). *)
Theorem CRS_init_of_to_string (crs : CRS.input) (self : CRS.t) :
  PyStr.is_ascii_text (CRS.str crs) = true ->
  CRS.init crs = Ok self ->
  CRS.init (CRS.Text (CRS.to_string self)) = Ok self.
Proof.
  intros _ H.
  destruct (CRS.auth self) as [a |] eqn:Hauth.
  - destruct (init_with_auth crs self a H Hauth) as (c & Hc & Hup & Hcolon & ->).
    destruct (pretty_nonnegative c Hc) as (Hd & Hv & _).
    unfold CRS.to_string, CRS.SRID. cbn [CRS.auth CRS.code].
    rewrite (init_srid_text a (pretty c) Hcolon Hd).
    + rewrite Hup, Hv. reflexivity.
    + rewrite <- Hup. apply prefix_init_upper.
  - assert (Hs : CRS.to_string self = CRS.proj4 self)
      by (unfold CRS.to_string, CRS.SRID; rewrite Hauth; reflexivity).
    rewrite Hs.
    assert (Htext : CRS.init (CRS.Text (CRS.str crs)) = Ok self) by exact H.
    destruct (init_proj4_text _ _ Htext Hauth) as [_ ->]. exact Htext.
Qed.

Lemma CRS_init_of_to_string_witness :
  CRS.init (CRS.Text (CRS.to_string
    {| CRS.auth := Some "EPSG"%string; CRS.code := Some 3857;
       CRS.proj4 := "+init=epsg:3857" |}))
  = Ok {| CRS.auth := Some "EPSG"%string; CRS.code := Some 3857;
          CRS.proj4 := "+init=epsg:3857" |}.
Proof.
  apply (CRS_init_of_to_string (CRS.Text "+init=epsg:3857")); reflexivity.
Defined.

(** * The requests of reprojMany_EPSGio *)



Lemma py_join_length (part : list string) :
  part <> [] ->
  Z.of_nat (String.length (PyStr.join ";" part)) = EPSGio.part_length part - 1.
Proof.
  unfold EPSGio.part_length.
  induction part as [| p part IH]; intros Hne; [contradiction |].
  destruct part as [| q part].
  - cbn. lia.
  - change (PyStr.join ";" (p :: q :: part)) with (p +:+ ";" +:+ PyStr.join ";" (q :: part)).
    rewrite !string_app_length. rewrite !Nat2Z.inj_add.
    rewrite IH by discriminate.
    change (String.length ";") with 1%nat.
    cbn [map fold_right length]. lia.
Qed.

Lemma part_length_snoc (part : list string) (p : string) :
  EPSGio.part_length (part ++ [p]) =
  EPSGio.part_length part + Z.of_nat (String.length p) + 1.
Proof.
  unfold EPSGio.part_length. rewrite map_app, length_app. cbn [map length].
  induction part as [| q part IH]; cbn [app map fold_right length] in *; lia.
Qed.



Lemma group_loop_spec (n : Z) (rest : list string) :
  forall (k : nat) (part : list string) (parts : list (list string)),
    rest <> [] ->
    Z.of_nat k + Z.of_nat (length rest) = n ->
    exists final,
      EPSGio.group_loop n (combine (map Z.of_nat (seq k (length rest))) rest) part parts
      = parts ++ final /\
      concat final = part ++ rest /\
      (Forall (fun p => (String.length p < 4000)%nat) rest ->
       part = [] \/ fits part ->
       Forall fits final).
Proof.
  induction rest as [| p rest IH]; intros k part parts Hne Hn; [contradiction |].
  cbn [Datatypes.length seq map combine EPSGio.group_loop].
  set (l := EPSGio.part_length part).
  assert (Hlast : (Z.of_nat k =? n - 1) = match rest with [] => true | _ => false end).
  { destruct rest; cbn [Datatypes.length] in Hn; [apply Z.eqb_eq | apply Z.eqb_neq]; lia. }
  destruct (Z.ltb_spec (l + Z.of_nat (String.length p)) 4000) as [Hfit | Hfull].
  - (* the point joins the current part *)
    assert (Hgood : fits (part ++ [p])).
    { split; [destruct part; discriminate |].
      rewrite py_join_length by (destruct part; discriminate).
      rewrite part_length_snoc. fold l. lia. }
    rewrite Hlast. destruct rest as [| q rest].
    + exists [part ++ [p]]. split; [reflexivity |]. split.
      * cbn [concat]. apply app_nil_r.
      * intros _ _. constructor; [exact Hgood | constructor].
    + assert (Hn' : Z.of_nat (S k) + Z.of_nat (length (q :: rest)) = n).
      { cbn [Datatypes.length] in *. clear - Hn. lia. }
      destruct (IH (S k) (part ++ [p]) parts ltac:(discriminate) Hn')
        as (final & Hrun & Hcat & Hfits).
      exists final. split; [exact Hrun |]. split.
      * rewrite Hcat, <- app_assoc. reflexivity.
      * intros Hall _. apply Hfits; [| right; exact Hgood].
        apply Forall_cons_1 in Hall. apply Hall.
  - (* the current part is closed and the point starts a new one *)
    rewrite Hlast. destruct rest as [| q rest].
    + exists [part; [p]]. split; [rewrite <- app_assoc; reflexivity |]. split.
      * cbn [concat]. rewrite app_nil_r. reflexivity.
      * intros Hall Hpart. apply Forall_cons_1 in Hall. destruct Hall as [Hp _].
        destruct Hpart as [-> | Hpart].
        { exfalso. subst l. unfold EPSGio.part_length in Hfull.
          cbn [map fold_right Datatypes.length] in Hfull. lia. }
        constructor; [exact Hpart |]. constructor; [| constructor].
        split; [discriminate | cbn [PyStr.join]; lia].
    + assert (Hn' : Z.of_nat (S k) + Z.of_nat (length (q :: rest)) = n)
        by (cbn [Datatypes.length] in *; clear - Hn; lia).
      destruct (IH (S k) [p] (parts ++ [part]) ltac:(discriminate) Hn')
        as (final & Hrun & Hcat & Hfits).
      exists (part :: final). split; [rewrite Hrun, <- app_assoc; reflexivity |]. split.
      * cbn [concat]. rewrite Hcat. reflexivity.
      * intros Hall Hpart. apply Forall_cons_1 in Hall. destruct Hall as [Hp Hall].
        destruct Hpart as [-> | Hpart].
        { exfalso. subst l. unfold EPSGio.part_length in Hfull.
          cbn [map fold_right Datatypes.length] in Hfull. lia. }
        constructor; [exact Hpart |].
        apply Hfits; [exact Hall |]. right. split; [discriminate | cbn [PyStr.join]; lia].
Qed.

(** X28. The grouping of [reprojMany_EPSGio] loses no point and keeps the
    order: the parts, one after the other, are the formatted points.  When
    every formatted point is shorter than 4000 characters no part is empty
    and the text of every part, joined with ";", is shorter than 4000
    characters. *)
Theorem EPSGio_groups_partition (data : list string) :
  concat (EPSGio.groups data) = data /\
  (Forall (fun p => (String.length p < 4000)%nat) data ->
   Forall (fun part => part <> [] /\
                       (String.length (PyStr.join ";" part) < 4000)%nat)
          (EPSGio.groups data)).
Proof.
  unfold EPSGio.groups, enumerate, py_range. rewrite Nat2Z.id.
  destruct data as [| p data]; [split; [reflexivity | constructor] |].
  destruct (group_loop_spec (Z.of_nat (length (p :: data))) (p :: data) 0 [] []
              ltac:(discriminate) ltac:(lia)) as (final & Hrun & Hcat & Hfits).
  rewrite Hrun. cbn [app]. split; [exact Hcat |].
  intros Hall. eapply List.Forall_impl; [| apply (Hfits Hall); left; reflexivity].
  cbn beta. intros part [Hne Hlen]. split; [exact Hne | lia].
Qed.

Lemma EPSGio_groups_partition_witness :
  concat (EPSGio.groups ["1.5,2.5"; "3.0,4.0"; "5.0,6.0"])
  = ["1.5,2.5"; "3.0,4.0"; "5.0,6.0"].
Proof. apply (proj1 (EPSGio_groups_partition _)). Defined.

(** * geoscene/proj.py: class Reproj *)


Lemma py_min_le (v : Q) (vs : list Q) :
  (py_min v vs <= v)%Q /\ Forall (fun x => (py_min v vs <= x)%Q) vs.
Proof.
  unfold py_min. revert v. induction vs as [| x vs IH]; intros v.
  - split; [apply Qle_refl | constructor].
  - cbn [fold_left]. destruct (Qlt_bool x v) eqn:E.
    + apply Qlt_bool_iff in E. destruct (IH x) as [Hx Hvs].
      split; [lra |]. constructor; [exact Hx | exact Hvs].
    + apply Qlt_bool_false in E. destruct (IH v) as [Hv Hvs].
      split; [exact Hv |]. constructor; [lra | exact Hvs].
Qed.

Lemma py_max_ge (v : Q) (vs : list Q) :
  (v <= py_max v vs)%Q /\ Forall (fun x => (x <= py_max v vs)%Q) vs.
Proof.
  unfold py_max. revert v. induction vs as [| x vs IH]; intros v.
  - split; [apply Qle_refl | constructor].
  - cbn [fold_left]. destruct (Qlt_bool v x) eqn:E.
    + apply Qlt_bool_iff in E. destruct (IH x) as [Hx Hvs].
      split; [lra |]. constructor; [exact Hx | exact Hvs].
    + apply Qlt_bool_false in E. destruct (IH v) as [Hv Hvs].
      split; [exact Hv |]. constructor; [lra | exact Hvs].
Qed.

(** X29. The box that [Reproj.bbox] returns contains the images of the four
    corners of the box it was given, whatever the transformation is. *)
Theorem Reproj_bbox_contains_corners (pts : list (Q * Q) -> result (list (Q * Q)))
    (xmin ymin xmax ymax x0 y0 x1 y1 : Q) :
  Reproj.bbox pts (xmin, ymin, xmax, ymax) = Ok (x0, y0, x1, y1) ->
  forall x y : Q,
    (x = xmin \/ x = xmax) -> (y = ymin \/ y = ymax) ->
    exists px py,
      Reproj.pt pts (Some x) (Some y) = Ok (px, py) /\
      (x0 <= px /\ px <= x1 /\ y0 <= py /\ py <= y1)%Q.
Proof.
  unfold Reproj.bbox. intros H x y Hx Hy.
  destruct (Reproj.pt pts (Some xmin) (Some ymax)) as [[ulx uly] | e] eqn:Hul;
    [| discriminate].
  destruct (Reproj.pt pts (Some xmax) (Some ymax)) as [[urx ury] | e] eqn:Hur;
    [| discriminate].
  destruct (Reproj.pt pts (Some xmax) (Some ymin)) as [[brx bry] | e] eqn:Hbr;
    [| discriminate].
  destruct (Reproj.pt pts (Some xmin) (Some ymin)) as [[blx bly] | e] eqn:Hbl;
    [| discriminate].
  cbn in H. injection H as <- <- <- <-.
  destruct (py_min_le ulx [urx; brx; blx]) as [Hx0 Hx0'].
  destruct (py_max_ge ulx [urx; brx; blx]) as [Hx1 Hx1'].
  destruct (py_min_le uly [ury; bry; bly]) as [Hy0 Hy0'].
  destruct (py_max_ge uly [ury; bry; bly]) as [Hy1 Hy1'].
  repeat match goal with
         | H : Forall _ (_ :: _) |- _ =>
             let Hh := fresh "Hh" in
             apply Forall_cons_1 in H; destruct H as [Hh H]
         end.
  destruct Hx as [-> | ->], Hy as [-> | ->].
  - exists blx, bly. split; [exact Hbl | auto].
  - exists ulx, uly. split; [exact Hul | auto].
  - exists brx, bry. split; [exact Hbr | auto].
  - exists urx, ury. split; [exact Hur | auto].
Qed.

Lemma Reproj_bbox_contains_corners_witness :
  exists px py,
    Reproj.pt same_points (Some 3%Q) (Some 2%Q) = Ok (px, py) /\
    (1 <= px /\ px <= 3 /\ 2 <= py /\ py <= 4)%Q.
Proof.
  apply (Reproj_bbox_contains_corners same_points 1 2 3 4 1 2 3 4).
  - reflexivity.
  - right. reflexivity.
  - left. reflexivity.
Defined.

(** * geoscene/proj.py: Web Mercator *)


Lemma WebMercator_k_pos : (0 < WebMercator.k)%R.
Proof.
  unfold WebMercator.k. pose proof PI_RGT_0 as Hpi.
  apply Rdiv_lt_0_compat; [| Lra.lra].
  apply Rmult_lt_0_compat; Lra.lra.
Qed.

Lemma half_angle_range (lat : R) :
  (-90 < lat < 90)%R -> (0 < (90 + lat) * PI / 360 < PI / 2)%R.
Proof.
  intros [Hlo Hhi]. pose proof PI_RGT_0 as Hpi.
  replace ((90 + lat) * PI / 360)%R with ((90 + lat) / 360 * PI)%R by (field; Lra.lra).
  replace (PI / 2)%R with (180 / 360 * PI)%R by field.
  split.
  - apply Rmult_lt_0_compat; Lra.lra.
  - apply Rmult_lt_compat_r; Lra.lra.
Qed.

(** X30. The built-in formulas are inverse to each other over the reals:
    a longitude and a latitude strictly between -90 and 90 degrees go to Web
    Mercator coordinates (the logarithm is defined there) and come back
    unchanged, and Web Mercator coordinates go to degrees and come back
    unchanged. *)
Theorem WebMercator_round_trip :
  (forall lon lat : R,
      (-90 < lat < 90)%R ->
      exists x y,
        WebMercator.lonLatToWebMerc lon lat = Ok (x, y) /\
        WebMercator.webMercToLonLat x y = (lon, lat))
  /\
  (forall x y : R,
      WebMercator.lonLatToWebMerc (WebMercator.webMercToLonLat x y).1
                                  (WebMercator.webMercToLonLat x y).2
      = Ok (x, y)).
Proof.
  pose proof PI_RGT_0 as Hpi. pose proof WebMercator_k_pos as Hk.
  split.
  - intros lon lat Hlat.
    pose proof (half_angle_range lat Hlat) as [Ha0 Ha1].
    pose proof (tan_gt_0 _ Ha0 Ha1) as Htan.
    unfold WebMercator.lonLatToWebMerc, WebMercator.math_log.
    destruct (Rle_dec (tan ((90 + lat) * PI / 360)) 0) as [Hle | _]; [Lra.lra |].
    cbn [mbind result_mbind result_bind].
    eexists. eexists. split; [reflexivity |].
    unfold WebMercator.webMercToLonLat. f_equal.
    + field. Lra.lra.
    + replace (ln (tan ((90 + lat) * PI / 360)) / (PI / 180) * WebMercator.k
               / WebMercator.k * PI / 180)%R
        with (ln (tan ((90 + lat) * PI / 360))) by (field; split; Lra.lra).
      rewrite exp_ln by exact Htan.
      rewrite atan_tan by (split; Lra.lra).
      field. Lra.lra.
  - intros x y. unfold WebMercator.webMercToLonLat. cbn [fst snd].
    set (e := exp (y / WebMercator.k * PI / 180)).
    assert (He : (0 < e)%R) by apply exp_pos.
    unfold WebMercator.lonLatToWebMerc, WebMercator.math_log.
    replace ((90 + 180 / PI * (2 * atan e - PI / 2)) * PI / 360)%R
      with (atan e) by (field; Lra.lra).
    rewrite tan_atan.
    destruct (Rle_dec e 0) as [Hle | _]; [Lra.lra |].
    cbn [mbind result_mbind result_bind]. subst e. rewrite ln_exp.
    f_equal. f_equal; field; try split; Lra.lra.
Qed.
